(** * Gene resolution against a census gene dictionary

    A shallow embedding of [src/gene_resolver.py]: the [GeneMatch] and
    [GeneDict] data classes, the stable-identifier pattern
    [_ENSEMBL_PATTERN], the resolution loop [resolve_genes], the filter
    builder [build_var_value_filter] and the cache-then-fetch control flow
    of [_get_gene_dict].

    A Python [str] is a sequence of Unicode code points; it is modelled by
    the [string] of its UTF-8 bytes, so that equality of strings is
    equality of [str] values and the lexicographic order on bytes is the
    order of [str].  [PyStr.decode] gives the code points back, a byte that
    belongs to no well-formed sequence being read as the code point
    U+DC00 + byte, as Python's surrogateescape does.  White space
    ([str.strip]), the decimal digits ([\d]) and the word characters
    ([\W]) are those of Unicode 14.0, the tables of CPython 3.11.
    [PyStr.upper] is [str.upper] with the case mapping of the same
    tables.  [str.lower] acts on ASCII letters only here; it is used once,
    to form the key under which the organism is looked up in the census.
    Dictionaries are [gmap]s with string keys, [set] is a [gset] and
    [sorted] is a merge sort for the lexicographic order on strings. *)

From Stdlib Require Import Ascii NArith.
From stdpp Require Import gmap strings list sorting.

(** ** Python string primitives *)

Module PyStr.

(** *** Bytes and their ASCII classes *)

Definition code (c : ascii) : nat := nat_of_ascii c.

Definition between (lo hi : nat) (c : ascii) : bool :=
  ((lo <=? code c) && (code c <=? hi))%nat.

Definition isdigit (c : ascii) : bool := between 48 57 c.
Definition isupper (c : ascii) : bool := between 65 90 c.
Definition islower (c : ascii) : bool := between 97 122 c.

Definition upper_char (c : ascii) : ascii :=
  if islower c then ascii_of_nat (code c - 32) else c.

Definition lower_char (c : ascii) : ascii :=
  if isupper c then ascii_of_nat (code c + 32) else c.

Fixpoint all (p : ascii -> bool) (s : string) : bool :=
  match s with
  | EmptyString => true
  | String c r => p c && all p r
  end.

(** Every character of the [str] is below U+0080. *)
Definition is_ascii (s : string) : bool := all (fun c => code c <? 128)%nat s.

(** *** Code points *)

Definition byte (c : ascii) : N := N_of_ascii c.
Definition chr (n : N) : ascii := ascii_of_N n.

(** The UTF-8 bytes of a code point. *)
Definition utf8 (c : N) : string :=
  (if decide (c < 128) then String (chr c) ""
   else if decide (c < 2048) then
     String (chr (192 + c / 64)) (String (chr (128 + c mod 64)) "")
   else if decide (c < 65536) then
     String (chr (224 + c / 4096))
       (String (chr (128 + (c / 64) mod 64)) (String (chr (128 + c mod 64)) ""))
   else
     String (chr (240 + c / 262144))
       (String (chr (128 + (c / 4096) mod 64))
          (String (chr (128 + (c / 64) mod 64))
             (String (chr (128 + c mod 64)) ""))))%N.

Fixpoint encode (l : list N) : string :=
  match l with
  | [] => ""
  | c :: r => utf8 c +:+ encode r
  end.

(** A continuation byte, 10xxxxxx. *)
Definition is_cont (n : N) : bool := bool_decide (128 ≤ n ∧ n ≤ 191)%N.

Definition cp2 (n1 n2 : N) : N := ((n1 - 192) * 64 + (n2 - 128))%N.
Definition cp3 (n1 n2 n3 : N) : N :=
  ((n1 - 224) * 4096 + (n2 - 128) * 64 + (n3 - 128))%N.
Definition cp4 (n1 n2 n3 n4 : N) : N :=
  ((n1 - 240) * 262144 + (n2 - 128) * 4096 + (n3 - 128) * 64 + (n4 - 128))%N.

(** Well-formed sequences of two, three and four bytes: the shortest
    encoding only, no surrogate, nothing above U+10FFFF. *)
Definition valid2 (n1 n2 : N) : bool :=
  bool_decide (194 ≤ n1 ∧ n1 ≤ 223)%N && is_cont n2.
Definition valid3 (n1 n2 n3 : N) : bool :=
  bool_decide (224 ≤ n1 ∧ n1 ≤ 239)%N && is_cont n2 && is_cont n3 &&
  bool_decide (2048 ≤ cp3 n1 n2 n3 ∧
               (cp3 n1 n2 n3 < 55296 ∨ 57343 < cp3 n1 n2 n3))%N.
Definition valid4 (n1 n2 n3 n4 : N) : bool :=
  bool_decide (240 ≤ n1 ∧ n1 ≤ 244)%N && is_cont n2 && is_cont n3 &&
  is_cont n4 &&
  bool_decide (65536 ≤ cp4 n1 n2 n3 n4 ∧ cp4 n1 n2 n3 n4 ≤ 1114111)%N.

(** The code point that stands for a byte outside every well-formed
    sequence. *)
Definition escape (n : N) : N := (56320 + n)%N.

(** The code points of a [str], from its bytes. *)
Fixpoint decode (s : string) : list N :=
  match s with
  | EmptyString => []
  | String b1 r1 =>
      let n1 := byte b1 in
      if decide (n1 < 128)%N then n1 :: decode r1 else
      match r1 with
      | EmptyString => escape n1 :: decode r1
      | String b2 r2 =>
          let n2 := byte b2 in
          if valid2 n1 n2 then cp2 n1 n2 :: decode r2 else
          match r2 with
          | EmptyString => escape n1 :: decode r1
          | String b3 r3 =>
              let n3 := byte b3 in
              if valid3 n1 n2 n3 then cp3 n1 n2 n3 :: decode r3 else
              match r3 with
              | EmptyString => escape n1 :: decode r1
              | String b4 r4 =>
                  let n4 := byte b4 in
                  if valid4 n1 n2 n3 n4 then cp4 n1 n2 n3 n4 :: decode r4
                  else escape n1 :: decode r1
              end
          end
      end
  end.

(** The characters for which [str.isspace] holds, which are the ones
    [str.strip] removes: U+0009-000D, U+001C-0020, U+0085, U+00A0,
    U+1680, U+2000-200A, U+2028, U+2029, U+202F, U+205F, U+3000. *)
Definition whitespace : list N :=
  [9; 10; 11; 12; 13; 28; 29; 30; 31; 32; 133; 160; 5760;
   8192; 8193; 8194; 8195; 8196; 8197; 8198; 8199; 8200; 8201; 8202;
   8232; 8233; 8239; 8287; 12288]%N.

Definition isspace (c : N) : bool := bool_decide (c ∈ whitespace).

(** The decimal digits (general category Nd), as ranges. *)
Definition decimal_ranges : list (N * N) :=
  [
   (48, 57); (1632, 1641); (1776, 1785); (1984, 1993); (2406, 2415);
   (2534, 2543); (2662, 2671); (2790, 2799); (2918, 2927); (3046, 3055);
   (3174, 3183); (3302, 3311); (3430, 3439); (3558, 3567); (3664, 3673);
   (3792, 3801); (3872, 3881); (4160, 4169); (4240, 4249); (6112, 6121);
   (6160, 6169); (6470, 6479); (6608, 6617); (6784, 6793); (6800, 6809);
   (6992, 7001); (7088, 7097); (7232, 7241); (7248, 7257); (42528, 42537);
   (43216, 43225); (43264, 43273); (43472, 43481); (43504, 43513);
   (43600, 43609); (44016, 44025); (65296, 65305); (66720, 66729);
   (68912, 68921); (69734, 69743); (69872, 69881); (69942, 69951);
   (70096, 70105); (70384, 70393); (70736, 70745); (70864, 70873);
   (71248, 71257); (71360, 71369); (71472, 71481); (71904, 71913);
   (72016, 72025); (72784, 72793); (73040, 73049); (73120, 73129);
   (92768, 92777); (92864, 92873); (93008, 93017); (120782, 120831);
   (123200, 123209); (123632, 123641); (125264, 125273); (130032, 130041)
  ]%N.

Definition in_ranges (rs : list (N * N)) (c : N) : bool :=
  existsb (fun r => (fst r <=? c) && (c <=? snd r))%N rs.

Definition isdecimal (c : N) : bool := in_ranges decimal_ranges c.

(** The letters and digits of Unicode: what [\w] matches, less the
    underscore. *)
Definition alnum_ranges : list (N * N) :=
  [
   (48, 57); (65, 90); (97, 122); (170, 170); (178, 179); (181, 181);
   (185, 186); (188, 190); (192, 214); (216, 246); (248, 705); (710, 721);
   (736, 740); (748, 748); (750, 750); (880, 884); (886, 887); (890, 893);
   (895, 895); (902, 902); (904, 906); (908, 908); (910, 929); (931, 1013);
   (1015, 1153); (1162, 1327); (1329, 1366); (1369, 1369); (1376, 1416);
   (1488, 1514); (1519, 1522); (1568, 1610); (1632, 1641); (1646, 1647);
   (1649, 1747); (1749, 1749); (1765, 1766); (1774, 1788); (1791, 1791);
   (1808, 1808); (1810, 1839); (1869, 1957); (1969, 1969); (1984, 2026);
   (2036, 2037); (2042, 2042); (2048, 2069); (2074, 2074); (2084, 2084);
   (2088, 2088); (2112, 2136); (2144, 2154); (2160, 2183); (2185, 2190);
   (2208, 2249); (2308, 2361); (2365, 2365); (2384, 2384); (2392, 2401);
   (2406, 2415); (2417, 2432); (2437, 2444); (2447, 2448); (2451, 2472);
   (2474, 2480); (2482, 2482); (2486, 2489); (2493, 2493); (2510, 2510);
   (2524, 2525); (2527, 2529); (2534, 2545); (2548, 2553); (2556, 2556);
   (2565, 2570); (2575, 2576); (2579, 2600); (2602, 2608); (2610, 2611);
   (2613, 2614); (2616, 2617); (2649, 2652); (2654, 2654); (2662, 2671);
   (2674, 2676); (2693, 2701); (2703, 2705); (2707, 2728); (2730, 2736);
   (2738, 2739); (2741, 2745); (2749, 2749); (2768, 2768); (2784, 2785);
   (2790, 2799); (2809, 2809); (2821, 2828); (2831, 2832); (2835, 2856);
   (2858, 2864); (2866, 2867); (2869, 2873); (2877, 2877); (2908, 2909);
   (2911, 2913); (2918, 2927); (2929, 2935); (2947, 2947); (2949, 2954);
   (2958, 2960); (2962, 2965); (2969, 2970); (2972, 2972); (2974, 2975);
   (2979, 2980); (2984, 2986); (2990, 3001); (3024, 3024); (3046, 3058);
   (3077, 3084); (3086, 3088); (3090, 3112); (3114, 3129); (3133, 3133);
   (3160, 3162); (3165, 3165); (3168, 3169); (3174, 3183); (3192, 3198);
   (3200, 3200); (3205, 3212); (3214, 3216); (3218, 3240); (3242, 3251);
   (3253, 3257); (3261, 3261); (3293, 3294); (3296, 3297); (3302, 3311);
   (3313, 3314); (3332, 3340); (3342, 3344); (3346, 3386); (3389, 3389);
   (3406, 3406); (3412, 3414); (3416, 3425); (3430, 3448); (3450, 3455);
   (3461, 3478); (3482, 3505); (3507, 3515); (3517, 3517); (3520, 3526);
   (3558, 3567); (3585, 3632); (3634, 3635); (3648, 3654); (3664, 3673);
   (3713, 3714); (3716, 3716); (3718, 3722); (3724, 3747); (3749, 3749);
   (3751, 3760); (3762, 3763); (3773, 3773); (3776, 3780); (3782, 3782);
   (3792, 3801); (3804, 3807); (3840, 3840); (3872, 3891); (3904, 3911);
   (3913, 3948); (3976, 3980); (4096, 4138); (4159, 4169); (4176, 4181);
   (4186, 4189); (4193, 4193); (4197, 4198); (4206, 4208); (4213, 4225);
   (4238, 4238); (4240, 4249); (4256, 4293); (4295, 4295); (4301, 4301);
   (4304, 4346); (4348, 4680); (4682, 4685); (4688, 4694); (4696, 4696);
   (4698, 4701); (4704, 4744); (4746, 4749); (4752, 4784); (4786, 4789);
   (4792, 4798); (4800, 4800); (4802, 4805); (4808, 4822); (4824, 4880);
   (4882, 4885); (4888, 4954); (4969, 4988); (4992, 5007); (5024, 5109);
   (5112, 5117); (5121, 5740); (5743, 5759); (5761, 5786); (5792, 5866);
   (5870, 5880); (5888, 5905); (5919, 5937); (5952, 5969); (5984, 5996);
   (5998, 6000); (6016, 6067); (6103, 6103); (6108, 6108); (6112, 6121);
   (6128, 6137); (6160, 6169); (6176, 6264); (6272, 6276); (6279, 6312);
   (6314, 6314); (6320, 6389); (6400, 6430); (6470, 6509); (6512, 6516);
   (6528, 6571); (6576, 6601); (6608, 6618); (6656, 6678); (6688, 6740);
   (6784, 6793); (6800, 6809); (6823, 6823); (6917, 6963); (6981, 6988);
   (6992, 7001); (7043, 7072); (7086, 7141); (7168, 7203); (7232, 7241);
   (7245, 7293); (7296, 7304); (7312, 7354); (7357, 7359); (7401, 7404);
   (7406, 7411); (7413, 7414); (7418, 7418); (7424, 7615); (7680, 7957);
   (7960, 7965); (7968, 8005); (8008, 8013); (8016, 8023); (8025, 8025);
   (8027, 8027); (8029, 8029); (8031, 8061); (8064, 8116); (8118, 8124);
   (8126, 8126); (8130, 8132); (8134, 8140); (8144, 8147); (8150, 8155);
   (8160, 8172); (8178, 8180); (8182, 8188); (8304, 8305); (8308, 8313);
   (8319, 8329); (8336, 8348); (8450, 8450); (8455, 8455); (8458, 8467);
   (8469, 8469); (8473, 8477); (8484, 8484); (8486, 8486); (8488, 8488);
   (8490, 8493); (8495, 8505); (8508, 8511); (8517, 8521); (8526, 8526);
   (8528, 8585); (9312, 9371); (9450, 9471); (10102, 10131); (11264, 11492);
   (11499, 11502); (11506, 11507); (11517, 11517); (11520, 11557);
   (11559, 11559); (11565, 11565); (11568, 11623); (11631, 11631);
   (11648, 11670); (11680, 11686); (11688, 11694); (11696, 11702);
   (11704, 11710); (11712, 11718); (11720, 11726); (11728, 11734);
   (11736, 11742); (11823, 11823); (12293, 12295); (12321, 12329);
   (12337, 12341); (12344, 12348); (12353, 12438); (12445, 12447);
   (12449, 12538); (12540, 12543); (12549, 12591); (12593, 12686);
   (12690, 12693); (12704, 12735); (12784, 12799); (12832, 12841);
   (12872, 12879); (12881, 12895); (12928, 12937); (12977, 12991);
   (13312, 19903); (19968, 42124); (42192, 42237); (42240, 42508);
   (42512, 42539); (42560, 42606); (42623, 42653); (42656, 42735);
   (42775, 42783); (42786, 42888); (42891, 42954); (42960, 42961);
   (42963, 42963); (42965, 42969); (42994, 43009); (43011, 43013);
   (43015, 43018); (43020, 43042); (43056, 43061); (43072, 43123);
   (43138, 43187); (43216, 43225); (43250, 43255); (43259, 43259);
   (43261, 43262); (43264, 43301); (43312, 43334); (43360, 43388);
   (43396, 43442); (43471, 43481); (43488, 43492); (43494, 43518);
   (43520, 43560); (43584, 43586); (43588, 43595); (43600, 43609);
   (43616, 43638); (43642, 43642); (43646, 43695); (43697, 43697);
   (43701, 43702); (43705, 43709); (43712, 43712); (43714, 43714);
   (43739, 43741); (43744, 43754); (43762, 43764); (43777, 43782);
   (43785, 43790); (43793, 43798); (43808, 43814); (43816, 43822);
   (43824, 43866); (43868, 43881); (43888, 44002); (44016, 44025);
   (44032, 55203); (55216, 55238); (55243, 55291); (63744, 64109);
   (64112, 64217); (64256, 64262); (64275, 64279); (64285, 64285);
   (64287, 64296); (64298, 64310); (64312, 64316); (64318, 64318);
   (64320, 64321); (64323, 64324); (64326, 64433); (64467, 64829);
   (64848, 64911); (64914, 64967); (65008, 65019); (65136, 65140);
   (65142, 65276); (65296, 65305); (65313, 65338); (65345, 65370);
   (65382, 65470); (65474, 65479); (65482, 65487); (65490, 65495);
   (65498, 65500); (65536, 65547); (65549, 65574); (65576, 65594);
   (65596, 65597); (65599, 65613); (65616, 65629); (65664, 65786);
   (65799, 65843); (65856, 65912); (65930, 65931); (66176, 66204);
   (66208, 66256); (66273, 66299); (66304, 66339); (66349, 66378);
   (66384, 66421); (66432, 66461); (66464, 66499); (66504, 66511);
   (66513, 66517); (66560, 66717); (66720, 66729); (66736, 66771);
   (66776, 66811); (66816, 66855); (66864, 66915); (66928, 66938);
   (66940, 66954); (66956, 66962); (66964, 66965); (66967, 66977);
   (66979, 66993); (66995, 67001); (67003, 67004); (67072, 67382);
   (67392, 67413); (67424, 67431); (67456, 67461); (67463, 67504);
   (67506, 67514); (67584, 67589); (67592, 67592); (67594, 67637);
   (67639, 67640); (67644, 67644); (67647, 67669); (67672, 67702);
   (67705, 67742); (67751, 67759); (67808, 67826); (67828, 67829);
   (67835, 67867); (67872, 67897); (67968, 68023); (68028, 68047);
   (68050, 68096); (68112, 68115); (68117, 68119); (68121, 68149);
   (68160, 68168); (68192, 68222); (68224, 68255); (68288, 68295);
   (68297, 68324); (68331, 68335); (68352, 68405); (68416, 68437);
   (68440, 68466); (68472, 68497); (68521, 68527); (68608, 68680);
   (68736, 68786); (68800, 68850); (68858, 68899); (68912, 68921);
   (69216, 69246); (69248, 69289); (69296, 69297); (69376, 69415);
   (69424, 69445); (69457, 69460); (69488, 69505); (69552, 69579);
   (69600, 69622); (69635, 69687); (69714, 69743); (69745, 69746);
   (69749, 69749); (69763, 69807); (69840, 69864); (69872, 69881);
   (69891, 69926); (69942, 69951); (69956, 69956); (69959, 69959);
   (69968, 70002); (70006, 70006); (70019, 70066); (70081, 70084);
   (70096, 70106); (70108, 70108); (70113, 70132); (70144, 70161);
   (70163, 70187); (70272, 70278); (70280, 70280); (70282, 70285);
   (70287, 70301); (70303, 70312); (70320, 70366); (70384, 70393);
   (70405, 70412); (70415, 70416); (70419, 70440); (70442, 70448);
   (70450, 70451); (70453, 70457); (70461, 70461); (70480, 70480);
   (70493, 70497); (70656, 70708); (70727, 70730); (70736, 70745);
   (70751, 70753); (70784, 70831); (70852, 70853); (70855, 70855);
   (70864, 70873); (71040, 71086); (71128, 71131); (71168, 71215);
   (71236, 71236); (71248, 71257); (71296, 71338); (71352, 71352);
   (71360, 71369); (71424, 71450); (71472, 71483); (71488, 71494);
   (71680, 71723); (71840, 71922); (71935, 71942); (71945, 71945);
   (71948, 71955); (71957, 71958); (71960, 71983); (71999, 71999);
   (72001, 72001); (72016, 72025); (72096, 72103); (72106, 72144);
   (72161, 72161); (72163, 72163); (72192, 72192); (72203, 72242);
   (72250, 72250); (72272, 72272); (72284, 72329); (72349, 72349);
   (72368, 72440); (72704, 72712); (72714, 72750); (72768, 72768);
   (72784, 72812); (72818, 72847); (72960, 72966); (72968, 72969);
   (72971, 73008); (73030, 73030); (73040, 73049); (73056, 73061);
   (73063, 73064); (73066, 73097); (73112, 73112); (73120, 73129);
   (73440, 73458); (73648, 73648); (73664, 73684); (73728, 74649);
   (74752, 74862); (74880, 75075); (77712, 77808); (77824, 78894);
   (82944, 83526); (92160, 92728); (92736, 92766); (92768, 92777);
   (92784, 92862); (92864, 92873); (92880, 92909); (92928, 92975);
   (92992, 92995); (93008, 93017); (93019, 93025); (93027, 93047);
   (93053, 93071); (93760, 93846); (93952, 94026); (94032, 94032);
   (94099, 94111); (94176, 94177); (94179, 94179); (94208, 100343);
   (100352, 101589); (101632, 101640); (110576, 110579); (110581, 110587);
   (110589, 110590); (110592, 110882); (110928, 110930); (110948, 110951);
   (110960, 111355); (113664, 113770); (113776, 113788); (113792, 113800);
   (113808, 113817); (119520, 119539); (119648, 119672); (119808, 119892);
   (119894, 119964); (119966, 119967); (119970, 119970); (119973, 119974);
   (119977, 119980); (119982, 119993); (119995, 119995); (119997, 120003);
   (120005, 120069); (120071, 120074); (120077, 120084); (120086, 120092);
   (120094, 120121); (120123, 120126); (120128, 120132); (120134, 120134);
   (120138, 120144); (120146, 120485); (120488, 120512); (120514, 120538);
   (120540, 120570); (120572, 120596); (120598, 120628); (120630, 120654);
   (120656, 120686); (120688, 120712); (120714, 120744); (120746, 120770);
   (120772, 120779); (120782, 120831); (122624, 122654); (123136, 123180);
   (123191, 123197); (123200, 123209); (123214, 123214); (123536, 123565);
   (123584, 123627); (123632, 123641); (124896, 124902); (124904, 124907);
   (124909, 124910); (124912, 124926); (124928, 125124); (125127, 125135);
   (125184, 125251); (125259, 125259); (125264, 125273); (126065, 126123);
   (126125, 126127); (126129, 126132); (126209, 126253); (126255, 126269);
   (126464, 126467); (126469, 126495); (126497, 126498); (126500, 126500);
   (126503, 126503); (126505, 126514); (126516, 126519); (126521, 126521);
   (126523, 126523); (126530, 126530); (126535, 126535); (126537, 126537);
   (126539, 126539); (126541, 126543); (126545, 126546); (126548, 126548);
   (126551, 126551); (126553, 126553); (126555, 126555); (126557, 126557);
   (126559, 126559); (126561, 126562); (126564, 126564); (126567, 126570);
   (126572, 126578); (126580, 126583); (126585, 126588); (126590, 126590);
   (126592, 126601); (126603, 126619); (126625, 126627); (126629, 126633);
   (126635, 126651); (127232, 127244); (130032, 130041); (131072, 173791);
   (173824, 177976); (177984, 178205); (178208, 183969); (183984, 191456);
   (194560, 195101); (196608, 201546)
  ]%N.

Definition isalnum (c : N) : bool := in_ranges alnum_ranges c.

(** *** [str.upper] *)

(** The characters that [str.upper] changes, each with its uppercase
    form: 1525 characters in Unicode 14.0, 102 of them with a form of two
    or three characters. *)
Definition upper_table : list (N * list N) :=
  [
   (97, [65]); (98, [66]); (99, [67]); (100, [68]); (101, [69]); (102, [70]);
   (103, [71]); (104, [72]); (105, [73]); (106, [74]); (107, [75]);
   (108, [76]); (109, [77]); (110, [78]); (111, [79]); (112, [80]);
   (113, [81]); (114, [82]); (115, [83]); (116, [84]); (117, [85]);
   (118, [86]); (119, [87]); (120, [88]); (121, [89]); (122, [90]);
   (181, [924]); (223, [83; 83]); (224, [192]); (225, [193]); (226, [194]);
   (227, [195]); (228, [196]); (229, [197]); (230, [198]); (231, [199]);
   (232, [200]); (233, [201]); (234, [202]); (235, [203]); (236, [204]);
   (237, [205]); (238, [206]); (239, [207]); (240, [208]); (241, [209]);
   (242, [210]); (243, [211]); (244, [212]); (245, [213]); (246, [214]);
   (248, [216]); (249, [217]); (250, [218]); (251, [219]); (252, [220]);
   (253, [221]); (254, [222]); (255, [376]); (257, [256]); (259, [258]);
   (261, [260]); (263, [262]); (265, [264]); (267, [266]); (269, [268]);
   (271, [270]); (273, [272]); (275, [274]); (277, [276]); (279, [278]);
   (281, [280]); (283, [282]); (285, [284]); (287, [286]); (289, [288]);
   (291, [290]); (293, [292]); (295, [294]); (297, [296]); (299, [298]);
   (301, [300]); (303, [302]); (305, [73]); (307, [306]); (309, [308]);
   (311, [310]); (314, [313]); (316, [315]); (318, [317]); (320, [319]);
   (322, [321]); (324, [323]); (326, [325]); (328, [327]); (329, [700; 78]);
   (331, [330]); (333, [332]); (335, [334]); (337, [336]); (339, [338]);
   (341, [340]); (343, [342]); (345, [344]); (347, [346]); (349, [348]);
   (351, [350]); (353, [352]); (355, [354]); (357, [356]); (359, [358]);
   (361, [360]); (363, [362]); (365, [364]); (367, [366]); (369, [368]);
   (371, [370]); (373, [372]); (375, [374]); (378, [377]); (380, [379]);
   (382, [381]); (383, [83]); (384, [579]); (387, [386]); (389, [388]);
   (392, [391]); (396, [395]); (402, [401]); (405, [502]); (409, [408]);
   (410, [573]); (414, [544]); (417, [416]); (419, [418]); (421, [420]);
   (424, [423]); (429, [428]); (432, [431]); (436, [435]); (438, [437]);
   (441, [440]); (445, [444]); (447, [503]); (453, [452]); (454, [452]);
   (456, [455]); (457, [455]); (459, [458]); (460, [458]); (462, [461]);
   (464, [463]); (466, [465]); (468, [467]); (470, [469]); (472, [471]);
   (474, [473]); (476, [475]); (477, [398]); (479, [478]); (481, [480]);
   (483, [482]); (485, [484]); (487, [486]); (489, [488]); (491, [490]);
   (493, [492]); (495, [494]); (496, [74; 780]); (498, [497]); (499, [497]);
   (501, [500]); (505, [504]); (507, [506]); (509, [508]); (511, [510]);
   (513, [512]); (515, [514]); (517, [516]); (519, [518]); (521, [520]);
   (523, [522]); (525, [524]); (527, [526]); (529, [528]); (531, [530]);
   (533, [532]); (535, [534]); (537, [536]); (539, [538]); (541, [540]);
   (543, [542]); (547, [546]); (549, [548]); (551, [550]); (553, [552]);
   (555, [554]); (557, [556]); (559, [558]); (561, [560]); (563, [562]);
   (572, [571]); (575, [11390]); (576, [11391]); (578, [577]); (583, [582]);
   (585, [584]); (587, [586]); (589, [588]); (591, [590]); (592, [11375]);
   (593, [11373]); (594, [11376]); (595, [385]); (596, [390]); (598, [393]);
   (599, [394]); (601, [399]); (603, [400]); (604, [42923]); (608, [403]);
   (609, [42924]); (611, [404]); (613, [42893]); (614, [42922]); (616, [407]);
   (617, [406]); (618, [42926]); (619, [11362]); (620, [42925]); (623, [412]);
   (625, [11374]); (626, [413]); (629, [415]); (637, [11364]); (640, [422]);
   (642, [42949]); (643, [425]); (647, [42929]); (648, [430]); (649, [580]);
   (650, [433]); (651, [434]); (652, [581]); (658, [439]); (669, [42930]);
   (670, [42928]); (837, [921]); (881, [880]); (883, [882]); (887, [886]);
   (891, [1021]); (892, [1022]); (893, [1023]); (912, [921; 776; 769]);
   (940, [902]); (941, [904]); (942, [905]); (943, [906]);
   (944, [933; 776; 769]); (945, [913]); (946, [914]); (947, [915]);
   (948, [916]); (949, [917]); (950, [918]); (951, [919]); (952, [920]);
   (953, [921]); (954, [922]); (955, [923]); (956, [924]); (957, [925]);
   (958, [926]); (959, [927]); (960, [928]); (961, [929]); (962, [931]);
   (963, [931]); (964, [932]); (965, [933]); (966, [934]); (967, [935]);
   (968, [936]); (969, [937]); (970, [938]); (971, [939]); (972, [908]);
   (973, [910]); (974, [911]); (976, [914]); (977, [920]); (981, [934]);
   (982, [928]); (983, [975]); (985, [984]); (987, [986]); (989, [988]);
   (991, [990]); (993, [992]); (995, [994]); (997, [996]); (999, [998]);
   (1001, [1000]); (1003, [1002]); (1005, [1004]); (1007, [1006]);
   (1008, [922]); (1009, [929]); (1010, [1017]); (1011, [895]); (1013, [917]);
   (1016, [1015]); (1019, [1018]); (1072, [1040]); (1073, [1041]);
   (1074, [1042]); (1075, [1043]); (1076, [1044]); (1077, [1045]);
   (1078, [1046]); (1079, [1047]); (1080, [1048]); (1081, [1049]);
   (1082, [1050]); (1083, [1051]); (1084, [1052]); (1085, [1053]);
   (1086, [1054]); (1087, [1055]); (1088, [1056]); (1089, [1057]);
   (1090, [1058]); (1091, [1059]); (1092, [1060]); (1093, [1061]);
   (1094, [1062]); (1095, [1063]); (1096, [1064]); (1097, [1065]);
   (1098, [1066]); (1099, [1067]); (1100, [1068]); (1101, [1069]);
   (1102, [1070]); (1103, [1071]); (1104, [1024]); (1105, [1025]);
   (1106, [1026]); (1107, [1027]); (1108, [1028]); (1109, [1029]);
   (1110, [1030]); (1111, [1031]); (1112, [1032]); (1113, [1033]);
   (1114, [1034]); (1115, [1035]); (1116, [1036]); (1117, [1037]);
   (1118, [1038]); (1119, [1039]); (1121, [1120]); (1123, [1122]);
   (1125, [1124]); (1127, [1126]); (1129, [1128]); (1131, [1130]);
   (1133, [1132]); (1135, [1134]); (1137, [1136]); (1139, [1138]);
   (1141, [1140]); (1143, [1142]); (1145, [1144]); (1147, [1146]);
   (1149, [1148]); (1151, [1150]); (1153, [1152]); (1163, [1162]);
   (1165, [1164]); (1167, [1166]); (1169, [1168]); (1171, [1170]);
   (1173, [1172]); (1175, [1174]); (1177, [1176]); (1179, [1178]);
   (1181, [1180]); (1183, [1182]); (1185, [1184]); (1187, [1186]);
   (1189, [1188]); (1191, [1190]); (1193, [1192]); (1195, [1194]);
   (1197, [1196]); (1199, [1198]); (1201, [1200]); (1203, [1202]);
   (1205, [1204]); (1207, [1206]); (1209, [1208]); (1211, [1210]);
   (1213, [1212]); (1215, [1214]); (1218, [1217]); (1220, [1219]);
   (1222, [1221]); (1224, [1223]); (1226, [1225]); (1228, [1227]);
   (1230, [1229]); (1231, [1216]); (1233, [1232]); (1235, [1234]);
   (1237, [1236]); (1239, [1238]); (1241, [1240]); (1243, [1242]);
   (1245, [1244]); (1247, [1246]); (1249, [1248]); (1251, [1250]);
   (1253, [1252]); (1255, [1254]); (1257, [1256]); (1259, [1258]);
   (1261, [1260]); (1263, [1262]); (1265, [1264]); (1267, [1266]);
   (1269, [1268]); (1271, [1270]); (1273, [1272]); (1275, [1274]);
   (1277, [1276]); (1279, [1278]); (1281, [1280]); (1283, [1282]);
   (1285, [1284]); (1287, [1286]); (1289, [1288]); (1291, [1290]);
   (1293, [1292]); (1295, [1294]); (1297, [1296]); (1299, [1298]);
   (1301, [1300]); (1303, [1302]); (1305, [1304]); (1307, [1306]);
   (1309, [1308]); (1311, [1310]); (1313, [1312]); (1315, [1314]);
   (1317, [1316]); (1319, [1318]); (1321, [1320]); (1323, [1322]);
   (1325, [1324]); (1327, [1326]); (1377, [1329]); (1378, [1330]);
   (1379, [1331]); (1380, [1332]); (1381, [1333]); (1382, [1334]);
   (1383, [1335]); (1384, [1336]); (1385, [1337]); (1386, [1338]);
   (1387, [1339]); (1388, [1340]); (1389, [1341]); (1390, [1342]);
   (1391, [1343]); (1392, [1344]); (1393, [1345]); (1394, [1346]);
   (1395, [1347]); (1396, [1348]); (1397, [1349]); (1398, [1350]);
   (1399, [1351]); (1400, [1352]); (1401, [1353]); (1402, [1354]);
   (1403, [1355]); (1404, [1356]); (1405, [1357]); (1406, [1358]);
   (1407, [1359]); (1408, [1360]); (1409, [1361]); (1410, [1362]);
   (1411, [1363]); (1412, [1364]); (1413, [1365]); (1414, [1366]);
   (1415, [1333; 1362]); (4304, [7312]); (4305, [7313]); (4306, [7314]);
   (4307, [7315]); (4308, [7316]); (4309, [7317]); (4310, [7318]);
   (4311, [7319]); (4312, [7320]); (4313, [7321]); (4314, [7322]);
   (4315, [7323]); (4316, [7324]); (4317, [7325]); (4318, [7326]);
   (4319, [7327]); (4320, [7328]); (4321, [7329]); (4322, [7330]);
   (4323, [7331]); (4324, [7332]); (4325, [7333]); (4326, [7334]);
   (4327, [7335]); (4328, [7336]); (4329, [7337]); (4330, [7338]);
   (4331, [7339]); (4332, [7340]); (4333, [7341]); (4334, [7342]);
   (4335, [7343]); (4336, [7344]); (4337, [7345]); (4338, [7346]);
   (4339, [7347]); (4340, [7348]); (4341, [7349]); (4342, [7350]);
   (4343, [7351]); (4344, [7352]); (4345, [7353]); (4346, [7354]);
   (4349, [7357]); (4350, [7358]); (4351, [7359]); (5112, [5104]);
   (5113, [5105]); (5114, [5106]); (5115, [5107]); (5116, [5108]);
   (5117, [5109]); (7296, [1042]); (7297, [1044]); (7298, [1054]);
   (7299, [1057]); (7300, [1058]); (7301, [1058]); (7302, [1066]);
   (7303, [1122]); (7304, [42570]); (7545, [42877]); (7549, [11363]);
   (7566, [42950]); (7681, [7680]); (7683, [7682]); (7685, [7684]);
   (7687, [7686]); (7689, [7688]); (7691, [7690]); (7693, [7692]);
   (7695, [7694]); (7697, [7696]); (7699, [7698]); (7701, [7700]);
   (7703, [7702]); (7705, [7704]); (7707, [7706]); (7709, [7708]);
   (7711, [7710]); (7713, [7712]); (7715, [7714]); (7717, [7716]);
   (7719, [7718]); (7721, [7720]); (7723, [7722]); (7725, [7724]);
   (7727, [7726]); (7729, [7728]); (7731, [7730]); (7733, [7732]);
   (7735, [7734]); (7737, [7736]); (7739, [7738]); (7741, [7740]);
   (7743, [7742]); (7745, [7744]); (7747, [7746]); (7749, [7748]);
   (7751, [7750]); (7753, [7752]); (7755, [7754]); (7757, [7756]);
   (7759, [7758]); (7761, [7760]); (7763, [7762]); (7765, [7764]);
   (7767, [7766]); (7769, [7768]); (7771, [7770]); (7773, [7772]);
   (7775, [7774]); (7777, [7776]); (7779, [7778]); (7781, [7780]);
   (7783, [7782]); (7785, [7784]); (7787, [7786]); (7789, [7788]);
   (7791, [7790]); (7793, [7792]); (7795, [7794]); (7797, [7796]);
   (7799, [7798]); (7801, [7800]); (7803, [7802]); (7805, [7804]);
   (7807, [7806]); (7809, [7808]); (7811, [7810]); (7813, [7812]);
   (7815, [7814]); (7817, [7816]); (7819, [7818]); (7821, [7820]);
   (7823, [7822]); (7825, [7824]); (7827, [7826]); (7829, [7828]);
   (7830, [72; 817]); (7831, [84; 776]); (7832, [87; 778]); (7833, [89; 778]);
   (7834, [65; 702]); (7835, [7776]); (7841, [7840]); (7843, [7842]);
   (7845, [7844]); (7847, [7846]); (7849, [7848]); (7851, [7850]);
   (7853, [7852]); (7855, [7854]); (7857, [7856]); (7859, [7858]);
   (7861, [7860]); (7863, [7862]); (7865, [7864]); (7867, [7866]);
   (7869, [7868]); (7871, [7870]); (7873, [7872]); (7875, [7874]);
   (7877, [7876]); (7879, [7878]); (7881, [7880]); (7883, [7882]);
   (7885, [7884]); (7887, [7886]); (7889, [7888]); (7891, [7890]);
   (7893, [7892]); (7895, [7894]); (7897, [7896]); (7899, [7898]);
   (7901, [7900]); (7903, [7902]); (7905, [7904]); (7907, [7906]);
   (7909, [7908]); (7911, [7910]); (7913, [7912]); (7915, [7914]);
   (7917, [7916]); (7919, [7918]); (7921, [7920]); (7923, [7922]);
   (7925, [7924]); (7927, [7926]); (7929, [7928]); (7931, [7930]);
   (7933, [7932]); (7935, [7934]); (7936, [7944]); (7937, [7945]);
   (7938, [7946]); (7939, [7947]); (7940, [7948]); (7941, [7949]);
   (7942, [7950]); (7943, [7951]); (7952, [7960]); (7953, [7961]);
   (7954, [7962]); (7955, [7963]); (7956, [7964]); (7957, [7965]);
   (7968, [7976]); (7969, [7977]); (7970, [7978]); (7971, [7979]);
   (7972, [7980]); (7973, [7981]); (7974, [7982]); (7975, [7983]);
   (7984, [7992]); (7985, [7993]); (7986, [7994]); (7987, [7995]);
   (7988, [7996]); (7989, [7997]); (7990, [7998]); (7991, [7999]);
   (8000, [8008]); (8001, [8009]); (8002, [8010]); (8003, [8011]);
   (8004, [8012]); (8005, [8013]); (8016, [933; 787]); (8017, [8025]);
   (8018, [933; 787; 768]); (8019, [8027]); (8020, [933; 787; 769]);
   (8021, [8029]); (8022, [933; 787; 834]); (8023, [8031]); (8032, [8040]);
   (8033, [8041]); (8034, [8042]); (8035, [8043]); (8036, [8044]);
   (8037, [8045]); (8038, [8046]); (8039, [8047]); (8048, [8122]);
   (8049, [8123]); (8050, [8136]); (8051, [8137]); (8052, [8138]);
   (8053, [8139]); (8054, [8154]); (8055, [8155]); (8056, [8184]);
   (8057, [8185]); (8058, [8170]); (8059, [8171]); (8060, [8186]);
   (8061, [8187]); (8064, [7944; 921]); (8065, [7945; 921]);
   (8066, [7946; 921]); (8067, [7947; 921]); (8068, [7948; 921]);
   (8069, [7949; 921]); (8070, [7950; 921]); (8071, [7951; 921]);
   (8072, [7944; 921]); (8073, [7945; 921]); (8074, [7946; 921]);
   (8075, [7947; 921]); (8076, [7948; 921]); (8077, [7949; 921]);
   (8078, [7950; 921]); (8079, [7951; 921]); (8080, [7976; 921]);
   (8081, [7977; 921]); (8082, [7978; 921]); (8083, [7979; 921]);
   (8084, [7980; 921]); (8085, [7981; 921]); (8086, [7982; 921]);
   (8087, [7983; 921]); (8088, [7976; 921]); (8089, [7977; 921]);
   (8090, [7978; 921]); (8091, [7979; 921]); (8092, [7980; 921]);
   (8093, [7981; 921]); (8094, [7982; 921]); (8095, [7983; 921]);
   (8096, [8040; 921]); (8097, [8041; 921]); (8098, [8042; 921]);
   (8099, [8043; 921]); (8100, [8044; 921]); (8101, [8045; 921]);
   (8102, [8046; 921]); (8103, [8047; 921]); (8104, [8040; 921]);
   (8105, [8041; 921]); (8106, [8042; 921]); (8107, [8043; 921]);
   (8108, [8044; 921]); (8109, [8045; 921]); (8110, [8046; 921]);
   (8111, [8047; 921]); (8112, [8120]); (8113, [8121]); (8114, [8122; 921]);
   (8115, [913; 921]); (8116, [902; 921]); (8118, [913; 834]);
   (8119, [913; 834; 921]); (8124, [913; 921]); (8126, [921]);
   (8130, [8138; 921]); (8131, [919; 921]); (8132, [905; 921]);
   (8134, [919; 834]); (8135, [919; 834; 921]); (8140, [919; 921]);
   (8144, [8152]); (8145, [8153]); (8146, [921; 776; 768]);
   (8147, [921; 776; 769]); (8150, [921; 834]); (8151, [921; 776; 834]);
   (8160, [8168]); (8161, [8169]); (8162, [933; 776; 768]);
   (8163, [933; 776; 769]); (8164, [929; 787]); (8165, [8172]);
   (8166, [933; 834]); (8167, [933; 776; 834]); (8178, [8186; 921]);
   (8179, [937; 921]); (8180, [911; 921]); (8182, [937; 834]);
   (8183, [937; 834; 921]); (8188, [937; 921]); (8526, [8498]);
   (8560, [8544]); (8561, [8545]); (8562, [8546]); (8563, [8547]);
   (8564, [8548]); (8565, [8549]); (8566, [8550]); (8567, [8551]);
   (8568, [8552]); (8569, [8553]); (8570, [8554]); (8571, [8555]);
   (8572, [8556]); (8573, [8557]); (8574, [8558]); (8575, [8559]);
   (8580, [8579]); (9424, [9398]); (9425, [9399]); (9426, [9400]);
   (9427, [9401]); (9428, [9402]); (9429, [9403]); (9430, [9404]);
   (9431, [9405]); (9432, [9406]); (9433, [9407]); (9434, [9408]);
   (9435, [9409]); (9436, [9410]); (9437, [9411]); (9438, [9412]);
   (9439, [9413]); (9440, [9414]); (9441, [9415]); (9442, [9416]);
   (9443, [9417]); (9444, [9418]); (9445, [9419]); (9446, [9420]);
   (9447, [9421]); (9448, [9422]); (9449, [9423]); (11312, [11264]);
   (11313, [11265]); (11314, [11266]); (11315, [11267]); (11316, [11268]);
   (11317, [11269]); (11318, [11270]); (11319, [11271]); (11320, [11272]);
   (11321, [11273]); (11322, [11274]); (11323, [11275]); (11324, [11276]);
   (11325, [11277]); (11326, [11278]); (11327, [11279]); (11328, [11280]);
   (11329, [11281]); (11330, [11282]); (11331, [11283]); (11332, [11284]);
   (11333, [11285]); (11334, [11286]); (11335, [11287]); (11336, [11288]);
   (11337, [11289]); (11338, [11290]); (11339, [11291]); (11340, [11292]);
   (11341, [11293]); (11342, [11294]); (11343, [11295]); (11344, [11296]);
   (11345, [11297]); (11346, [11298]); (11347, [11299]); (11348, [11300]);
   (11349, [11301]); (11350, [11302]); (11351, [11303]); (11352, [11304]);
   (11353, [11305]); (11354, [11306]); (11355, [11307]); (11356, [11308]);
   (11357, [11309]); (11358, [11310]); (11359, [11311]); (11361, [11360]);
   (11365, [570]); (11366, [574]); (11368, [11367]); (11370, [11369]);
   (11372, [11371]); (11379, [11378]); (11382, [11381]); (11393, [11392]);
   (11395, [11394]); (11397, [11396]); (11399, [11398]); (11401, [11400]);
   (11403, [11402]); (11405, [11404]); (11407, [11406]); (11409, [11408]);
   (11411, [11410]); (11413, [11412]); (11415, [11414]); (11417, [11416]);
   (11419, [11418]); (11421, [11420]); (11423, [11422]); (11425, [11424]);
   (11427, [11426]); (11429, [11428]); (11431, [11430]); (11433, [11432]);
   (11435, [11434]); (11437, [11436]); (11439, [11438]); (11441, [11440]);
   (11443, [11442]); (11445, [11444]); (11447, [11446]); (11449, [11448]);
   (11451, [11450]); (11453, [11452]); (11455, [11454]); (11457, [11456]);
   (11459, [11458]); (11461, [11460]); (11463, [11462]); (11465, [11464]);
   (11467, [11466]); (11469, [11468]); (11471, [11470]); (11473, [11472]);
   (11475, [11474]); (11477, [11476]); (11479, [11478]); (11481, [11480]);
   (11483, [11482]); (11485, [11484]); (11487, [11486]); (11489, [11488]);
   (11491, [11490]); (11500, [11499]); (11502, [11501]); (11507, [11506]);
   (11520, [4256]); (11521, [4257]); (11522, [4258]); (11523, [4259]);
   (11524, [4260]); (11525, [4261]); (11526, [4262]); (11527, [4263]);
   (11528, [4264]); (11529, [4265]); (11530, [4266]); (11531, [4267]);
   (11532, [4268]); (11533, [4269]); (11534, [4270]); (11535, [4271]);
   (11536, [4272]); (11537, [4273]); (11538, [4274]); (11539, [4275]);
   (11540, [4276]); (11541, [4277]); (11542, [4278]); (11543, [4279]);
   (11544, [4280]); (11545, [4281]); (11546, [4282]); (11547, [4283]);
   (11548, [4284]); (11549, [4285]); (11550, [4286]); (11551, [4287]);
   (11552, [4288]); (11553, [4289]); (11554, [4290]); (11555, [4291]);
   (11556, [4292]); (11557, [4293]); (11559, [4295]); (11565, [4301]);
   (42561, [42560]); (42563, [42562]); (42565, [42564]); (42567, [42566]);
   (42569, [42568]); (42571, [42570]); (42573, [42572]); (42575, [42574]);
   (42577, [42576]); (42579, [42578]); (42581, [42580]); (42583, [42582]);
   (42585, [42584]); (42587, [42586]); (42589, [42588]); (42591, [42590]);
   (42593, [42592]); (42595, [42594]); (42597, [42596]); (42599, [42598]);
   (42601, [42600]); (42603, [42602]); (42605, [42604]); (42625, [42624]);
   (42627, [42626]); (42629, [42628]); (42631, [42630]); (42633, [42632]);
   (42635, [42634]); (42637, [42636]); (42639, [42638]); (42641, [42640]);
   (42643, [42642]); (42645, [42644]); (42647, [42646]); (42649, [42648]);
   (42651, [42650]); (42787, [42786]); (42789, [42788]); (42791, [42790]);
   (42793, [42792]); (42795, [42794]); (42797, [42796]); (42799, [42798]);
   (42803, [42802]); (42805, [42804]); (42807, [42806]); (42809, [42808]);
   (42811, [42810]); (42813, [42812]); (42815, [42814]); (42817, [42816]);
   (42819, [42818]); (42821, [42820]); (42823, [42822]); (42825, [42824]);
   (42827, [42826]); (42829, [42828]); (42831, [42830]); (42833, [42832]);
   (42835, [42834]); (42837, [42836]); (42839, [42838]); (42841, [42840]);
   (42843, [42842]); (42845, [42844]); (42847, [42846]); (42849, [42848]);
   (42851, [42850]); (42853, [42852]); (42855, [42854]); (42857, [42856]);
   (42859, [42858]); (42861, [42860]); (42863, [42862]); (42874, [42873]);
   (42876, [42875]); (42879, [42878]); (42881, [42880]); (42883, [42882]);
   (42885, [42884]); (42887, [42886]); (42892, [42891]); (42897, [42896]);
   (42899, [42898]); (42900, [42948]); (42903, [42902]); (42905, [42904]);
   (42907, [42906]); (42909, [42908]); (42911, [42910]); (42913, [42912]);
   (42915, [42914]); (42917, [42916]); (42919, [42918]); (42921, [42920]);
   (42933, [42932]); (42935, [42934]); (42937, [42936]); (42939, [42938]);
   (42941, [42940]); (42943, [42942]); (42945, [42944]); (42947, [42946]);
   (42952, [42951]); (42954, [42953]); (42961, [42960]); (42967, [42966]);
   (42969, [42968]); (42998, [42997]); (43859, [42931]); (43888, [5024]);
   (43889, [5025]); (43890, [5026]); (43891, [5027]); (43892, [5028]);
   (43893, [5029]); (43894, [5030]); (43895, [5031]); (43896, [5032]);
   (43897, [5033]); (43898, [5034]); (43899, [5035]); (43900, [5036]);
   (43901, [5037]); (43902, [5038]); (43903, [5039]); (43904, [5040]);
   (43905, [5041]); (43906, [5042]); (43907, [5043]); (43908, [5044]);
   (43909, [5045]); (43910, [5046]); (43911, [5047]); (43912, [5048]);
   (43913, [5049]); (43914, [5050]); (43915, [5051]); (43916, [5052]);
   (43917, [5053]); (43918, [5054]); (43919, [5055]); (43920, [5056]);
   (43921, [5057]); (43922, [5058]); (43923, [5059]); (43924, [5060]);
   (43925, [5061]); (43926, [5062]); (43927, [5063]); (43928, [5064]);
   (43929, [5065]); (43930, [5066]); (43931, [5067]); (43932, [5068]);
   (43933, [5069]); (43934, [5070]); (43935, [5071]); (43936, [5072]);
   (43937, [5073]); (43938, [5074]); (43939, [5075]); (43940, [5076]);
   (43941, [5077]); (43942, [5078]); (43943, [5079]); (43944, [5080]);
   (43945, [5081]); (43946, [5082]); (43947, [5083]); (43948, [5084]);
   (43949, [5085]); (43950, [5086]); (43951, [5087]); (43952, [5088]);
   (43953, [5089]); (43954, [5090]); (43955, [5091]); (43956, [5092]);
   (43957, [5093]); (43958, [5094]); (43959, [5095]); (43960, [5096]);
   (43961, [5097]); (43962, [5098]); (43963, [5099]); (43964, [5100]);
   (43965, [5101]); (43966, [5102]); (43967, [5103]); (64256, [70; 70]);
   (64257, [70; 73]); (64258, [70; 76]); (64259, [70; 70; 73]);
   (64260, [70; 70; 76]); (64261, [83; 84]); (64262, [83; 84]);
   (64275, [1348; 1350]); (64276, [1348; 1333]); (64277, [1348; 1339]);
   (64278, [1358; 1350]); (64279, [1348; 1341]); (65345, [65313]);
   (65346, [65314]); (65347, [65315]); (65348, [65316]); (65349, [65317]);
   (65350, [65318]); (65351, [65319]); (65352, [65320]); (65353, [65321]);
   (65354, [65322]); (65355, [65323]); (65356, [65324]); (65357, [65325]);
   (65358, [65326]); (65359, [65327]); (65360, [65328]); (65361, [65329]);
   (65362, [65330]); (65363, [65331]); (65364, [65332]); (65365, [65333]);
   (65366, [65334]); (65367, [65335]); (65368, [65336]); (65369, [65337]);
   (65370, [65338]); (66600, [66560]); (66601, [66561]); (66602, [66562]);
   (66603, [66563]); (66604, [66564]); (66605, [66565]); (66606, [66566]);
   (66607, [66567]); (66608, [66568]); (66609, [66569]); (66610, [66570]);
   (66611, [66571]); (66612, [66572]); (66613, [66573]); (66614, [66574]);
   (66615, [66575]); (66616, [66576]); (66617, [66577]); (66618, [66578]);
   (66619, [66579]); (66620, [66580]); (66621, [66581]); (66622, [66582]);
   (66623, [66583]); (66624, [66584]); (66625, [66585]); (66626, [66586]);
   (66627, [66587]); (66628, [66588]); (66629, [66589]); (66630, [66590]);
   (66631, [66591]); (66632, [66592]); (66633, [66593]); (66634, [66594]);
   (66635, [66595]); (66636, [66596]); (66637, [66597]); (66638, [66598]);
   (66639, [66599]); (66776, [66736]); (66777, [66737]); (66778, [66738]);
   (66779, [66739]); (66780, [66740]); (66781, [66741]); (66782, [66742]);
   (66783, [66743]); (66784, [66744]); (66785, [66745]); (66786, [66746]);
   (66787, [66747]); (66788, [66748]); (66789, [66749]); (66790, [66750]);
   (66791, [66751]); (66792, [66752]); (66793, [66753]); (66794, [66754]);
   (66795, [66755]); (66796, [66756]); (66797, [66757]); (66798, [66758]);
   (66799, [66759]); (66800, [66760]); (66801, [66761]); (66802, [66762]);
   (66803, [66763]); (66804, [66764]); (66805, [66765]); (66806, [66766]);
   (66807, [66767]); (66808, [66768]); (66809, [66769]); (66810, [66770]);
   (66811, [66771]); (66967, [66928]); (66968, [66929]); (66969, [66930]);
   (66970, [66931]); (66971, [66932]); (66972, [66933]); (66973, [66934]);
   (66974, [66935]); (66975, [66936]); (66976, [66937]); (66977, [66938]);
   (66979, [66940]); (66980, [66941]); (66981, [66942]); (66982, [66943]);
   (66983, [66944]); (66984, [66945]); (66985, [66946]); (66986, [66947]);
   (66987, [66948]); (66988, [66949]); (66989, [66950]); (66990, [66951]);
   (66991, [66952]); (66992, [66953]); (66993, [66954]); (66995, [66956]);
   (66996, [66957]); (66997, [66958]); (66998, [66959]); (66999, [66960]);
   (67000, [66961]); (67001, [66962]); (67003, [66964]); (67004, [66965]);
   (68800, [68736]); (68801, [68737]); (68802, [68738]); (68803, [68739]);
   (68804, [68740]); (68805, [68741]); (68806, [68742]); (68807, [68743]);
   (68808, [68744]); (68809, [68745]); (68810, [68746]); (68811, [68747]);
   (68812, [68748]); (68813, [68749]); (68814, [68750]); (68815, [68751]);
   (68816, [68752]); (68817, [68753]); (68818, [68754]); (68819, [68755]);
   (68820, [68756]); (68821, [68757]); (68822, [68758]); (68823, [68759]);
   (68824, [68760]); (68825, [68761]); (68826, [68762]); (68827, [68763]);
   (68828, [68764]); (68829, [68765]); (68830, [68766]); (68831, [68767]);
   (68832, [68768]); (68833, [68769]); (68834, [68770]); (68835, [68771]);
   (68836, [68772]); (68837, [68773]); (68838, [68774]); (68839, [68775]);
   (68840, [68776]); (68841, [68777]); (68842, [68778]); (68843, [68779]);
   (68844, [68780]); (68845, [68781]); (68846, [68782]); (68847, [68783]);
   (68848, [68784]); (68849, [68785]); (68850, [68786]); (71872, [71840]);
   (71873, [71841]); (71874, [71842]); (71875, [71843]); (71876, [71844]);
   (71877, [71845]); (71878, [71846]); (71879, [71847]); (71880, [71848]);
   (71881, [71849]); (71882, [71850]); (71883, [71851]); (71884, [71852]);
   (71885, [71853]); (71886, [71854]); (71887, [71855]); (71888, [71856]);
   (71889, [71857]); (71890, [71858]); (71891, [71859]); (71892, [71860]);
   (71893, [71861]); (71894, [71862]); (71895, [71863]); (71896, [71864]);
   (71897, [71865]); (71898, [71866]); (71899, [71867]); (71900, [71868]);
   (71901, [71869]); (71902, [71870]); (71903, [71871]); (93792, [93760]);
   (93793, [93761]); (93794, [93762]); (93795, [93763]); (93796, [93764]);
   (93797, [93765]); (93798, [93766]); (93799, [93767]); (93800, [93768]);
   (93801, [93769]); (93802, [93770]); (93803, [93771]); (93804, [93772]);
   (93805, [93773]); (93806, [93774]); (93807, [93775]); (93808, [93776]);
   (93809, [93777]); (93810, [93778]); (93811, [93779]); (93812, [93780]);
   (93813, [93781]); (93814, [93782]); (93815, [93783]); (93816, [93784]);
   (93817, [93785]); (93818, [93786]); (93819, [93787]); (93820, [93788]);
   (93821, [93789]); (93822, [93790]); (93823, [93791]); (125218, [125184]);
   (125219, [125185]); (125220, [125186]); (125221, [125187]);
   (125222, [125188]); (125223, [125189]); (125224, [125190]);
   (125225, [125191]); (125226, [125192]); (125227, [125193]);
   (125228, [125194]); (125229, [125195]); (125230, [125196]);
   (125231, [125197]); (125232, [125198]); (125233, [125199]);
   (125234, [125200]); (125235, [125201]); (125236, [125202]);
   (125237, [125203]); (125238, [125204]); (125239, [125205]);
   (125240, [125206]); (125241, [125207]); (125242, [125208]);
   (125243, [125209]); (125244, [125210]); (125245, [125211]);
   (125246, [125212]); (125247, [125213]); (125248, [125214]);
   (125249, [125215]); (125250, [125216]); (125251, [125217])
  ]%N.

Fixpoint assoc (c : N) (t : list (N * list N)) : option (list N) :=
  match t with
  | [] => None
  | (k, v) :: r => if (k =? c)%N then Some v else assoc c r
  end.

(** The uppercase form of one character. *)
Definition upper_cp (c : N) : list N := default [c] (assoc c upper_table).

(** [s.upper()]: each character gives way to its uppercase form, whatever
    stands around it, and a byte outside every well-formed sequence stays
    as it is. *)
Fixpoint upper (s : string) : string :=
  match s with
  | EmptyString => EmptyString
  | String b1 r1 =>
      let n1 := byte b1 in
      if decide (n1 < 128)%N then encode (upper_cp n1) +:+ upper r1 else
      match r1 with
      | EmptyString => String b1 (upper r1)
      | String b2 r2 =>
          let n2 := byte b2 in
          if valid2 n1 n2 then encode (upper_cp (cp2 n1 n2)) +:+ upper r2 else
          match r2 with
          | EmptyString => String b1 (upper r1)
          | String b3 r3 =>
              let n3 := byte b3 in
              if valid3 n1 n2 n3
              then encode (upper_cp (cp3 n1 n2 n3)) +:+ upper r3 else
              match r3 with
              | EmptyString => String b1 (upper r1)
              | String b4 r4 =>
                  let n4 := byte b4 in
                  if valid4 n1 n2 n3 n4
                  then encode (upper_cp (cp4 n1 n2 n3 n4)) +:+ upper r4
                  else String b1 (upper r1)
              end
          end
      end
  end.

(** *** [str.strip] with no argument *)

(** [w] is the encoding of one white-space character. *)
Definition is_ws (w : string) : bool :=
  bool_decide (w ∈ utf8 <$> whitespace).

(** [str.lstrip]: white-space characters, of one to three bytes, are
    taken off the front. *)
Fixpoint lstrip (s : string) : string :=
  match s with
  | EmptyString => EmptyString
  | String b1 r1 =>
      if is_ws (String b1 "") then lstrip r1 else
      match r1 with
      | EmptyString => s
      | String b2 r2 =>
          if is_ws (String b1 (String b2 "")) then lstrip r2 else
          match r2 with
          | EmptyString => s
          | String b3 r3 =>
              if is_ws (String b1 (String b2 (String b3 ""))) then lstrip r3
              else s
          end
      end
  end.

(** [str.rstrip]: once the rest is stripped, the character in front goes
    too when what is left, from it on, is one white-space character. *)
Fixpoint rstrip (s : string) : string :=
  match s with
  | EmptyString => EmptyString
  | String c r =>
      let r' := rstrip r in
      if is_ws (String c r') then EmptyString else String c r'
  end.

Definition strip (s : string) : string := rstrip (lstrip s).

(** [sep.join(l)] *)
Fixpoint join (sep : string) (l : list string) : string :=
  match l with
  | [] => ""
  | x :: r =>
      match r with
      | [] => x
      | _ :: _ => x +:+ sep +:+ join sep r
      end
  end.

End PyStr.

(** ** The fragment of [re] used by the module *)

Module Re.

(** The characters of a pattern are ASCII, as in the module's one
    pattern; the subject is a sequence of code points. *)
Inductive atom :=
| Lit (c : ascii)            (* a literal character *)
| Range (lo hi : ascii)      (* a class [lo-hi] *)
| Digit.                     (* \d *)

Inductive item :=
| One (a : atom)
| Star (a : atom)
| Plus (a : atom)
| Eol.                       (* $ *)

(** [unicode_tolower], as far as an ASCII pattern can tell: the
    characters it sends to an ASCII letter are the uppercase ASCII
    letters, U+212A KELVIN SIGN (to k) and U+0130 (to i); every other
    character is sent outside ASCII or to itself, and is left in place
    here. *)
Definition sre_lower (c : N) : N :=
  (if decide (65 ≤ c ∧ c ≤ 90) then c + 32
   else if decide (c = 8490) then 107
   else if decide (c = 304) then 105
   else c)%N.

(** The entries of [_ignorecase_fixes] at an ASCII letter: characters
    that match it without lowercasing to it, U+0131 for i and U+017F
    for s. *)
Definition ignorecase_fixes (lo : N) : list N :=
  (if decide (lo = 105) then [305]
   else if decide (lo = 115) then [383]
   else [])%N.

(** The codes from [lo] to [hi]. *)
Definition codes (lo hi : N) : list N :=
  (fun k => lo + N.of_nat k)%N <$> seq 0 (N.to_nat (hi + 1 - lo)).

(** The charset a range compiles to under [re.IGNORECASE]: the lowercase
    form of each of its characters, with the fixes of that form. *)
Definition range_charset (lo hi : N) : list N :=
  codes lo hi ≫= fun i => sre_lower i :: ignorecase_fixes (sre_lower i).

(** One character against one atom; [ic] is [re.IGNORECASE], under which
    the lowercase form of the character is looked up. *)
Definition atom_match (ic : bool) (a : atom) (c : N) : bool :=
  match a with
  | Lit x =>
      if ic then
        let lo := sre_lower (PyStr.byte x) in
        bool_decide (sre_lower c ∈ lo :: ignorecase_fixes lo)
      else bool_decide (c = PyStr.byte x)
  | Range lo hi =>
      if ic then
        bool_decide (sre_lower c ∈ range_charset (PyStr.byte lo) (PyStr.byte hi))
      else bool_decide (PyStr.byte lo ≤ c ∧ c ≤ PyStr.byte hi)%N
  | Digit => PyStr.isdecimal c
  end.

(** Without [re.MULTILINE], [$] matches at the end of the string and
    just before a newline that ends the string. *)
Definition eol (s : list N) : bool :=
  match s with
  | [] => true
  | [c] => bool_decide (c = 10%N)
  | _ => false
  end.

(** Greedy repetition with backtracking: take one more character when
    possible, otherwise (or when the rest then fails) continue with [k]. *)
Fixpoint star (p : N -> bool) (k : list N -> bool) (s : list N) : bool :=
  match s with
  | c :: r => (p c && star p k r) || k s
  | [] => k s
  end.

(** [run ic p s]: the pattern [p] matches a prefix of [s]. *)
Fixpoint run (ic : bool) (p : list item) : list N -> bool :=
  match p with
  | [] => fun _ => true
  | One a :: q => fun s =>
      match s with
      | c :: r => atom_match ic a c && run ic q r
      | [] => false
      end
  | Star a :: q => star (atom_match ic a) (run ic q)
  | Plus a :: q => fun s =>
      match s with
      | c :: r => atom_match ic a c && star (atom_match ic a) (run ic q) r
      | [] => false
      end
  | Eol :: q => fun s => eol s && run ic q s
  end.

(** [pattern.match(s)] is truthy: [match] tries position 0 only, where a
    leading [^] always holds. *)
Definition match_ (ic : bool) (p : list item) (s : string) : bool :=
  run ic p (PyStr.decode s).

End Re.

(** ** Data classes *)

Record GeneMatch := mkGeneMatch {
  query : string;
  ensembl_ids : list string;
  canonical_name : option string;
  is_ambiguous : bool;
  feature_types : list string
}.

Record GeneDict := mkGeneDict {
  name_to_ids : gmap string (list string);
  id_to_name : gmap string string;
  id_to_feature_type : gmap string string
}.

(** [GeneMatch(query=query)]: every other field takes its default. *)
Definition GeneMatch_default (q : string) : GeneMatch :=
  mkGeneMatch q [] None false [].

(** [GeneDict()] *)
Definition GeneDict_empty : GeneDict := mkGeneDict ∅ ∅ ∅.

(** ** Census gene dictionary (cached) *)

Module Cache.

(** Exception classes the function can meet; all derive from
    [Exception]. *)
Inductive exn :=
| UnpicklingError | EOFError | AttributeError | ImportError | IndexError
| ValueError | KeyError | OSError.

Inductive result (A : Type) :=
| Ok (a : A)
| Raise (e : exn).
Global Arguments Ok {A} a.
Global Arguments Raise {A} e.

(** One row of the var table: [feature_id], [feature_name],
    [feature_type], three columns of strings. *)
Definition row : Type := string * string * string.

(** What the function observes of the file system and of the census. *)
Record World := mkWorld {
  (** [os.path.exists(path)] *)
  path_exists : string -> bool;
  (** [open(path, "rb")]: [None] when the file opens *)
  open_rb : string -> option exn;
  (** [pickle.load(fh)] on the file at that path *)
  pickle_load : string -> result GeneDict;
  (** [open_soma(census_version=v)], [census["census_data"].get(o)]
      and the read of the var table; [None] when the organism is
      missing. *)
  census_read : string -> string -> result (option (list row));
  (** [open(path, "wb")] followed by [pickle.dump] *)
  cache_dump : string -> GeneDict -> result unit
}.

Inductive log :=
| InfoLoading (path : string)
| WarnCorrupted (path : string) (e : exn)
| InfoFetching (census_version organism : string)
| WarnNoOrganism (census_organism : string)
| InfoSaved (path : string)
| ErrorFetching (e : exn).

Fixpoint map_chars (f : ascii -> ascii) (s : string) : string :=
  match s with
  | EmptyString => EmptyString
  | String c r => String (f c) (map_chars f r)
  end.

(** [re.sub(r"[\W_]+", "", organism)]: the letters and digits of the
    organism stay, every other character goes. *)
Definition safe_organism (organism : string) : string :=
  PyStr.encode (filter (fun c => PyStr.isalnum c) (PyStr.decode organism)).

(** [os.path.join(cache_dir, cache_filename)] on a POSIX system: a file
    name that starts with a slash is an absolute path, and the directory
    is dropped. *)
Definition cache_path (census_version organism : string) : string :=
  let cache_filename :=
    census_version +:+ "_" +:+ safe_organism organism +:+ "_gene_dict.pkl" in
  match cache_filename with
  | String "/" _ => cache_filename
  | _ => ".cache/" +:+ cache_filename
  end.

(** [organism.replace(" ", "_").lower()], [lower] acting on the ASCII
    letters. *)
Definition census_organism (organism : string) : string :=
  map_chars PyStr.lower_char
    (map_chars (fun c => if bool_decide (c = " "%char) then "_"%char else c)
       organism).

(** One turn of the loop over the rows. *)
Definition add_row (gd : GeneDict) (r : row) : GeneDict :=
  let '(ens_id, name, ftype) := r in
  let norm := PyStr.upper name in
  mkGeneDict
    (<[norm := default [] (name_to_ids gd !! norm) ++ [ens_id]]>
       (name_to_ids gd))
    (<[ens_id := name]> (id_to_name gd))
    (<[ens_id := ftype]> (id_to_feature_type gd)).

(** The exception classes of [except (pickle.UnpicklingError, EOFError)]. *)
Definition cache_handler_catches (e : exn) : bool :=
  match e with
  | UnpicklingError | EOFError => true
  | _ => false
  end.

(** From [# --- Fetch from census ---] to the end: every exception is
    caught by [except Exception], and [gd] is returned as built so far.
    On rows of strings no turn of the loop raises, which makes the loop a
    fold over the table; the steps of the [try] block that can fail are
    the read of the census and the write of the cache file. *)
Definition fetch_from_census (w : World) (census_version organism : string)
    : list log * result GeneDict :=
  let path := cache_path census_version organism in
  let gd := GeneDict_empty in
  let fetching := InfoFetching census_version organism in
  match census_read w census_version (census_organism organism) with
  | Raise e => ([fetching; ErrorFetching e], Ok gd)
  | Ok None => ([fetching; WarnNoOrganism (census_organism organism)], Ok gd)
  | Ok (Some rows) =>
      let gd := foldl add_row gd rows in
      match cache_dump w path gd with
      | Ok _ => ([fetching; InfoSaved path], Ok gd)
      | Raise e => ([fetching; ErrorFetching e], Ok gd)
      end
  end.

(** The body of [_get_gene_dict], after [os.makedirs] has succeeded.
    [on_raise pre e] is what happens to an exception [e] raised inside
    the [try] block once the events [pre] have been logged. *)
Definition _get_gene_dict_body (w : World) (census_version organism : string)
    : list log * result GeneDict :=
  let path := cache_path census_version organism in
  let on_raise (pre : list log) (e : exn) :=
    if cache_handler_catches e then
      let '(l, r) := fetch_from_census w census_version organism in
      (pre ++ WarnCorrupted path e :: l, r)
    else (pre, Raise e) in
  if path_exists w path then
    match open_rb w path with
    | Some e => on_raise [] e
    | None =>
        match pickle_load w path with
        | Ok gd => ([InfoLoading path], Ok gd)
        | Raise e => on_raise [InfoLoading path] e
        end
    end
  else fetch_from_census w census_version organism.

(** [@lru_cache(maxsize=None)]: the memo is keyed by the arguments of
    the call, which [resolve_genes] always passes as two positional
    strings, and records returned values only. *)
Definition _get_gene_dict (memo : gmap (string * string) GeneDict)
    (w : World) (census_version organism : string)
    : gmap (string * string) GeneDict * list log * result GeneDict :=
  match memo !! (census_version, organism) with
  | Some gd => (memo, [], Ok gd)
  | None =>
      let '(l, r) := _get_gene_dict_body w census_version organism in
      match r with
      | Ok gd => (<[(census_version, organism) := gd]> memo, l, r)
      | Raise _ => (memo, l, r)
      end
  end.

(** The decorated function with line 61 in the picture: on a memo miss
    the body starts with [os.makedirs(cache_dir, exist_ok=True)], outside
    every [try]; [makedirs] is what it raises, [None] when the directory
    is there or could be made. *)
Definition _get_gene_dict_call (makedirs : option exn)
    (memo : gmap (string * string) GeneDict)
    (w : World) (census_version organism : string)
    : gmap (string * string) GeneDict * list log * result GeneDict :=
  match memo !! (census_version, organism), makedirs with
  | None, Some e => (memo, [], Raise e)
  | _, _ => _get_gene_dict memo w census_version organism
  end.

End Cache.

(** ** Public API *)

(** [re.compile(r"^ENS[A-Z]*G\d+$", re.IGNORECASE)] *)
Definition _ENSEMBL_PATTERN : list Re.item :=
  [Re.One (Re.Lit "E"); Re.One (Re.Lit "N"); Re.One (Re.Lit "S");
   Re.Star (Re.Range "A" "Z"); Re.One (Re.Lit "G"); Re.Plus Re.Digit;
   Re.Eol]%char.

Definition ensembl_match (q : string) : bool :=
  Re.match_ true _ENSEMBL_PATTERN q.

(** Truthiness of an optional string: [None] and [""] are falsy. *)
Definition truthy_str (o : option string) : bool :=
  match o with
  | Some (String _ _) => true
  | _ => false
  end.

(** [[gd.id_to_feature_type.get(i, "") for i in ids]] *)
Definition ftypes_of (gd : GeneDict) (ids : list string) : list string :=
  (λ i, default "" (id_to_feature_type gd !! i)) <$> ids.

(** [[i for i, ft in zip(ids, ftypes) if ft == "protein_coding"]] *)
Definition pc_ids_of (ids ftypes : list string) : list string :=
  (filter (λ p : string * string, p.2 = "protein_coding") (zip ids ftypes)).*1.

(** The branch under [# --- Ensembl ID passthrough ---]. *)
Definition passthrough (gd : GeneDict) (query : string) : GeneMatch :=
  let ens_upper := PyStr.upper query in
  let name := id_to_name gd !! ens_upper in
  let ftype := id_to_feature_type gd !! ens_upper in
  match name with
  | Some n =>
      mkGeneMatch query [ens_upper] (Some n) false
        (if truthy_str ftype then [default "" ftype] else [])
  | None => mkGeneMatch query [ens_upper] None false []
  end.

(** The rest of the loop body, under [# --- Name-based lookup ---]. *)
Definition name_lookup (gd : GeneDict) (prefer_protein_coding : bool)
    (query : string) : GeneMatch :=
  let norm := PyStr.upper query in
  match name_to_ids gd !! norm with
  | None | Some [] => GeneMatch_default query
  | Some ((i0 :: rest) as ids) =>
      let ftypes := ftypes_of gd ids in
      let still_ambiguous :=
        mkGeneMatch query ids (Some (default query (id_to_name gd !! i0)))
          true ftypes in
      match rest with
      | [] =>
          mkGeneMatch query ids (Some (default query (id_to_name gd !! i0)))
            false ftypes
      | _ :: _ =>
          if prefer_protein_coding then
            match pc_ids_of ids ftypes with
            | [p] =>
                mkGeneMatch query [p]
                  (Some (default query (id_to_name gd !! p)))
                  false ["protein_coding"]
            | _ => still_ambiguous
            end
          else still_ambiguous
      end
  end.

(** The body of the loop of [resolve_genes] once [query = raw.strip()]
    has been computed. *)
Definition resolve_query (gd : GeneDict) (prefer_protein_coding : bool)
    (query : string) : GeneMatch :=
  if ensembl_match query then passthrough gd query
  else name_lookup gd prefer_protein_coding query.

Definition resolve_one (gd : GeneDict) (prefer_protein_coding : bool)
    (raw : string) : GeneMatch :=
  resolve_query gd prefer_protein_coding (PyStr.strip raw).

(** [resolve_genes] with the dictionary returned by [_get_gene_dict]
    passed in: [results] starts empty and grows by one [append] per input. *)
Definition resolve_genes (gd : GeneDict) (gene_names : list string)
    (prefer_protein_coding : bool) : list GeneMatch :=
  foldl (λ results raw, results ++ [resolve_one gd prefer_protein_coding raw])
        [] gene_names.

(** [build_var_value_filter] *)
Definition build_var_value_filter (ensembl_ids : list string) : string :=
  let unique :=
    merge_sort String.le (elements (list_to_set ensembl_ids : gset string)) in
  match unique with
  | [] => ""
  | _ :: _ =>
      let quoted := PyStr.join ", " ((λ eid, "'" +:+ eid +:+ "'") <$> unique) in
      "feature_id in [" +:+ quoted +:+ "]"
  end.

(** ** Concrete dictionary of the test-suite (fixture [sample_gene_dict]) *)

Definition sample_gene_dict : GeneDict :=
  mkGeneDict
    (<["TP53" := ["ENSG00000141510"]]>
     (<["BRCA1" := ["ENSG00000012048"]]>
      (<["AMBIG" := ["ENSG00000000001"; "ENSG00000000002"]]>
       (<["DUALPC" := ["ENSG00000000003"; "ENSG00000000004"]]> ∅))))
    (<["ENSG00000141510" := "TP53"]>
     (<["ENSG00000012048" := "BRCA1"]>
      (<["ENSG00000000001" := "AMBIG"]>
       (<["ENSG00000000002" := "AMBIG"]>
        (<["ENSG00000000003" := "DUALPC"]>
         (<["ENSG00000000004" := "DUALPC"]> ∅))))))
    (<["ENSG00000141510" := "protein_coding"]>
     (<["ENSG00000012048" := "protein_coding"]>
      (<["ENSG00000000001" := "protein_coding"]>
       (<["ENSG00000000002" := "lncRNA"]>
        (<["ENSG00000000003" := "protein_coding"]>
         (<["ENSG00000000004" := "protein_coding"]> ∅)))))).

(** A dictionary with one gene whose feature type is the empty string,
    and one symbol whose candidate list is empty. *)
Definition blank_type_dict : GeneDict :=
  mkGeneDict
    (<["BLANK" := ["ENSG00000000009"]]> (<["EMPTY" := []]> ∅))
    (<["ENSG00000000009" := "BLANK"]> ∅)
    (<["ENSG00000000009" := ""]> ∅).

(** A world whose cache file exists and whose deserialization raises [e];
    the census serves one row and the cache can be written. *)
Definition corrupt_cache_world (e : Cache.exn) : Cache.World :=
  Cache.mkWorld
    (λ _, true)
    (λ _, None)
    (λ _, Cache.Raise e)
    (λ _ _, Cache.Ok (Some [("ENSG00000141510", "TP53", "protein_coding")]))
    (λ _ _, Cache.Ok tt).

(** The world [w] with the cache file of every key missing. *)
Definition without_cache (w : Cache.World) : Cache.World :=
  Cache.mkWorld (λ _, false) (Cache.open_rb w) (Cache.pickle_load w)
    (Cache.census_read w) (Cache.cache_dump w).

(** ** Notions of the specification *)

(** The characters that are the ASCII capital [x] up to case: the capital,
    the small letter and, for I, K and S, the characters of Unicode whose
    lowercase or uppercase form is that letter (U+0130 and U+0131, U+212A
    KELVIN SIGN, U+017F LONG S). *)
Definition case_forms (x : ascii) : list N :=
  [PyStr.byte x; PyStr.byte (PyStr.lower_char x)] ++
  (if bool_decide (x = "I"%char) then [304; 305]
   else if bool_decide (x = "K"%char) then [8490]
   else if bool_decide (x = "S"%char) then [383]
   else [])%N.

(** [c] is the letter [x] up to case. *)
Definition same_letter (c : N) (x : ascii) : Prop := c ∈ case_forms x.

(** [c] is one of the letters A to Z up to case: the 52 ASCII letters and
    the four characters above. *)
Definition pattern_letter (c : N) : bool :=
  bool_decide ((65 ≤ c ∧ c ≤ 90) ∨ (97 ≤ c ∧ c ≤ 122) ∨
               c ∈ [304; 305; 383; 8490])%N.

(** The capital letters among them: A to Z, U+0130 and U+212A, each its
    own uppercase form. *)
Definition capital_letter (c : N) : bool :=
  bool_decide ((65 ≤ c ∧ c ≤ 90) ∨ c = 304 ∨ c = 8490)%N.

(** The shape of a stable identifier in the words of the specification,
    on the characters of the token: the prefix ENS, zero or more letters,
    a G, one or more decimal digits and nothing after them, letters being
    compared without regard to case. *)
Definition stable_id_shape (s : string) : Prop :=
  ∃ e n s3 mid g d digits,
    PyStr.decode s = e :: n :: s3 :: mid ++ g :: d :: digits ∧
    same_letter e "E" ∧ same_letter n "N" ∧ same_letter s3 "S" ∧
    forallb pattern_letter mid = true ∧
    same_letter g "G" ∧
    PyStr.isdecimal d = true ∧ forallb PyStr.isdecimal digits = true.


(** The feature type the resolver reports for a candidate identifier. *)
Definition ftype_of (gd : GeneDict) (i : string) : string :=
  default "" (id_to_feature_type gd !! i).

(** [i] is the one candidate of [ids] whose feature type is exactly
    "protein_coding": no candidate before or after it has that type. *)
Definition only_protein_coding (gd : GeneDict) (ids : list string)
    (i : string) : Prop :=
  ∃ before after,
    ids = before ++ i :: after ∧
    ftype_of gd i = "protein_coding" ∧
    Forall (λ j, ftype_of gd j ≠ "protein_coding") before ∧
    Forall (λ j, ftype_of gd j ≠ "protein_coding") after.

(** The ambiguity invariant of a [GeneMatch]. *)
Definition ambiguity_invariant (m : GeneMatch) : Prop :=
  (is_ambiguous m = true → 1 < length (ensembl_ids m)) ∧
  (is_ambiguous m = false → length (ensembl_ids m) ≤ 1).

(** The identifiers of a filter as the specification writes them: each
    in single quotes, a comma and one space between two of them. *)
Fixpoint quoted_ids (ids : list string) : string :=
  match ids with
  | [] => ""
  | [x] => "'" +:+ x +:+ "'"
  | x :: r => "'" +:+ x +:+ "', " +:+ quoted_ids r
  end.

(** The list [sorted(set(ids))]. *)
Definition sorted_set (ids : list string) : list string :=
  merge_sort String.le (elements (list_to_set ids : gset string)).

(** ** Notions for the dictionary, the callers and the tests *)

(** The loop over the rows of the var table, started on [GeneDict()]. *)
Definition build_gene_dict (rows : list Cache.row) : GeneDict :=
  foldl Cache.add_row GeneDict_empty rows.

Definition row_id (r : Cache.row) : string := r.1.1.
Definition row_name (r : Cache.row) : string := r.1.2.
Definition row_ftype (r : Cache.row) : string := r.2.

(** The identifiers of the rows whose uppercased name is [k], in table
    order. *)
Definition ids_named (rows : list Cache.row) (k : string) : list string :=
  row_id <$> filter (λ r, PyStr.upper (row_name r) = k) rows.

(** The last row of the table with identifier [i]. *)
Definition last_row_with_id (rows : list Cache.row) (i : string)
    : option Cache.row :=
  last (filter (λ r, row_id r = i) rows).

(** Every candidate identifier has a name and a feature type. *)
Definition dict_closed (gd : GeneDict) : Prop :=
  ∀ k ids i, name_to_ids gd !! k = Some ids → i ∈ ids →
    is_Some (id_to_name gd !! i) ∧ is_Some (id_to_feature_type gd !! i).

(** [[eid for m in matches for eid in m.ensembl_ids]], as the example
    script collects the identifiers of all matches. *)
Definition all_ids (matches : list GeneMatch) : list string :=
  matches ≫= ensembl_ids.

(** The example script's [var_filter]: resolve, collect, build. *)
Definition var_filter_of (gd : GeneDict) (gene_names : list string)
    (prefer_protein_coding : bool) : string :=
  build_var_value_filter
    (all_ids (resolve_genes gd gene_names prefer_protein_coding)).

(** A var table with an ambiguous symbol and a repeated identifier. *)
Definition sample_rows : list Cache.row :=
  [("ENSG00000141510", "TP53", "protein_coding");
   ("ENSG00000000001", "Ambig", "protein_coding");
   ("ENSG00000000002", "AMBIG", "lncRNA");
   ("ENSG00000141510", "tp53-new", "protein_coding")].

(** A world with no cache file where the census cannot be opened. *)
Definition census_down_world : Cache.World :=
  Cache.mkWorld (λ _, false) (λ _, None) (λ _, Cache.Raise Cache.EOFError)
    (λ _ _, Cache.Raise Cache.OSError) (λ _ _, Cache.Ok tt).

(** A world with no cache file where the census serves [sample_rows] and
    the cache file cannot be written. *)
Definition read_only_world : Cache.World :=
  Cache.mkWorld (λ _, false) (λ _, None) (λ _, Cache.Raise Cache.EOFError)
    (λ _ _, Cache.Ok (Some sample_rows)) (λ _ _, Cache.Raise Cache.OSError).

(** ** Facts on the string primitives *)

Ltac by_cases_on_char c :=
  destruct c as [[] [] [] [] [] [] [] []]; vm_compute.

Lemma sapp_nil s : "" +:+ s = s.
Proof. reflexivity. Qed.

Lemma sapp_cons c s t : String c s +:+ t = String c (s +:+ t).
Proof. reflexivity. Qed.

Ltac sapp := rewrite ?sapp_cons, ?sapp_nil in *.

Lemma sapp_nil_r s : s +:+ "" = s.
Proof. induction s as [|c s IH]; sapp; [|rewrite IH]; reflexivity. Qed.

Lemma sapp_assoc s t u : (s +:+ t) +:+ u = s +:+ (t +:+ u).
Proof. induction s as [|c s IH]; sapp; [|rewrite IH]; reflexivity. Qed.

Lemma sapp_length s t :
  String.length (s +:+ t) = (String.length s + String.length t)%nat.
Proof. induction s as [|c s IH]; sapp; cbn; [|rewrite IH]; reflexivity. Qed.

Lemma all_app p s t :
  PyStr.all p (s +:+ t) = PyStr.all p s && PyStr.all p t.
Proof.
  induction s as [|c s IH]; sapp; simpl; [reflexivity|].
  rewrite IH. apply andb_assoc.
Qed.

(** Induction on the length of a string. *)
Lemma string_length_ind (P : string → Prop) :
  (∀ s, (∀ t, (String.length t < String.length s)%nat → P t) → P s) →
  ∀ s, P s.
Proof.
  intros H s. remember (String.length s) as n eqn:En.
  revert s En. induction (lt_wf n) as [n _ IH]. intros s ->.
  apply H. intros t Ht. exact (IH _ Ht t eq_refl).
Qed.

Lemma chr_byte b : PyStr.chr (PyStr.byte b) = b.
Proof. apply ascii_N_embedding. Qed.

(** *** White space and its encodings *)

Lemma is_ws_true w :
  PyStr.is_ws w = true ↔ ∃ c, PyStr.isspace c = true ∧ w = PyStr.utf8 c.
Proof.
  unfold PyStr.is_ws, PyStr.isspace. rewrite bool_decide_eq_true, list_elem_of_fmap.
  split; intros (c & H1 & H2).
  - exists c. rewrite bool_decide_eq_true. auto.
  - exists c. apply bool_decide_eq_true in H1. auto.
Qed.

Ltac each_whitespace H :=
  apply bool_decide_eq_true in H; unfold PyStr.whitespace in H;
  repeat (apply elem_of_cons in H as [-> | H]); [..|inversion H].

(** A white-space character in front decodes to itself. *)
Lemma decode_ws c s :
  PyStr.isspace c = true →
  PyStr.decode (PyStr.utf8 c +:+ s) = c :: PyStr.decode s.
Proof. intros H. each_whitespace H; reflexivity. Qed.

(** [lstrip] takes it off. *)
Lemma lstrip_ws c s :
  PyStr.isspace c = true → PyStr.lstrip (PyStr.utf8 c +:+ s) = PyStr.lstrip s.
Proof. intros H. each_whitespace H; reflexivity. Qed.

Lemma utf8_ws_length c :
  PyStr.isspace c = true → (0 < String.length (PyStr.utf8 c))%nat.
Proof. intros H. each_whitespace H; vm_compute; lia. Qed.

(** One step of [lstrip]: nothing to take off, or one white-space
    character. *)
Lemma lstrip_cases s :
  PyStr.lstrip s = s ∨
  ∃ c r, PyStr.isspace c = true ∧ s = PyStr.utf8 c +:+ r ∧
         PyStr.lstrip s = PyStr.lstrip r.
Proof.
  destruct s as [|b1 r1]; [left; reflexivity|].
  cbn [PyStr.lstrip].
  destruct (PyStr.is_ws (String b1 "")) eqn:H1.
  { right. apply is_ws_true in H1 as (c & Hc & E). exists c, r1.
    rewrite <- E. auto. }
  destruct r1 as [|b2 r2]; [left; reflexivity|].
  destruct (PyStr.is_ws (String b1 (String b2 ""))) eqn:H2.
  { right. apply is_ws_true in H2 as (c & Hc & E). exists c, r2.
    rewrite <- E. auto. }
  destruct r2 as [|b3 r3]; [left; reflexivity|].
  destruct (PyStr.is_ws (String b1 (String b2 (String b3 "")))) eqn:H3.
  { right. apply is_ws_true in H3 as (c & Hc & E). exists c, r3.
    rewrite <- E. auto. }
  left. reflexivity.
Qed.

(** What [lstrip] removes is white space. *)
Lemma lstrip_split s :
  ∃ pre, s = pre +:+ PyStr.lstrip s ∧
         Forall (λ c, PyStr.isspace c = true) (PyStr.decode pre).
Proof.
  induction s as [s IH] using string_length_ind.
  destruct (lstrip_cases s) as [E | (c & r & Hc & -> & E)].
  - exists "". rewrite E. split; [reflexivity|constructor].
  - destruct (IH r) as (pre & Hr & Hpre).
    { rewrite sapp_length. pose proof (utf8_ws_length c Hc). lia. }
    exists (PyStr.utf8 c +:+ pre). split.
    + rewrite E, sapp_assoc, <- Hr. reflexivity.
    + rewrite decode_ws by exact Hc. constructor; assumption.
Qed.

Lemma lstrip_length s :
  (String.length (PyStr.lstrip s) ≤ String.length s)%nat.
Proof.
  destruct (lstrip_split s) as (pre & E & _).
  rewrite E at 2. rewrite sapp_length. lia.
Qed.

Lemma lstrip_idemp s : PyStr.lstrip (PyStr.lstrip s) = PyStr.lstrip s.
Proof.
  induction s as [s IH] using string_length_ind.
  destruct (lstrip_cases s) as [E | (c & r & Hc & -> & E)].
  - rewrite E. exact E.
  - rewrite E. apply IH.
    rewrite sapp_length. pose proof (utf8_ws_length c Hc). lia.
Qed.

(** After [lstrip] no white-space character is in front. *)
Lemma lstrip_no_ws s c r :
  PyStr.isspace c = true → PyStr.lstrip s ≠ PyStr.utf8 c +:+ r.
Proof.
  intros Hc E.
  pose proof (lstrip_idemp s) as Hi. rewrite E, (lstrip_ws c r Hc) in Hi.
  pose proof (lstrip_length r) as Hl. rewrite Hi, sapp_length in Hl.
  pose proof (utf8_ws_length c Hc). lia.
Qed.

Lemma lstrip_id s :
  (∀ c r, PyStr.isspace c = true → s ≠ PyStr.utf8 c +:+ r) →
  PyStr.lstrip s = s.
Proof.
  intros H. destruct (lstrip_cases s) as [E | (c & r & Hc & E & _)]; [exact E|].
  destruct (H c r Hc E).
Qed.

Lemma rstrip_cons c r :
  PyStr.rstrip (String c r) =
  if PyStr.is_ws (String c (PyStr.rstrip r)) then ""
  else String c (PyStr.rstrip r).
Proof. reflexivity. Qed.

Lemma rstrip_idemp s : PyStr.rstrip (PyStr.rstrip s) = PyStr.rstrip s.
Proof.
  induction s as [|c s IH]; [reflexivity|].
  rewrite rstrip_cons.
  destruct (PyStr.is_ws (String c (PyStr.rstrip s))) eqn:Hw; [reflexivity|].
  rewrite rstrip_cons, IH, Hw. reflexivity.
Qed.

(** What [rstrip] removes is white space. *)
Lemma rstrip_split s :
  ∃ post, s = PyStr.rstrip s +:+ post ∧
          Forall (λ c, PyStr.isspace c = true) (PyStr.decode post).
Proof.
  induction s as [|a s (post & Hs & Hpost)].
  - exists "". split; [reflexivity|constructor].
  - rewrite rstrip_cons.
    destruct (PyStr.is_ws (String a (PyStr.rstrip s))) eqn:Hw.
    + apply is_ws_true in Hw as (c & Hc & E).
      exists (PyStr.utf8 c +:+ post). split.
      * rewrite <- E. sapp. rewrite <- Hs. reflexivity.
      * rewrite decode_ws by exact Hc. constructor; assumption.
    + exists post. split; [|exact Hpost]. sapp. rewrite <- Hs. reflexivity.
Qed.

Lemma sapp_eq_nil s t : s +:+ t = "" → s = "" ∧ t = "".
Proof. destruct s; sapp; [auto|discriminate]. Qed.

(** After [rstrip] no white-space character is at the end. *)
Lemma rstrip_no_ws s c p :
  PyStr.isspace c = true → PyStr.rstrip s ≠ p +:+ PyStr.utf8 c.
Proof.
  intros Hc. revert p. induction s as [|a s IH]; intros p E.
  - symmetry in E. apply sapp_eq_nil in E as [_ E].
    pose proof (utf8_ws_length c Hc) as Hl. rewrite E in Hl. cbn in Hl. lia.
  - rewrite rstrip_cons in E.
    destruct (PyStr.is_ws (String a (PyStr.rstrip s))) eqn:Hw.
    + symmetry in E. apply sapp_eq_nil in E as [_ E].
      pose proof (utf8_ws_length c Hc) as Hl. rewrite E in Hl. cbn in Hl. lia.
    + destruct p as [|b p]; sapp.
      * assert (Ht : PyStr.is_ws (PyStr.utf8 c) = true)
          by (apply is_ws_true; eauto).
        rewrite <- E, Hw in Ht. discriminate Ht.
      * injection E as _ E. exact (IH p E).
Qed.

(** *** [strip] *)

Lemma strip_split raw :
  ∃ pre post,
    raw = pre +:+ PyStr.strip raw +:+ post ∧
    Forall (λ c, PyStr.isspace c = true) (PyStr.decode pre) ∧
    Forall (λ c, PyStr.isspace c = true) (PyStr.decode post).
Proof.
  unfold PyStr.strip.
  destruct (lstrip_split raw) as (pre & E1 & Hpre).
  destruct (rstrip_split (PyStr.lstrip raw)) as (post & E2 & Hpost).
  exists pre, post. split; [|auto]. rewrite <- E2. exact E1.
Qed.

Lemma strip_no_ws_front raw c r :
  PyStr.isspace c = true → PyStr.strip raw ≠ PyStr.utf8 c +:+ r.
Proof.
  intros Hc E. unfold PyStr.strip in E.
  destruct (rstrip_split (PyStr.lstrip raw)) as (post & E2 & _).
  rewrite E, sapp_assoc in E2. exact (lstrip_no_ws raw c _ Hc E2).
Qed.

Lemma strip_no_ws_back raw c p :
  PyStr.isspace c = true → PyStr.strip raw ≠ p +:+ PyStr.utf8 c.
Proof. apply rstrip_no_ws. Qed.

Lemma strip_idemp s : PyStr.strip (PyStr.strip s) = PyStr.strip s.
Proof.
  unfold PyStr.strip at 1.
  rewrite (lstrip_id (PyStr.strip s)).
  - apply rstrip_idemp.
  - intros c r Hc. apply strip_no_ws_front, Hc.
Qed.

Lemma is_ascii_strip raw :
  PyStr.is_ascii raw = true → PyStr.is_ascii (PyStr.strip raw) = true.
Proof.
  destruct (strip_split raw) as (pre & post & E & _).
  unfold PyStr.is_ascii. rewrite E at 1. rewrite !all_app, !andb_true_iff. tauto.
Qed.

(** *** Decoding, one character at a time *)

Lemma divmod_unique (a b q r : N) :
  (r < b)%N → (a = b * q + r)%N → (a / b = q ∧ a mod b = r)%N.
Proof.
  intros Hr E. split.
  - symmetry. apply (N.div_unique a b q r); assumption.
  - symmetry. apply (N.mod_unique a b q r); assumption.
Qed.

Lemma is_cont_true n : PyStr.is_cont n = true → (128 ≤ n ∧ n ≤ 191)%N.
Proof. apply bool_decide_eq_true. Qed.

Lemma utf8_cp2 n1 n2 :
  PyStr.valid2 n1 n2 = true →
  PyStr.utf8 (PyStr.cp2 n1 n2) =
  String (PyStr.chr n1) (String (PyStr.chr n2) "").
Proof.
  unfold PyStr.valid2. rewrite andb_true_iff, bool_decide_eq_true.
  intros [H1 H2%is_cont_true]. unfold PyStr.utf8, PyStr.cp2.
  set (c := ((n1 - 192) * 64 + (n2 - 128))%N).
  destruct (divmod_unique c 64 (n1 - 192) (n2 - 128)) as [Hq Hr];
    [lia|unfold c; lia|].
  rewrite Hq, Hr.
  destruct (decide (c < 128)%N); [unfold c in *; lia|].
  destruct (decide (c < 2048)%N); [|unfold c in *; lia].
  repeat f_equal; lia.
Qed.

Lemma utf8_cp3 n1 n2 n3 :
  PyStr.valid3 n1 n2 n3 = true →
  PyStr.utf8 (PyStr.cp3 n1 n2 n3) =
  String (PyStr.chr n1) (String (PyStr.chr n2) (String (PyStr.chr n3) "")).
Proof.
  unfold PyStr.valid3. rewrite !andb_true_iff, !bool_decide_eq_true.
  intros [[[H1 H2%is_cont_true] H3%is_cont_true] [Hlo _]].
  unfold PyStr.utf8. unfold PyStr.cp3 in *.
  set (c := ((n1 - 224) * 4096 + (n2 - 128) * 64 + (n3 - 128))%N) in *.
  destruct (divmod_unique c 64 ((n1 - 224) * 64 + (n2 - 128)) (n3 - 128))
    as [Hq Hr]; [lia|unfold c; lia|].
  destruct (divmod_unique ((n1 - 224) * 64 + (n2 - 128)) 64 (n1 - 224) (n2 - 128))
    as [Hq2 Hr2]; [lia|lia|].
  destruct (divmod_unique c 4096 (n1 - 224) ((n2 - 128) * 64 + (n3 - 128)))
    as [Hq3 _]; [lia|unfold c; lia|].
  rewrite Hq, Hr, Hr2, Hq3.
  destruct (decide (c < 128)%N); [lia|].
  destruct (decide (c < 2048)%N); [lia|].
  destruct (decide (c < 65536)%N); [|unfold c in *; lia].
  repeat f_equal; lia.
Qed.

Lemma utf8_cp4 n1 n2 n3 n4 :
  PyStr.valid4 n1 n2 n3 n4 = true →
  PyStr.utf8 (PyStr.cp4 n1 n2 n3 n4) =
  String (PyStr.chr n1)
    (String (PyStr.chr n2) (String (PyStr.chr n3) (String (PyStr.chr n4) ""))).
Proof.
  unfold PyStr.valid4. rewrite !andb_true_iff, !bool_decide_eq_true.
  intros [[[[H1 H2%is_cont_true] H3%is_cont_true] H4%is_cont_true] [Hlo _]].
  unfold PyStr.utf8. unfold PyStr.cp4 in *.
  set (c := ((n1 - 240) * 262144 + (n2 - 128) * 4096 + (n3 - 128) * 64
             + (n4 - 128))%N) in *.
  destruct (divmod_unique c 64
              ((n1 - 240) * 4096 + (n2 - 128) * 64 + (n3 - 128)) (n4 - 128))
    as [Hq Hr]; [lia|unfold c; lia|].
  destruct (divmod_unique ((n1 - 240) * 4096 + (n2 - 128) * 64 + (n3 - 128)) 64
              ((n1 - 240) * 64 + (n2 - 128)) (n3 - 128))
    as [_ Hr2]; [lia|lia|].
  destruct (divmod_unique c 4096 ((n1 - 240) * 64 + (n2 - 128))
              ((n3 - 128) * 64 + (n4 - 128)))
    as [Hq3 _]; [lia|unfold c; lia|].
  destruct (divmod_unique ((n1 - 240) * 64 + (n2 - 128)) 64 (n1 - 240) (n2 - 128))
    as [_ Hr3]; [lia|lia|].
  destruct (divmod_unique c 262144 (n1 - 240)
              ((n2 - 128) * 4096 + (n3 - 128) * 64 + (n4 - 128)))
    as [Hq4 _]; [lia|unfold c; lia|].
  rewrite Hq, Hr, Hr2, Hq3, Hr3, Hq4.
  destruct (decide (c < 128)%N); [lia|].
  destruct (decide (c < 2048)%N); [lia|].
  destruct (decide (c < 65536)%N); [lia|].
  repeat f_equal; lia.
Qed.

Lemma byte_bound b : (PyStr.byte b < 256)%N.
Proof. apply N_ascii_bounded. Qed.

(** The first code point comes from the first one to four bytes, which
    are its UTF-8 encoding unless it stands for a stray byte. *)
Lemma decode_cons_inv t c l :
  PyStr.decode t = c :: l →
  ∃ w t', t = w +:+ t' ∧ PyStr.decode t' = l ∧
          ((c < 55296 ∨ 57343 < c)%N → w = PyStr.utf8 c).
Proof.
  destruct t as [|b1 r1]; [discriminate|].
  cbn [PyStr.decode]. cbv zeta.
  pose proof (byte_bound b1) as Hb1.
  destruct (decide (PyStr.byte b1 < 128)%N) as [Ha|Ha].
  { intros [= <- <-]. exists (String b1 ""), r1. repeat split.
    intros _. unfold PyStr.utf8.
    destruct (decide (PyStr.byte b1 < 128)%N); [|lia].
    rewrite chr_byte. reflexivity. }
  assert (Hesc : PyStr.escape (PyStr.byte b1) :: PyStr.decode r1 = c :: l →
                 ∃ w t', String b1 r1 = w +:+ t' ∧ PyStr.decode t' = l ∧
                         ((c < 55296 ∨ 57343 < c)%N → w = PyStr.utf8 c)).
  { intros [= <- <-]. exists (String b1 ""), r1. repeat split.
    unfold PyStr.escape. lia. }
  destruct r1 as [|b2 r2]; [exact Hesc|].
  destruct (PyStr.valid2 (PyStr.byte b1) (PyStr.byte b2)) eqn:V2.
  { intros [= <- <-]. exists (String b1 (String b2 "")), r2. repeat split.
    intros _. rewrite (utf8_cp2 _ _ V2), !chr_byte. reflexivity. }
  destruct r2 as [|b3 r3]; [exact Hesc|].
  destruct (PyStr.valid3 (PyStr.byte b1) (PyStr.byte b2) (PyStr.byte b3)) eqn:V3.
  { intros [= <- <-]. exists (String b1 (String b2 (String b3 ""))), r3.
    repeat split. intros _. rewrite (utf8_cp3 _ _ _ V3), !chr_byte. reflexivity. }
  destruct r3 as [|b4 r4]; [exact Hesc|].
  destruct (PyStr.valid4 (PyStr.byte b1) (PyStr.byte b2) (PyStr.byte b3)
              (PyStr.byte b4)) eqn:V4; [|exact Hesc].
  intros [= <- <-].
  exists (String b1 (String b2 (String b3 (String b4 "")))), r4.
  repeat split. intros _. rewrite (utf8_cp4 _ _ _ _ V4), !chr_byte. reflexivity.
Qed.

Lemma decode_nil t : PyStr.decode t = [] → t = "".
Proof.
  destruct t as [|b1 r1]; [reflexivity|]. cbn [PyStr.decode]. cbv zeta.
  destruct (decide (PyStr.byte b1 < 128)%N); [discriminate|].
  destruct r1 as [|b2 r2]; [discriminate|].
  destruct (PyStr.valid2 _ _); [discriminate|].
  destruct r2 as [|b3 r3]; [discriminate|].
  destruct (PyStr.valid3 _ _ _); [discriminate|].
  destruct r3 as [|b4 r4]; [discriminate|].
  destruct (PyStr.valid4 _ _ _ _); discriminate.
Qed.

Lemma isspace_not_stray c :
  PyStr.isspace c = true → (c < 55296 ∨ 57343 < c)%N.
Proof. intros H. each_whitespace H; lia. Qed.

(** A white-space character at either end of the code points is one at
    that end of the bytes. *)
Lemma decode_ws_front t c l :
  PyStr.decode t = c :: l → PyStr.isspace c = true →
  ∃ r, t = PyStr.utf8 c +:+ r.
Proof.
  intros E Hc. apply decode_cons_inv in E as (w & t' & -> & _ & Hw).
  rewrite (Hw (isspace_not_stray c Hc)). eauto.
Qed.

Lemma decode_ws_back t c l :
  PyStr.decode t = l ++ [c] → PyStr.isspace c = true →
  ∃ p, t = p +:+ PyStr.utf8 c.
Proof.
  intros E Hc. revert t E. induction l as [|c0 l IH]; intros t E.
  - apply decode_cons_inv in E as (w & t' & -> & Hnil & Hw).
    apply decode_nil in Hnil as ->.
    rewrite (Hw (isspace_not_stray c Hc)), sapp_nil_r. exists "". reflexivity.
  - apply decode_cons_inv in E as (w & t' & -> & Ht' & _).
    destruct (IH t' Ht') as (p & ->). exists (w +:+ p).
    rewrite sapp_assoc. reflexivity.
Qed.

(** A stripped token has no white-space character at either end. *)
Lemma strip_front raw c l :
  PyStr.decode (PyStr.strip raw) = c :: l → PyStr.isspace c = false.
Proof.
  intros E. destruct (PyStr.isspace c) eqn:Hc; [|reflexivity].
  destruct (decode_ws_front _ _ _ E Hc) as (r & Hr).
  destruct (strip_no_ws_front raw c r Hc Hr).
Qed.

Lemma strip_back raw c l :
  PyStr.decode (PyStr.strip raw) = l ++ [c] → PyStr.isspace c = false.
Proof.
  intros E. destruct (PyStr.isspace c) eqn:Hc; [|reflexivity].
  destruct (decode_ws_back _ _ _ E Hc) as (p & Hp).
  destruct (strip_no_ws_back raw c p Hc Hp).
Qed.

(** ** The stable-identifier pattern *)

(** [star p k] succeeds exactly when some run of [p]-characters can be
    taken off the front so that the continuation accepts what is left. *)
Lemma star_true p k s :
  Re.star p k s = true ↔
  ∃ pre rest, s = pre ++ rest ∧ forallb p pre = true ∧ k rest = true.
Proof.
  induction s as [|c s IH]; simpl.
  - split.
    + intros H. exists [], []. auto.
    + intros ([|? ?] & rest & E & _ & Hk); [|discriminate].
      simpl in E. subst rest. exact Hk.
  - rewrite orb_true_iff, andb_true_iff, IH. split.
    + intros [[Hc (pre & rest & -> & Hp & Hk)] | Hk].
      * exists (c :: pre), rest. simpl. rewrite Hc, Hp. auto.
      * exists [], (c :: s). auto.
    + intros ([|a pre] & rest & E & Hp & Hk); simpl in E.
      * right. subst rest. exact Hk.
      * injection E as <- ->. simpl in Hp. apply andb_true_iff in Hp as [Ha Hp].
        left. split; [exact Ha|]. exists pre, rest. auto.
Qed.

Lemma forallb_ext_eq {A} (p q : A → bool) l :
  (∀ c, p c = q c) → forallb p l = forallb q l.
Proof. intros E. induction l as [|c l IH]; simpl; [|rewrite E, IH]; reflexivity. Qed.

(** What lowercases to a given small ASCII letter. *)
Lemma sre_lower_small c y :
  (97 ≤ y ∧ y ≤ 122)%N →
  Re.sre_lower c = y ↔
  (c = y ∨ c = y - 32 ∨ (y = 107 ∧ c = 8490) ∨ (y = 105 ∧ c = 304))%N.
Proof.
  intros Hy. unfold Re.sre_lower. repeat case_decide; lia.
Qed.

Lemma sre_lower_fix c y :
  (y = 305 ∨ y = 383)%N → Re.sre_lower c = y ↔ c = y.
Proof. intros Hy. unfold Re.sre_lower. repeat case_decide; lia. Qed.

Ltac lit_solve x :=
  unfold same_letter; cbn [Re.atom_match]; rewrite bool_decide_eq_true;
  vm_compute (Re.sre_lower (PyStr.byte x)); vm_compute (case_forms x);
  vm_compute (Re.ignorecase_fixes _);
  rewrite !elem_of_cons, !elem_of_nil;
  repeat match goal with
         | |- context [Re.sre_lower ?c = ?y] =>
             first [rewrite (sre_lower_small c y) by lia
                   |rewrite (sre_lower_fix c y) by lia]
         end;
  lia.

Lemma lit_E c : Re.atom_match true (Re.Lit "E") c = true ↔ same_letter c "E".
Proof. lit_solve "E"%char. Qed.

Lemma lit_N c : Re.atom_match true (Re.Lit "N") c = true ↔ same_letter c "N".
Proof. lit_solve "N"%char. Qed.

Lemma lit_S c : Re.atom_match true (Re.Lit "S") c = true ↔ same_letter c "S".
Proof. lit_solve "S"%char. Qed.

Lemma lit_G c : Re.atom_match true (Re.Lit "G") c = true ↔ same_letter c "G".
Proof. lit_solve "G"%char. Qed.

(** The charset of [[A-Z]] under [re.IGNORECASE]. *)
Lemma elem_of_codes lo hi i : i ∈ Re.codes lo hi ↔ (lo ≤ i ∧ i ≤ hi)%N.
Proof.
  unfold Re.codes. rewrite list_elem_of_fmap. split.
  - intros (k & -> & Hk). apply elem_of_seq in Hk. lia.
  - intros H. exists (N.to_nat (i - lo)). split; [lia|].
    apply elem_of_seq. lia.
Qed.

Lemma elem_of_range_charset lo hi y :
  y ∈ Re.range_charset lo hi ↔
  ∃ i, (lo ≤ i ∧ i ≤ hi)%N ∧
       (y = Re.sre_lower i ∨ y ∈ Re.ignorecase_fixes (Re.sre_lower i)).
Proof.
  unfold Re.range_charset. rewrite list_elem_of_bind.
  split; intros (i & H1 & H2); exists i.
  - apply elem_of_cons in H1. apply elem_of_codes in H2. auto.
  - rewrite elem_of_cons, elem_of_codes. tauto.
Qed.

Lemma range_A_Z c : Re.atom_match true (Re.Range "A" "Z") c = pattern_letter c.
Proof.
  cbn [Re.atom_match]. unfold pattern_letter. apply bool_decide_ext.
  rewrite elem_of_range_charset.
  change (PyStr.byte "A") with 65%N. change (PyStr.byte "Z") with 90%N.
  rewrite !elem_of_cons, elem_of_nil. split.
  - intros (i & Hi & H).
    assert (Hl : Re.sre_lower i = (i + 32)%N)
      by (unfold Re.sre_lower; repeat case_decide; lia).
    rewrite Hl in H. destruct H as [H | H].
    + apply (sre_lower_small c (i + 32)) in H; lia.
    + unfold Re.ignorecase_fixes in H.
      repeat case_decide; [| |inversion H];
        apply list_elem_of_singleton in H;
        match type of H with
        | _ = ?y => assert (c = y) by (apply (sre_lower_fix c y); [lia|exact H])
        end; lia.
  - intros H.
    assert (Hc : ((65 ≤ c ∧ c ≤ 90) ∨ (97 ≤ c ∧ c ≤ 122) ∨ c = 304 ∨
                  c = 305 ∨ c = 383 ∨ c = 8490)%N) by lia.
    clear H. destruct Hc as [H|[H|[->|[->|[->| ->]]]]].
    + exists c. split; [lia|left]. unfold Re.sre_lower. repeat case_decide; lia.
    + exists (c - 32)%N. split; [lia|left].
      unfold Re.sre_lower. repeat case_decide; lia.
    + exists 73%N. split; [lia|left]. reflexivity.
    + exists 73%N. split; [lia|right]. vm_compute. left.
    + exists 83%N. split; [lia|right]. vm_compute. left.
    + exists 75%N. split; [lia|left]. reflexivity.
Qed.

(** What [$] lets through after the digits. *)
Lemma eol_cases rest : Re.eol rest = true ↔ rest = [] ∨ rest = [10%N].
Proof.
  destruct rest as [|c [|? ?]]; simpl; split; try (intros [H|H]; discriminate H);
    try discriminate; auto.
  - intros H. apply bool_decide_eq_true in H. subst. auto.
  - intros [H|H]; [discriminate H|]. injection H as ->. reflexivity.
Qed.

(** The pattern accepts the code points of the shape, and those followed
    by one newline. *)
Lemma run_ensembl_true l :
  Re.run true _ENSEMBL_PATTERN l = true ↔
  ∃ e n s3 mid g d digits rest,
    l = e :: n :: s3 :: mid ++ g :: d :: digits ++ rest ∧
    same_letter e "E" ∧ same_letter n "N" ∧ same_letter s3 "S" ∧
    forallb pattern_letter mid = true ∧ same_letter g "G" ∧
    PyStr.isdecimal d = true ∧ forallb PyStr.isdecimal digits = true ∧
    (rest = [] ∨ rest = [10%N]).
Proof.
  unfold _ENSEMBL_PATTERN. split.
  - destruct l as [|e [|n [|s3 r]]]; cbn [Re.run];
      rewrite ?andb_false_r; try discriminate.
    rewrite !andb_true_iff. intros (He & Hn & Hs & Hstar).
    apply star_true in Hstar as (mid & r1 & -> & Hmid & Hk).
    destruct r1 as [|g [|d r2]]; rewrite ?andb_false_r in Hk; try discriminate.
    rewrite !andb_true_iff in Hk. destruct Hk as (Hg & Hd & Hstar).
    apply star_true in Hstar as (digits & rest & -> & Hdig & Hrest).
    rewrite andb_true_r in Hrest. apply eol_cases in Hrest.
    rewrite (forallb_ext_eq _ _ _ range_A_Z) in Hmid.
    apply lit_E in He. apply lit_N in Hn. apply lit_S in Hs. apply lit_G in Hg.
    exists e, n, s3, mid, g, d, digits, rest. auto 12.
  - intros (e & n & s3 & mid & g & d & digits & rest & -> & He & Hn & Hs
            & Hmid & Hg & Hd & Hdig & Hrest).
    apply lit_E in He. apply lit_N in Hn. apply lit_S in Hs. apply lit_G in Hg.
    cbn [Re.run]. rewrite He, Hn, Hs. cbn [andb].
    apply star_true. exists mid, (g :: d :: digits ++ rest).
    split; [reflexivity|]. split.
    + rewrite (forallb_ext_eq _ _ _ range_A_Z). exact Hmid.
    + rewrite Hg. change (Re.atom_match true Re.Digit d) with (PyStr.isdecimal d).
      rewrite Hd. cbn [andb].
      apply star_true. exists digits, rest. split; [reflexivity|].
      split; [exact Hdig|]. rewrite andb_true_r. apply eol_cases, Hrest.
Qed.

Lemma newline_isspace : PyStr.isspace 10 = true.
Proof. reflexivity. Qed.

(** On a trimmed token the pattern and the shape agree. *)
Lemma ensembl_match_shape raw :
  ensembl_match (PyStr.strip raw) = true ↔ stable_id_shape (PyStr.strip raw).
Proof.
  unfold ensembl_match, Re.match_, stable_id_shape. rewrite run_ensembl_true.
  split.
  - intros (e & n & s3 & mid & g & d & digits & rest & E & H).
    destruct H as (He & Hn & Hs & Hmid & Hg & Hd & Hdig & [-> | ->]).
    + rewrite app_nil_r in E. exists e, n, s3, mid, g, d, digits. auto 12.
    + exfalso.
      assert (E' : PyStr.decode (PyStr.strip raw) =
                   (e :: n :: s3 :: mid ++ g :: d :: digits) ++ [10%N]).
      { rewrite E. cbn [app]. rewrite <- app_assoc. reflexivity. }
      apply strip_back in E'. rewrite newline_isspace in E'. discriminate E'.
  - intros (e & n & s3 & mid & g & d & digits & E & H).
    exists e, n, s3, mid, g, d, digits, []. rewrite app_nil_r.
    destruct H as (He & Hn & Hs & Hmid & Hg & Hd & Hdig). auto 12.
Qed.

(** Before trimming, one final newline is let through. *)
Lemma ensembl_match_true q :
  ensembl_match q = true ↔
  ∃ l, (PyStr.decode q = l ∨ PyStr.decode q = l ++ [10%N]) ∧
       ∃ e n s3 mid g d digits,
         l = e :: n :: s3 :: mid ++ g :: d :: digits ∧
         same_letter e "E" ∧ same_letter n "N" ∧ same_letter s3 "S" ∧
         forallb pattern_letter mid = true ∧ same_letter g "G" ∧
         PyStr.isdecimal d = true ∧ forallb PyStr.isdecimal digits = true.
Proof.
  unfold ensembl_match, Re.match_. rewrite run_ensembl_true. split.
  - intros (e & n & s3 & mid & g & d & digits & rest & E & H).
    destruct H as (He & Hn & Hs & Hmid & Hg & Hd & Hdig & Hrest).
    exists (e :: n :: s3 :: mid ++ g :: d :: digits). split.
    + destruct Hrest as [-> | ->]; rewrite E; [left|right].
      * rewrite app_nil_r. reflexivity.
      * cbn [app]. rewrite <- app_assoc. reflexivity.
    + exists e, n, s3, mid, g, d, digits. auto 12.
  - intros (l & Hl & e & n & s3 & mid & g & d & digits & -> & H).
    destruct H as (He & Hn & Hs & Hmid & Hg & Hd & Hdig).
    destruct Hl as [E | E].
    + exists e, n, s3, mid, g, d, digits, []. rewrite app_nil_r. auto 12.
    + exists e, n, s3, mid, g, d, digits, [10%N]. split; [|auto 12].
      rewrite E. cbn [app]. rewrite <- app_assoc. reflexivity.
Qed.

(** ** ASCII tokens *)

Lemma ascii_byte b : (PyStr.code b <? 128)%nat = true → (PyStr.byte b < 128)%N.
Proof. by_cases_on_char b; intros H; first [discriminate H|reflexivity]. Qed.

Lemma decode_ascii_cons b r :
  (PyStr.code b <? 128)%nat = true →
  PyStr.decode (String b r) = PyStr.byte b :: PyStr.decode r.
Proof.
  intros H. apply ascii_byte in H. cbn [PyStr.decode]. cbv zeta.
  destruct (decide (PyStr.byte b < 128)%N); [reflexivity|contradiction].
Qed.

Lemma is_ascii_cons b r :
  PyStr.is_ascii (String b r) = true ↔
  (PyStr.code b <? 128)%nat = true ∧ PyStr.is_ascii r = true.
Proof. unfold PyStr.is_ascii. cbn [PyStr.all]. apply andb_true_iff. Qed.


(** The code points of an ASCII token are its bytes. *)
Lemma decode_ascii s :
  PyStr.is_ascii s = true →
  PyStr.decode s = PyStr.byte <$> String.list_ascii_of_string s.
Proof.
  induction s as [|b r IH]; [reflexivity|].
  intros [Hb Hr]%is_ascii_cons.
  rewrite (decode_ascii_cons b r Hb), (IH Hr). reflexivity.
Qed.












(** ** Characters and their bytes *)

(** *** Well-formed sequences *)

Lemma byte_chr n : (n < 256)%N → PyStr.byte (PyStr.chr n) = n.
Proof. apply N_ascii_embedding. Qed.

Lemma byte_eq b n : PyStr.byte b = n → b = PyStr.chr n.
Proof. intros <-. symmetry. apply chr_byte. Qed.

Lemma valid2_bounds n1 n2 :
  PyStr.valid2 n1 n2 = true →
  (194 ≤ n1 ∧ n1 ≤ 223 ∧ 128 ≤ n2 ∧ n2 ≤ 191 ∧
   128 ≤ PyStr.cp2 n1 n2 ∧ PyStr.cp2 n1 n2 < 2048)%N.
Proof.
  unfold PyStr.valid2, PyStr.cp2. rewrite andb_true_iff, bool_decide_eq_true.
  intros [H1 H2%is_cont_true]. lia.
Qed.

Lemma valid3_bounds n1 n2 n3 :
  PyStr.valid3 n1 n2 n3 = true →
  (224 ≤ n1 ∧ n1 ≤ 239 ∧ 128 ≤ n2 ∧ n2 ≤ 191 ∧ 128 ≤ n3 ∧ n3 ≤ 191 ∧
   2048 ≤ PyStr.cp3 n1 n2 n3 ∧ PyStr.cp3 n1 n2 n3 < 65536 ∧
   (PyStr.cp3 n1 n2 n3 < 55296 ∨ 57343 < PyStr.cp3 n1 n2 n3))%N.
Proof.
  unfold PyStr.valid3. rewrite !andb_true_iff, !bool_decide_eq_true.
  intros [[[H1 H2%is_cont_true] H3%is_cont_true] H4].
  unfold PyStr.cp3 in *. lia.
Qed.

Lemma valid4_bounds n1 n2 n3 n4 :
  PyStr.valid4 n1 n2 n3 n4 = true →
  (240 ≤ n1 ∧ n1 ≤ 244 ∧ 128 ≤ n2 ∧ n2 ≤ 191 ∧ 128 ≤ n3 ∧ n3 ≤ 191 ∧
   128 ≤ n4 ∧ n4 ≤ 191 ∧ 65536 ≤ PyStr.cp4 n1 n2 n3 n4 ∧
   PyStr.cp4 n1 n2 n3 n4 ≤ 1114111)%N.
Proof.
  unfold PyStr.valid4. rewrite !andb_true_iff, !bool_decide_eq_true.
  intros [[[[H1 H2%is_cont_true] H3%is_cont_true] H4%is_cont_true] H5]. lia.
Qed.

Lemma valid2_lead n1 n2 : (n1 < 194 ∨ 223 < n1)%N → PyStr.valid2 n1 n2 = false.
Proof.
  intros H. destruct (PyStr.valid2 n1 n2) eqn:V; [|reflexivity].
  apply valid2_bounds in V. lia.
Qed.

Lemma valid3_lead n1 n2 n3 : (n1 < 224 ∨ 239 < n1)%N → PyStr.valid3 n1 n2 n3 = false.
Proof.
  intros H. destruct (PyStr.valid3 n1 n2 n3) eqn:V; [|reflexivity].
  apply valid3_bounds in V. lia.
Qed.

Lemma valid4_lead n1 n2 n3 n4 :
  (n1 < 240 ∨ 244 < n1)%N → PyStr.valid4 n1 n2 n3 n4 = false.
Proof.
  intros H. destruct (PyStr.valid4 n1 n2 n3 n4) eqn:V; [|reflexivity].
  apply valid4_bounds in V. lia.
Qed.

(** The bytes of a character, as [decode] and [upper] meet them. *)
Lemma utf8_cases c :
  (c < 55296 ∨ 57343 < c)%N → (c ≤ 1114111)%N →
  (∃ b1, PyStr.utf8 c = String b1 "" ∧ (PyStr.byte b1 < 128)%N ∧
         PyStr.byte b1 = c) ∨
  (∃ b1 b2, PyStr.utf8 c = String b1 (String b2 "") ∧
            PyStr.valid2 (PyStr.byte b1) (PyStr.byte b2) = true ∧
            PyStr.cp2 (PyStr.byte b1) (PyStr.byte b2) = c) ∨
  (∃ b1 b2 b3, PyStr.utf8 c = String b1 (String b2 (String b3 "")) ∧
               PyStr.valid3 (PyStr.byte b1) (PyStr.byte b2) (PyStr.byte b3) = true ∧
               PyStr.cp3 (PyStr.byte b1) (PyStr.byte b2) (PyStr.byte b3) = c) ∨
  (∃ b1 b2 b3 b4,
     PyStr.utf8 c = String b1 (String b2 (String b3 (String b4 ""))) ∧
     PyStr.valid4 (PyStr.byte b1) (PyStr.byte b2) (PyStr.byte b3) (PyStr.byte b4)
       = true ∧
     PyStr.cp4 (PyStr.byte b1) (PyStr.byte b2) (PyStr.byte b3) (PyStr.byte b4) = c).
Proof.
  intros Hs Hmax. unfold PyStr.utf8.
  pose proof (N.div_mod c 64 ltac:(lia)) as D1.
  pose proof (N.mod_lt c 64 ltac:(lia)) as M1.
  pose proof (N.div_mod (c / 64) 64 ltac:(lia)) as D2.
  pose proof (N.mod_lt (c / 64) 64 ltac:(lia)) as M2.
  pose proof (N.div_mod (c / 4096) 64 ltac:(lia)) as D3.
  pose proof (N.mod_lt (c / 4096) 64 ltac:(lia)) as M3.
  assert (E2 : (c / 64 / 64 = c / 4096)%N) by (rewrite N.Div0.div_div; reflexivity).
  assert (E3 : (c / 4096 / 64 = c / 262144)%N)
    by (rewrite N.Div0.div_div; reflexivity).
  rewrite E2 in D2. rewrite E3 in D3.
  set (q1 := (c / 64)%N) in *. set (r1 := (c mod 64)%N) in *.
  set (q2 := (c / 4096)%N) in *. set (r2 := (q1 mod 64)%N) in *.
  set (q3 := (c / 262144)%N) in *. set (r3 := (q2 mod 64)%N) in *.
  destruct (decide (c < 128)%N) as [H1|H1].
  { left. exists (PyStr.chr c). rewrite byte_chr by lia. auto. }
  right. destruct (decide (c < 2048)%N) as [H2|H2].
  { left. exists (PyStr.chr (192 + q1)), (PyStr.chr (128 + r1)).
    rewrite !byte_chr by lia. split; [reflexivity|].
    unfold PyStr.valid2, PyStr.is_cont, PyStr.cp2.
    rewrite andb_true_iff, !bool_decide_eq_true. lia. }
  right. destruct (decide (c < 65536)%N) as [H3|H3].
  { left. exists (PyStr.chr (224 + q2)), (PyStr.chr (128 + r2)), (PyStr.chr (128 + r1)).
    rewrite !byte_chr by lia. split; [reflexivity|].
    unfold PyStr.valid3, PyStr.is_cont, PyStr.cp3.
    rewrite !andb_true_iff, !bool_decide_eq_true. lia. }
  right. exists (PyStr.chr (240 + q3)), (PyStr.chr (128 + r3)),
    (PyStr.chr (128 + r2)), (PyStr.chr (128 + r1)).
  rewrite !byte_chr by lia. split; [reflexivity|].
  unfold PyStr.valid4, PyStr.is_cont, PyStr.cp4.
  rewrite !andb_true_iff, !bool_decide_eq_true. lia.
Qed.

(** *** One step of [decode] and of [upper] *)

Lemma decode_ascii_step b r :
  (PyStr.byte b < 128)%N → PyStr.decode (String b r) = PyStr.byte b :: PyStr.decode r.
Proof.
  intros H. cbn [PyStr.decode]. cbv zeta.
  destruct (decide (PyStr.byte b < 128)%N); [reflexivity|contradiction].
Qed.

Lemma decode_valid2 b1 b2 r :
  PyStr.valid2 (PyStr.byte b1) (PyStr.byte b2) = true →
  PyStr.decode (String b1 (String b2 r)) =
  PyStr.cp2 (PyStr.byte b1) (PyStr.byte b2) :: PyStr.decode r.
Proof.
  intros V. cbn [PyStr.decode]. cbv zeta. rewrite V.
  destruct (decide (PyStr.byte b1 < 128)%N) as [H|_]; [|reflexivity].
  apply valid2_bounds in V. lia.
Qed.

Lemma decode_valid3 b1 b2 b3 r :
  PyStr.valid3 (PyStr.byte b1) (PyStr.byte b2) (PyStr.byte b3) = true →
  PyStr.decode (String b1 (String b2 (String b3 r))) =
  PyStr.cp3 (PyStr.byte b1) (PyStr.byte b2) (PyStr.byte b3) :: PyStr.decode r.
Proof.
  intros V. cbn [PyStr.decode]. cbv zeta. rewrite V.
  pose proof (valid3_bounds _ _ _ V) as Hb.
  rewrite (valid2_lead (PyStr.byte b1) (PyStr.byte b2)) by lia.
  destruct (decide (PyStr.byte b1 < 128)%N) as [H|_]; [lia|reflexivity].
Qed.

Lemma decode_valid4 b1 b2 b3 b4 r :
  PyStr.valid4 (PyStr.byte b1) (PyStr.byte b2) (PyStr.byte b3) (PyStr.byte b4) = true →
  PyStr.decode (String b1 (String b2 (String b3 (String b4 r)))) =
  PyStr.cp4 (PyStr.byte b1) (PyStr.byte b2) (PyStr.byte b3) (PyStr.byte b4)
    :: PyStr.decode r.
Proof.
  intros V. cbn [PyStr.decode]. cbv zeta. rewrite V.
  pose proof (valid4_bounds _ _ _ _ V) as Hb.
  rewrite (valid2_lead (PyStr.byte b1) (PyStr.byte b2)),
    (valid3_lead (PyStr.byte b1) (PyStr.byte b2) (PyStr.byte b3)) by lia.
  destruct (decide (PyStr.byte b1 < 128)%N) as [H|_]; [lia|reflexivity].
Qed.

Lemma upper_ascii_step b r :
  (PyStr.byte b < 128)%N →
  PyStr.upper (String b r) = PyStr.encode (PyStr.upper_cp (PyStr.byte b)) +:+ PyStr.upper r.
Proof.
  intros H. cbn [PyStr.upper]. cbv zeta.
  destruct (decide (PyStr.byte b < 128)%N); [reflexivity|contradiction].
Qed.

Lemma upper_valid2 b1 b2 r :
  PyStr.valid2 (PyStr.byte b1) (PyStr.byte b2) = true →
  PyStr.upper (String b1 (String b2 r)) =
  PyStr.encode (PyStr.upper_cp (PyStr.cp2 (PyStr.byte b1) (PyStr.byte b2)))
    +:+ PyStr.upper r.
Proof.
  intros V. cbn [PyStr.upper]. cbv zeta. rewrite V.
  destruct (decide (PyStr.byte b1 < 128)%N) as [H|_]; [|reflexivity].
  apply valid2_bounds in V. lia.
Qed.

Lemma upper_valid3 b1 b2 b3 r :
  PyStr.valid3 (PyStr.byte b1) (PyStr.byte b2) (PyStr.byte b3) = true →
  PyStr.upper (String b1 (String b2 (String b3 r))) =
  PyStr.encode
    (PyStr.upper_cp (PyStr.cp3 (PyStr.byte b1) (PyStr.byte b2) (PyStr.byte b3)))
    +:+ PyStr.upper r.
Proof.
  intros V. cbn [PyStr.upper]. cbv zeta. rewrite V.
  pose proof (valid3_bounds _ _ _ V) as Hb.
  rewrite (valid2_lead (PyStr.byte b1) (PyStr.byte b2)) by lia.
  destruct (decide (PyStr.byte b1 < 128)%N) as [H|_]; [lia|reflexivity].
Qed.

Lemma upper_valid4 b1 b2 b3 b4 r :
  PyStr.valid4 (PyStr.byte b1) (PyStr.byte b2) (PyStr.byte b3) (PyStr.byte b4) = true →
  PyStr.upper (String b1 (String b2 (String b3 (String b4 r)))) =
  PyStr.encode
    (PyStr.upper_cp
       (PyStr.cp4 (PyStr.byte b1) (PyStr.byte b2) (PyStr.byte b3) (PyStr.byte b4)))
    +:+ PyStr.upper r.
Proof.
  intros V. cbn [PyStr.upper]. cbv zeta. rewrite V.
  pose proof (valid4_bounds _ _ _ _ V) as Hb.
  rewrite (valid2_lead (PyStr.byte b1) (PyStr.byte b2)),
    (valid3_lead (PyStr.byte b1) (PyStr.byte b2) (PyStr.byte b3)) by lia.
  destruct (decide (PyStr.byte b1 < 128)%N) as [H|_]; [lia|reflexivity].
Qed.

(** In front of anything, the bytes of a character are read as that
    character, and [upper] puts its uppercase form in their place. *)
Lemma decode_utf8 c t :
  (c < 55296 ∨ 57343 < c)%N → (c ≤ 1114111)%N →
  PyStr.decode (PyStr.utf8 c +:+ t) = c :: PyStr.decode t.
Proof.
  intros Hs Hmax.
  destruct (utf8_cases c Hs Hmax)
    as [(b1 & -> & H & <-)|[(b1 & b2 & -> & V & <-)|[(b1 & b2 & b3 & -> & V & <-)|
        (b1 & b2 & b3 & b4 & -> & V & <-)]]]; sapp.
  - apply decode_ascii_step, H.
  - apply decode_valid2, V.
  - apply decode_valid3, V.
  - apply decode_valid4, V.
Qed.

Lemma upper_utf8 c t :
  (c < 55296 ∨ 57343 < c)%N → (c ≤ 1114111)%N →
  PyStr.upper (PyStr.utf8 c +:+ t) = PyStr.encode (PyStr.upper_cp c) +:+ PyStr.upper t.
Proof.
  intros Hs Hmax.
  destruct (utf8_cases c Hs Hmax)
    as [(b1 & -> & H & <-)|[(b1 & b2 & -> & V & <-)|[(b1 & b2 & b3 & -> & V & <-)|
        (b1 & b2 & b3 & b4 & -> & V & <-)]]]; sapp.
  - apply upper_ascii_step, H.
  - apply upper_valid2, V.
  - apply upper_valid3, V.
  - apply upper_valid4, V.
Qed.

(** *** The table of [str.upper] *)

Lemma assoc_In c t v : PyStr.assoc c t = Some v → In (c, v) t.
Proof.
  induction t as [|[k w] t IH]; [discriminate|].
  cbn [PyStr.assoc]. destruct (k =? c)%N eqn:E.
  - apply N.eqb_eq in E as ->. intros [= ->]. left. reflexivity.
  - intros H. right. apply IH, H.
Qed.

(** No entry is a decimal digit; every uppercase form is a non-empty
    sequence of characters, none of which the table changes again. *)
Lemma upper_table_ok :
  forallb
    (λ p : N * list N,
       negb (PyStr.isdecimal p.1) &&
       match p.2 with [] => false | _ :: _ => true end &&
       forallb
         (λ u, ((u <? 55296) || (57343 <? u)) && (u <=? 1114111) &&
               match PyStr.assoc u PyStr.upper_table with
               | None => true
               | Some _ => false
               end)%N
         p.2)
    PyStr.upper_table = true.
Proof. vm_compute. reflexivity. Qed.

Lemma upper_cp_cases c :
  PyStr.upper_cp c = [c] ∨
  (PyStr.isdecimal c = false ∧ PyStr.upper_cp c ≠ [] ∧
   Forall (λ u, ((u < 55296 ∨ 57343 < u) ∧ u ≤ 1114111)%N ∧ PyStr.upper_cp u = [u])
     (PyStr.upper_cp c)).
Proof.
  destruct (PyStr.assoc c PyStr.upper_table) as [ups|] eqn:E.
  2:{ left. unfold PyStr.upper_cp. rewrite E. reflexivity. }
  right.
  assert (Hc : PyStr.upper_cp c = ups)
    by (unfold PyStr.upper_cp; rewrite E; reflexivity).
  rewrite Hc. apply assoc_In in E.
  pose proof (proj1 (forallb_forall _ _) upper_table_ok _ E) as H.
  cbn [fst snd] in H. rewrite !andb_true_iff, negb_true_iff in H.
  destruct H as [[Hd Hne] Hall].
  split; [exact Hd|]. split; [intros ->; discriminate Hne|].
  apply Forall_forall. intros u Hu.
  apply list_elem_of_In in Hu.
  pose proof (proj1 (forallb_forall _ _) Hall _ Hu) as H. cbv beta in H.
  rewrite !andb_true_iff, orb_true_iff, !N.ltb_lt, N.leb_le in H.
  destruct H as [[Hs Hm] Hn]. split; [auto|].
  unfold PyStr.upper_cp. destruct (PyStr.assoc u PyStr.upper_table);
    [discriminate Hn|reflexivity].
Qed.

Lemma upper_cp_valid c :
  (c < 55296 ∨ 57343 < c)%N → (c ≤ 1114111)%N →
  PyStr.upper_cp c ≠ [] ∧
  Forall (λ u, (u < 55296 ∨ 57343 < u) ∧ u ≤ 1114111)%N (PyStr.upper_cp c).
Proof.
  intros Hs Hm. destruct (upper_cp_cases c) as [->|(_ & Hne & Hall)].
  - split; [discriminate|]. constructor; [split; assumption|constructor].
  - split; [exact Hne|]. eapply Forall_impl; [exact Hall|]. intros u [H _]. exact H.
Qed.

Lemma upper_cp_idemp c : PyStr.upper_cp c ≫= PyStr.upper_cp = PyStr.upper_cp c.
Proof.
  destruct (upper_cp_cases c) as [E|(_ & _ & Hall)].
  - rewrite E, bind_singleton. exact E.
  - induction Hall as [|u l [_ Hu] _ IH]; [reflexivity|].
    rewrite bind_cons, Hu, IH. reflexivity.
Qed.

(** A decimal digit has no other uppercase form. *)
Lemma upper_cp_decimal c : PyStr.isdecimal c = true → PyStr.upper_cp c = [c].
Proof.
  intros Hd. destruct (upper_cp_cases c) as [E|(H & _)]; [exact E|congruence].
Qed.

(** *** [upper] on encoded characters *)

Lemma encode_app l1 l2 :
  PyStr.encode (l1 ++ l2) = PyStr.encode l1 +:+ PyStr.encode l2.
Proof.
  induction l1 as [|c l1 IH]; [reflexivity|].
  cbn [app PyStr.encode]. rewrite IH, sapp_assoc. reflexivity.
Qed.

Lemma upper_encode l t :
  Forall (λ u, (u < 55296 ∨ 57343 < u) ∧ u ≤ 1114111)%N l →
  PyStr.upper (PyStr.encode l +:+ t) =
  PyStr.encode (l ≫= PyStr.upper_cp) +:+ PyStr.upper t.
Proof.
  induction 1 as [|u l [Hs Hm] _ IH]; [reflexivity|].
  cbn [PyStr.encode]. rewrite sapp_assoc, (upper_utf8 u _ Hs Hm), IH.
  rewrite bind_cons, encode_app, sapp_assoc. reflexivity.
Qed.

Lemma decode_encode l t :
  Forall (λ u, (u < 55296 ∨ 57343 < u) ∧ u ≤ 1114111)%N l →
  PyStr.decode (PyStr.encode l +:+ t) = l ++ PyStr.decode t.
Proof.
  induction 1 as [|u l [Hs Hm] _ IH]; [reflexivity|].
  cbn [PyStr.encode]. rewrite sapp_assoc, (decode_utf8 u _ Hs Hm), IH.
  reflexivity.
Qed.

(** Uppercasing the uppercase form of a character changes nothing. *)
Lemma upper_upper_cp c t :
  (c < 55296 ∨ 57343 < c)%N → (c ≤ 1114111)%N →
  PyStr.upper (PyStr.encode (PyStr.upper_cp c) +:+ t) =
  PyStr.encode (PyStr.upper_cp c) +:+ PyStr.upper t.
Proof.
  intros Hs Hm. rewrite upper_encode by (apply upper_cp_valid; assumption).
  rewrite upper_cp_idemp. reflexivity.
Qed.

(** *** Bytes outside every well-formed sequence *)

Lemma decode_unfold b1 r1 :
  PyStr.decode (String b1 r1) =
  if decide (PyStr.byte b1 < 128)%N then PyStr.byte b1 :: PyStr.decode r1 else
  match r1 with
  | "" => PyStr.escape (PyStr.byte b1) :: PyStr.decode r1
  | String b2 r2 =>
      if PyStr.valid2 (PyStr.byte b1) (PyStr.byte b2)
      then PyStr.cp2 (PyStr.byte b1) (PyStr.byte b2) :: PyStr.decode r2 else
      match r2 with
      | "" => PyStr.escape (PyStr.byte b1) :: PyStr.decode r1
      | String b3 r3 =>
          if PyStr.valid3 (PyStr.byte b1) (PyStr.byte b2) (PyStr.byte b3)
          then PyStr.cp3 (PyStr.byte b1) (PyStr.byte b2) (PyStr.byte b3)
                 :: PyStr.decode r3 else
          match r3 with
          | "" => PyStr.escape (PyStr.byte b1) :: PyStr.decode r1
          | String b4 r4 =>
              if PyStr.valid4 (PyStr.byte b1) (PyStr.byte b2) (PyStr.byte b3)
                   (PyStr.byte b4)
              then PyStr.cp4 (PyStr.byte b1) (PyStr.byte b2) (PyStr.byte b3)
                     (PyStr.byte b4) :: PyStr.decode r4
              else PyStr.escape (PyStr.byte b1) :: PyStr.decode r1
          end
      end
  end.
Proof. destruct r1 as [|b2 [|b3 [|b4 r4]]]; reflexivity. Qed.

Lemma upper_unfold b1 r1 :
  PyStr.upper (String b1 r1) =
  if decide (PyStr.byte b1 < 128)%N
  then PyStr.encode (PyStr.upper_cp (PyStr.byte b1)) +:+ PyStr.upper r1 else
  match r1 with
  | "" => String b1 (PyStr.upper r1)
  | String b2 r2 =>
      if PyStr.valid2 (PyStr.byte b1) (PyStr.byte b2)
      then PyStr.encode (PyStr.upper_cp (PyStr.cp2 (PyStr.byte b1) (PyStr.byte b2)))
             +:+ PyStr.upper r2 else
      match r2 with
      | "" => String b1 (PyStr.upper r1)
      | String b3 r3 =>
          if PyStr.valid3 (PyStr.byte b1) (PyStr.byte b2) (PyStr.byte b3)
          then PyStr.encode
                 (PyStr.upper_cp
                    (PyStr.cp3 (PyStr.byte b1) (PyStr.byte b2) (PyStr.byte b3)))
                 +:+ PyStr.upper r3 else
          match r3 with
          | "" => String b1 (PyStr.upper r1)
          | String b4 r4 =>
              if PyStr.valid4 (PyStr.byte b1) (PyStr.byte b2) (PyStr.byte b3)
                   (PyStr.byte b4)
              then PyStr.encode
                     (PyStr.upper_cp
                        (PyStr.cp4 (PyStr.byte b1) (PyStr.byte b2) (PyStr.byte b3)
                           (PyStr.byte b4)))
                     +:+ PyStr.upper r4
              else String b1 (PyStr.upper r1)
          end
      end
  end.
Proof. destruct r1 as [|b2 [|b3 [|b4 r4]]]; reflexivity. Qed.

(** The first byte of [String b1 r1] belongs to no well-formed
    sequence: it is not ASCII and each of the three tests fails, as far
    as there are bytes to test. *)
Lemma stray_tests b1 r1 :
  ¬ (PyStr.byte b1 < 128)%N →
  PyStr.decode (String b1 r1) = PyStr.escape (PyStr.byte b1) :: PyStr.decode r1 ↔
  match r1 with
  | "" => True
  | String b2 r2 =>
      PyStr.valid2 (PyStr.byte b1) (PyStr.byte b2) = false ∧
      match r2 with
      | "" => True
      | String b3 r3 =>
          PyStr.valid3 (PyStr.byte b1) (PyStr.byte b2) (PyStr.byte b3) = false ∧
          match r3 with
          | "" => True
          | String b4 r4 =>
              PyStr.valid4 (PyStr.byte b1) (PyStr.byte b2) (PyStr.byte b3)
                (PyStr.byte b4) = false
          end
      end
  end.
Proof.
  intros Ha. rewrite decode_unfold.
  destruct (decide (PyStr.byte b1 < 128)%N) as [?|_]; [contradiction|].
  pose proof (byte_bound b1) as Hb1.
  assert (Hne : ∀ c l, (c < 55296 ∨ 57343 < c)%N →
                c :: l ≠ PyStr.escape (PyStr.byte b1) :: PyStr.decode r1).
  { intros c l Hc [= E _]. unfold PyStr.escape in E. lia. }
  destruct r1 as [|b2 r2]; [tauto|].
  destruct (PyStr.valid2 (PyStr.byte b1) (PyStr.byte b2)) eqn:V2.
  { split; [intros E|intros [E _]; discriminate E].
    exfalso. revert E. apply Hne. apply valid2_bounds in V2. lia. }
  destruct r2 as [|b3 r3]; [tauto|].
  destruct (PyStr.valid3 (PyStr.byte b1) (PyStr.byte b2) (PyStr.byte b3)) eqn:V3.
  { split; [intros E|intros [_ [E _]]; discriminate E].
    exfalso. revert E. apply Hne. apply valid3_bounds in V3. lia. }
  destruct r3 as [|b4 r4]; [tauto|].
  destruct (PyStr.valid4 (PyStr.byte b1) (PyStr.byte b2) (PyStr.byte b3)
              (PyStr.byte b4)) eqn:V4; [|tauto].
  split; [intros E|intros [_ [_ E]]; discriminate E].
  exfalso. revert E. apply Hne. apply valid4_bounds in V4. lia.
Qed.

(** [upper] leaves such a byte in place. *)
Lemma upper_stray b1 r1 :
  ¬ (PyStr.byte b1 < 128)%N →
  PyStr.decode (String b1 r1) = PyStr.escape (PyStr.byte b1) :: PyStr.decode r1 →
  PyStr.upper (String b1 r1) = String b1 (PyStr.upper r1).
Proof.
  intros Ha H. apply (stray_tests b1 r1 Ha) in H. rewrite upper_unfold.
  destruct (decide (PyStr.byte b1 < 128)%N) as [?|_]; [contradiction|].
  destruct r1 as [|b2 r2]; [reflexivity|]. destruct H as [-> H].
  destruct r2 as [|b3 r3]; [reflexivity|]. destruct H as [-> H].
  destruct r3 as [|b4 r4]; [reflexivity|]. rewrite H. reflexivity.
Qed.

(** What follows the first byte is a character, or the byte stands
    alone. *)
Lemma step_cases b1 r1 :
  (∃ c r, ((c < 55296 ∨ 57343 < c) ∧ c ≤ 1114111)%N ∧
          String b1 r1 = PyStr.utf8 c +:+ r ∧
          (String.length r < String.length (String b1 r1))%nat) ∨
  (¬ (PyStr.byte b1 < 128)%N ∧
   PyStr.decode (String b1 r1) = PyStr.escape (PyStr.byte b1) :: PyStr.decode r1).
Proof.
  pose proof (byte_bound b1) as Hb1.
  destruct (decide (PyStr.byte b1 < 128)%N) as [Ha|Ha].
  { left. exists (PyStr.byte b1), r1. split; [lia|]. split; [|cbn; lia].
    unfold PyStr.utf8. destruct (decide (PyStr.byte b1 < 128)%N); [|contradiction].
    rewrite chr_byte. reflexivity. }
  destruct (decide (PyStr.decode (String b1 r1) =
                    PyStr.escape (PyStr.byte b1) :: PyStr.decode r1)) as [E|E];
    [right; auto|].
  left. rewrite (stray_tests b1 r1 Ha) in E.
  destruct r1 as [|b2 r2]; [tauto|].
  destruct (PyStr.valid2 (PyStr.byte b1) (PyStr.byte b2)) eqn:V2.
  { exists (PyStr.cp2 (PyStr.byte b1) (PyStr.byte b2)), r2.
    pose proof (valid2_bounds _ _ V2). split; [lia|]. split; [|cbn; lia].
    rewrite (utf8_cp2 _ _ V2), !chr_byte. reflexivity. }
  destruct r2 as [|b3 r3]; [tauto|].
  destruct (PyStr.valid3 (PyStr.byte b1) (PyStr.byte b2) (PyStr.byte b3)) eqn:V3.
  { exists (PyStr.cp3 (PyStr.byte b1) (PyStr.byte b2) (PyStr.byte b3)), r3.
    pose proof (valid3_bounds _ _ _ V3). split; [lia|]. split; [|cbn; lia].
    rewrite (utf8_cp3 _ _ _ V3), !chr_byte. reflexivity. }
  destruct r3 as [|b4 r4]; [tauto|].
  destruct (PyStr.valid4 (PyStr.byte b1) (PyStr.byte b2) (PyStr.byte b3)
              (PyStr.byte b4)) eqn:V4; [|tauto].
  exists (PyStr.cp4 (PyStr.byte b1) (PyStr.byte b2) (PyStr.byte b3) (PyStr.byte b4)), r4.
  pose proof (valid4_bounds _ _ _ _ V4). split; [lia|]. split; [|cbn; lia].
  rewrite (utf8_cp4 _ _ _ _ V4), !chr_byte. reflexivity.
Qed.

(** The bytes of a character start with a byte that continues nothing. *)
Lemma utf8_head c :
  (c < 55296 ∨ 57343 < c)%N → (c ≤ 1114111)%N →
  ∃ h t, PyStr.utf8 c = String h t ∧ PyStr.is_cont (PyStr.byte h) = false.
Proof.
  intros Hs Hm.
  destruct (utf8_cases c Hs Hm)
    as [(b1 & -> & H & _)|[(b1 & b2 & -> & V & _)|[(b1 & b2 & b3 & -> & V & _)|
        (b1 & b2 & b3 & b4 & -> & V & _)]]];
    eexists _, _; (split; [reflexivity|]); apply bool_decide_eq_false.
  - lia.
  - apply valid2_bounds in V. lia.
  - apply valid3_bounds in V. lia.
  - apply valid4_bounds in V. lia.
Qed.

(** A continuation byte at the front stays; any other first byte gives
    way to a first byte that is no continuation byte either. *)
Lemma upper_cont b r :
  PyStr.is_cont (PyStr.byte b) = true →
  PyStr.upper (String b r) = String b (PyStr.upper r).
Proof.
  intros H%is_cont_true.
  assert (Ha : ¬ (PyStr.byte b < 128)%N) by lia.
  apply (upper_stray b r Ha), (stray_tests b r Ha).
  destruct r as [|b2 [|b3 [|b4 r4]]]; auto;
    rewrite ?valid2_lead, ?valid3_lead, ?valid4_lead by lia; auto.
Qed.

Lemma upper_head b r :
  PyStr.is_cont (PyStr.byte b) = false →
  ∃ h t, PyStr.upper (String b r) = String h t ∧
         PyStr.is_cont (PyStr.byte h) = false.
Proof.
  intros Hb.
  destruct (step_cases b r) as [(c & r' & [Hs Hm] & E & _)|[Ha E]].
  - rewrite E, (upper_utf8 c r' Hs Hm).
    destruct (upper_cp_valid c Hs Hm) as [Hne Hall].
    destruct (PyStr.upper_cp c) as [|u us]; [contradiction|].
    apply Forall_cons in Hall as [[Hus Hum] _].
    destruct (utf8_head u Hus Hum) as (h & t & Eu & Hh).
    cbn [PyStr.encode]. rewrite Eu. sapp. eauto.
  - rewrite (upper_stray b r Ha E). eauto.
Qed.

(** After [upper] the byte still belongs to no well-formed sequence. *)
Lemma stray_upper b1 r1 :
  ¬ (PyStr.byte b1 < 128)%N →
  PyStr.decode (String b1 r1) = PyStr.escape (PyStr.byte b1) :: PyStr.decode r1 →
  PyStr.decode (String b1 (PyStr.upper r1)) =
  PyStr.escape (PyStr.byte b1) :: PyStr.decode (PyStr.upper r1).
Proof.
  intros Ha H. apply (stray_tests b1 r1 Ha) in H. apply (stray_tests _ _ Ha).
  assert (Hnc2 : ∀ h n1, PyStr.is_cont (PyStr.byte h) = false →
                         PyStr.valid2 n1 (PyStr.byte h) = false).
  { intros h n1 Hh. unfold PyStr.valid2. rewrite Hh. apply andb_false_r. }
  assert (Hnc3 : ∀ h n1 n2, PyStr.is_cont (PyStr.byte h) = false →
                            PyStr.valid3 n1 n2 (PyStr.byte h) = false).
  { intros h n1 n2 Hh. unfold PyStr.valid3. rewrite Hh.
    rewrite andb_false_r. reflexivity. }
  assert (Hnc3' : ∀ h n1 n3, PyStr.is_cont (PyStr.byte h) = false →
                             PyStr.valid3 n1 (PyStr.byte h) n3 = false).
  { intros h n1 n3 Hh. unfold PyStr.valid3. rewrite Hh.
    rewrite andb_false_r. reflexivity. }
  assert (Hnc4 : ∀ h n1 n2 n3, PyStr.is_cont (PyStr.byte h) = false →
                               PyStr.valid4 n1 n2 n3 (PyStr.byte h) = false).
  { intros h n1 n2 n3 Hh. unfold PyStr.valid4. rewrite Hh.
    rewrite andb_false_r. reflexivity. }
  assert (Hnc4' : ∀ h n1 n2 n4, PyStr.is_cont (PyStr.byte h) = false →
                                PyStr.valid4 n1 n2 (PyStr.byte h) n4 = false).
  { intros h n1 n2 n4 Hh. unfold PyStr.valid4. rewrite Hh.
    rewrite !andb_false_r. reflexivity. }
  assert (Hnc4'' : ∀ h n1 n3 n4, PyStr.is_cont (PyStr.byte h) = false →
                                 PyStr.valid4 n1 (PyStr.byte h) n3 n4 = false).
  { intros h n1 n3 n4 Hh. unfold PyStr.valid4. rewrite Hh.
    rewrite !andb_false_r. reflexivity. }
  destruct r1 as [|b2 r2]; [exact I|]. destruct H as [V2 H].
  destruct (PyStr.is_cont (PyStr.byte b2)) eqn:C2.
  2:{ destruct (upper_head b2 r2 C2) as (h & t & -> & Hh).
      split; [auto|]. destruct t as [|x [|y t]]; auto. }
  rewrite (upper_cont b2 r2 C2). split; [exact V2|].
  destruct r2 as [|b3 r3]; [exact I|]. destruct H as [V3 H].
  destruct (PyStr.is_cont (PyStr.byte b3)) eqn:C3.
  2:{ destruct (upper_head b3 r3 C3) as (h & t & -> & Hh).
      split; [auto|]. destruct t as [|x t]; auto. }
  rewrite (upper_cont b3 r3 C3). split; [exact V3|].
  destruct r3 as [|b4 r4]; [exact I|].
  destruct (PyStr.is_cont (PyStr.byte b4)) eqn:C4.
  2:{ destruct (upper_head b4 r4 C4) as (h & t & -> & Hh). auto. }
  rewrite (upper_cont b4 r4 C4). exact H.
Qed.

(** [str.upper] is idempotent. *)
Lemma upper_idemp s : PyStr.upper (PyStr.upper s) = PyStr.upper s.
Proof.
  induction s as [s IH] using string_length_ind.
  destruct s as [|b1 r1]; [reflexivity|].
  destruct (step_cases b1 r1) as [(c & r & [Hs Hm] & E & Hlen)|[Ha E]].
  - rewrite E, (upper_utf8 c r Hs Hm), (upper_upper_cp c _ Hs Hm), (IH r Hlen).
    reflexivity.
  - rewrite (upper_stray b1 r1 Ha E).
    rewrite (upper_stray b1 _ Ha (stray_upper b1 r1 Ha E)).
    rewrite (IH r1) by (cbn; lia). reflexivity.
Qed.

(** ** The resolution loop *)

Lemma resolve_genes_acc gd pc qs acc :
  foldl (λ results raw, results ++ [resolve_one gd pc raw]) acc qs =
  acc ++ (resolve_one gd pc <$> qs).
Proof.
  revert acc. induction qs as [|raw qs IH]; intros acc; simpl.
  - symmetry. apply app_nil_r.
  - rewrite IH, <- app_assoc. reflexivity.
Qed.

Lemma resolve_genes_fmap gd qs pc :
  resolve_genes gd qs pc = resolve_one gd pc <$> qs.
Proof. unfold resolve_genes. apply resolve_genes_acc. Qed.

Lemma pc_ids_filter gd ids :
  pc_ids_of ids (ftypes_of gd ids) =
  filter (λ i, ftype_of gd i = "protein_coding") ids.
Proof.
  unfold pc_ids_of, ftypes_of.
  induction ids as [|i ids IH]; [reflexivity|].
  rewrite fmap_cons. cbn [zip_with].
  rewrite !filter_cons. cbn [snd]. fold (ftype_of gd i).
  destruct (decide (ftype_of gd i = "protein_coding")); cbn [fmap list_fmap fst];
    [f_equal|]; exact IH.
Qed.

Lemma filter_none {A} (P : A → Prop) `{∀ x, Decision (P x)} (l : list A) :
  Forall (λ x, ¬ P x) l → filter P l = [].
Proof.
  induction 1 as [|x l Hx _ IH]; [reflexivity|].
  rewrite filter_cons. destruct (decide (P x)); [contradiction|exact IH].
Qed.

(** A filter keeps exactly one element when one position satisfies the
    test and no other does. *)
Lemma filter_one {A} (P : A → Prop) `{∀ x, Decision (P x)} (l : list A) x :
  filter P l = [x] ↔
  ∃ before after, l = before ++ x :: after ∧ P x ∧
    Forall (λ y, ¬ P y) before ∧ Forall (λ y, ¬ P y) after.
Proof.
  split.
  - induction l as [|a l IH]; [discriminate|].
    rewrite filter_cons. destruct (decide (P a)) as [Ha|Ha].
    + intros [= -> Hl]. exists [], l. repeat split; auto.
      apply Forall_forall. intros y Hy Py.
      assert (Hin : y ∈ filter P l) by (apply list_elem_of_filter; auto).
      rewrite Hl in Hin. inversion Hin.
    + intros Hl. destruct (IH Hl) as (b & c & -> & Px & Hb & Hc).
      exists (a :: b), c. repeat split; auto.
  - intros (b & c & -> & Px & Hb & Hc).
    rewrite filter_app, filter_cons, (filter_none P b Hb), (filter_none P c Hc).
    destruct (decide (P x)); [reflexivity|contradiction].
Qed.

Lemma pc_ids_one gd ids i :
  pc_ids_of ids (ftypes_of gd ids) = [i] ↔ only_protein_coding gd ids i.
Proof.
  rewrite pc_ids_filter. unfold only_protein_coding.
  apply (filter_one (λ j, ftype_of gd j = "protein_coding")).
Qed.

Lemma resolve_one_passthrough gd pc raw :
  ensembl_match (PyStr.strip raw) = true →
  resolve_one gd pc raw = passthrough gd (PyStr.strip raw).
Proof. intros H. unfold resolve_one, resolve_query. rewrite H. reflexivity. Qed.

Lemma resolve_one_name_lookup gd pc raw :
  ensembl_match (PyStr.strip raw) = false →
  resolve_one gd pc raw = name_lookup gd pc (PyStr.strip raw).
Proof. intros H. unfold resolve_one, resolve_query. rewrite H. reflexivity. Qed.

Lemma passthrough_invariant gd q : ambiguity_invariant (passthrough gd q).
Proof.
  unfold passthrough, ambiguity_invariant.
  destruct (id_to_name gd !! PyStr.upper q); simpl; split; intros; (discriminate || lia).
Qed.

Lemma name_lookup_invariant gd pc q : ambiguity_invariant (name_lookup gd pc q).
Proof.
  unfold name_lookup, ambiguity_invariant.
  destruct (name_to_ids gd !! PyStr.upper q) as [[|i0 [|i1 rest]]|];
    [| |destruct pc;
        [destruct (pc_ids_of (i0 :: i1 :: rest) (ftypes_of gd (i0 :: i1 :: rest)))
           as [|p [|? ?]]|] |];
    simpl; split; intros; (discriminate || lia).
Qed.

Lemma resolve_one_invariant gd pc raw : ambiguity_invariant (resolve_one gd pc raw).
Proof.
  unfold resolve_one, resolve_query. destruct (ensembl_match (PyStr.strip raw)).
  - apply passthrough_invariant.
  - apply name_lookup_invariant.
Qed.

Lemma query_passthrough gd q : query (passthrough gd q) = q.
Proof. unfold passthrough. destruct (id_to_name gd !! PyStr.upper q); reflexivity. Qed.

Lemma query_name_lookup gd pc q : query (name_lookup gd pc q) = q.
Proof.
  unfold name_lookup.
  destruct (name_to_ids gd !! PyStr.upper q) as [[|i0 [|i1 rest]]|];
    [| |destruct pc;
        [destruct (pc_ids_of (i0 :: i1 :: rest) (ftypes_of gd (i0 :: i1 :: rest)))
           as [|p [|? ?]]|] |];
    reflexivity.
Qed.

Lemma query_resolve_one gd pc raw : query (resolve_one gd pc raw) = PyStr.strip raw.
Proof.
  unfold resolve_one, resolve_query. destruct (ensembl_match (PyStr.strip raw)).
  - apply query_passthrough.
  - apply query_name_lookup.
Qed.

Lemma not_shape_no_match raw :
  ¬ stable_id_shape (PyStr.strip raw) → ensembl_match (PyStr.strip raw) = false.
Proof.
  intros H. destruct (ensembl_match (PyStr.strip raw)) eqn:E; [|reflexivity].
  apply ensembl_match_shape in E. contradiction.
Qed.

(** ** Resolution: the claims *)

(** C1: a token that is not of stable-identifier shape and has two or more
    candidates resolves to the single protein_coding candidate, with its
    canonical name, not ambiguous, feature types ["protein_coding"], when
    the preference is on and exactly one candidate has that type; in every
    other case it resolves to all candidates in dictionary order, with the
    canonical name of the first, ambiguous, and all feature types in that
    order.  The canonical name falls back to the token when [id_to_name]
    lacks the identifier. *)
Theorem multi_candidate_resolution gd pc raw i0 i1 rest :
  let q := PyStr.strip raw in
  let ids := i0 :: i1 :: rest in
  ¬ stable_id_shape q →
  name_to_ids gd !! PyStr.upper q = Some ids →
  (∀ i, pc = true → only_protein_coding gd ids i →
     resolve_one gd pc raw =
     mkGeneMatch q [i] (Some (default q (id_to_name gd !! i))) false
       ["protein_coding"]) ∧
  (pc = false ∨ ¬ (∃ i, only_protein_coding gd ids i) →
     resolve_one gd pc raw =
     mkGeneMatch q ids (Some (default q (id_to_name gd !! i0))) true
       (ftype_of gd <$> ids)).
Proof.
  intros q ids Hshape Hids.
  rewrite (resolve_one_name_lookup gd pc raw (not_shape_no_match raw Hshape)).
  fold q. unfold name_lookup. rewrite Hids. subst ids. split.
  - intros i -> Hone. apply pc_ids_one in Hone. rewrite Hone. reflexivity.
  - intros Hother. destruct pc; [|reflexivity].
    destruct Hother as [Hpc | Hnone]; [discriminate|].
    destruct (pc_ids_of (i0 :: i1 :: rest) (ftypes_of gd (i0 :: i1 :: rest)))
      as [|p [|? ?]] eqn:Hp; try reflexivity.
    exfalso. apply Hnone. exists p. apply pc_ids_one. exact Hp.
Qed.

(** C3: a token whose trimmed form has the stable-identifier shape
    resolves to exactly one identifier, its uppercased trimmed form, not
    ambiguous; the canonical name is the name the dictionary holds for it,
    and when the dictionary holds none the name is absent and the feature
    types are empty. *)
Theorem stable_id_passthrough gd pc raw :
  stable_id_shape (PyStr.strip raw) →
  let m := resolve_one gd pc raw in
  let ens_upper := PyStr.upper (PyStr.strip raw) in
  ensembl_ids m = [ens_upper] ∧ is_ambiguous m = false ∧
  match id_to_name gd !! ens_upper with
  | Some n => canonical_name m = Some n
  | None => canonical_name m = None ∧ feature_types m = []
  end.
Proof.
  intros Hshape m ens_upper. subst m.
  rewrite (resolve_one_passthrough gd pc raw (proj2 (ensembl_match_shape raw) Hshape)).
  unfold passthrough. fold ens_upper.
  destruct (id_to_name gd !! ens_upper); auto.
Qed.

(** C4: every match returned by [resolve_genes] satisfies the ambiguity
    invariant: ambiguous matches have more than one identifier, the others
    at most one. *)
Theorem resolve_genes_ambiguity_invariant gd qs pc :
  Forall ambiguity_invariant (resolve_genes gd qs pc).
Proof.
  rewrite resolve_genes_fmap. apply Forall_fmap, Forall_forall.
  intros raw _. apply resolve_one_invariant.
Qed.

(** C5: [resolve_genes] returns one match per input, in input order; the
    [query] of each is the token with its leading and trailing white space
    taken off: the token is some white space, the query, some white space,
    and the query neither starts nor ends with a white-space character.
    The token is trimmed before anything is matched: the match of a token
    is the match of its trimmed form. *)
Theorem resolve_genes_length_order_strip gd qs pc :
  length (resolve_genes gd qs pc) = length qs ∧
  (∀ k, resolve_genes gd qs pc !! k = resolve_one gd pc <$> qs !! k) ∧
  (∀ raw, query (resolve_one gd pc raw) = PyStr.strip raw ∧
          resolve_one gd pc raw = resolve_query gd pc (PyStr.strip raw) ∧
          resolve_one gd pc raw = resolve_one gd pc (PyStr.strip raw)) ∧
  (∀ raw,
     let q := query (resolve_one gd pc raw) in
     (∃ pre post,
        raw = pre +:+ q +:+ post ∧
        Forall (λ c, PyStr.isspace c = true) (PyStr.decode pre) ∧
        Forall (λ c, PyStr.isspace c = true) (PyStr.decode post)) ∧
     (∀ c l, PyStr.decode q = c :: l → PyStr.isspace c = false) ∧
     (∀ c l, PyStr.decode q = l ++ [c] → PyStr.isspace c = false)) ∧
  query <$> resolve_genes gd
              ["  TP53  ";
               String "009" ("BRCA1" +:+ String "013" (String "010" ""));
               PyStr.utf8 160 +:+ "CD4" +:+ PyStr.utf8 133 +:+ PyStr.utf8 12288;
               "a b"; "   "] pc =
  ["TP53"; "BRCA1"; "CD4"; "a b"; ""].
Proof.
  rewrite resolve_genes_fmap. split; [apply length_fmap|].
  split; [intros k; apply list_lookup_fmap|]. split; [|split].
  - intros raw. split; [apply query_resolve_one|]. split; [reflexivity|].
    unfold resolve_one. rewrite strip_idemp. reflexivity.
  - intros raw. cbv zeta. rewrite query_resolve_one.
    split; [apply strip_split|]. split.
    + intros c l. apply strip_front.
    + intros c l. apply strip_back.
  - rewrite resolve_genes_fmap. cbn [fmap list_fmap].
    rewrite !query_resolve_one. vm_compute. reflexivity.
Qed.

Lemma resolve_genes_length_order_strip_witness :
  length
    (resolve_genes sample_gene_dict
       [PyStr.utf8 160 +:+ "tp53" +:+ PyStr.utf8 133; "BRCA1"] true) = 2%nat ∧
  query (resolve_one sample_gene_dict true
           (PyStr.utf8 160 +:+ "tp53" +:+ PyStr.utf8 133)) = "tp53" ∧
  ensembl_ids (resolve_one sample_gene_dict true
                 (PyStr.utf8 160 +:+ "tp53" +:+ PyStr.utf8 133)) =
    ["ENSG00000141510"].
Proof.
  destruct (resolve_genes_length_order_strip sample_gene_dict
              [PyStr.utf8 160 +:+ "tp53" +:+ PyStr.utf8 133; "BRCA1"] true)
    as (Hlen & _ & Hq & _).
  split; [exact Hlen|].
  destruct (Hq (PyStr.utf8 160 +:+ "tp53" +:+ PyStr.utf8 133)) as (Hquery & _ & Hres).
  split; [exact Hquery|]. rewrite Hres. reflexivity.
Defined.

Lemma pattern_letter_case_forms c :
  pattern_letter c = true ↔ ∃ x, PyStr.isupper x = true ∧ same_letter c x.
Proof.
  unfold same_letter. split.
  - unfold pattern_letter. rewrite bool_decide_eq_true. intros H.
    assert (Hc : ((65 ≤ c ∧ c ≤ 90) ∨ (97 ≤ c ∧ c ≤ 122) ∨ c = 304 ∨
                  c = 305 ∨ c = 383 ∨ c = 8490)%N)
      by (rewrite !elem_of_cons, elem_of_nil in H; lia).
    clear H. destruct Hc as [H|[H|[->|[->|[->| ->]]]]].
    + apply (elem_of_codes 65 90) in H. vm_compute in H.
      repeat (apply elem_of_cons in H as [-> | H]);
        [match goal with
         | |- ∃ x, _ ∧ ?n ∈ _ =>
             exists (PyStr.chr n); split;
             [vm_compute; reflexivity|vm_compute; left]
         end..|].
      inversion H.
    + apply (elem_of_codes 97 122) in H. vm_compute in H.
      repeat (apply elem_of_cons in H as [-> | H]);
        [match goal with
         | |- ∃ x, _ ∧ ?n ∈ _ =>
             exists (PyStr.chr (n - 32)); split;
             [vm_compute; reflexivity|vm_compute; right; left]
         end..|].
      inversion H.
    + exists "I"%char. split; [reflexivity|]. vm_compute. do 2 right. left.
    + exists "I"%char. split; [reflexivity|]. vm_compute. do 3 right. left.
    + exists "S"%char. split; [reflexivity|]. vm_compute. do 2 right. left.
    + exists "K"%char. split; [reflexivity|]. vm_compute. do 2 right. left.
  - intros (x & Hx & Hc).
    destruct x as [[] [] [] [] [] [] [] []]; vm_compute in Hx;
      try discriminate Hx; vm_compute in Hc;
      repeat (apply elem_of_cons in Hc as [-> | Hc]);
      try reflexivity; inversion Hc.
Qed.


(** C10: for a token that is not of stable-identifier shape, an absent
    entry and an entry with an empty candidate list give the same empty
    match. *)
Theorem missing_or_empty_entry gd pc raw :
  ¬ stable_id_shape (PyStr.strip raw) →
  name_to_ids gd !! PyStr.upper (PyStr.strip raw) = None ∨
  name_to_ids gd !! PyStr.upper (PyStr.strip raw) = Some [] →
  resolve_one gd pc raw = mkGeneMatch (PyStr.strip raw) [] None false [].
Proof.
  intros Hshape Hids.
  rewrite (resolve_one_name_lookup gd pc raw (not_shape_no_match raw Hshape)).
  unfold name_lookup. destruct Hids as [-> | ->]; reflexivity.
Qed.

Lemma multi_candidate_resolution_witness :
  resolve_one sample_gene_dict true " ambig " =
    mkGeneMatch "ambig" ["ENSG00000000001"] (Some "AMBIG") false
      ["protein_coding"] ∧
  resolve_one sample_gene_dict true "DUALPC" =
    mkGeneMatch "DUALPC" ["ENSG00000000003"; "ENSG00000000004"] (Some "DUALPC")
      true ["protein_coding"; "protein_coding"].
Proof.
  split.
  - apply (proj1 (multi_candidate_resolution sample_gene_dict true " ambig "
                    "ENSG00000000001" "ENSG00000000002" []
                    ltac:(intros H; apply ensembl_match_shape in H;
                          vm_compute in H; discriminate H)
                    ltac:(vm_compute; reflexivity))
             "ENSG00000000001" eq_refl).
    exists [], ["ENSG00000000002"].
    split; [reflexivity|]. split; [vm_compute; reflexivity|].
    split; [constructor|]. constructor; [vm_compute; discriminate|constructor].
  - apply (proj2 (multi_candidate_resolution sample_gene_dict true "DUALPC"
                    "ENSG00000000003" "ENSG00000000004" []
                    ltac:(intros H; apply ensembl_match_shape in H;
                          vm_compute in H; discriminate H)
                    ltac:(vm_compute; reflexivity))).
    right. intros (i & b & a & E & Hi & Hb & Ha).
    destruct b as [|b0 [|b1 [|? ?]]]; simplify_eq/=.
    + apply Forall_cons in Ha as [Ha _]. apply Ha. vm_compute. reflexivity.
    + apply Forall_cons in Hb as [Hb _]. apply Hb. vm_compute. reflexivity.
Defined.

Lemma stable_id_passthrough_witness :
  let m := resolve_one sample_gene_dict true " ensg99999999999 " in
  ensembl_ids m = ["ENSG99999999999"] ∧ is_ambiguous m = false ∧
  canonical_name m = None ∧ feature_types m = [].
Proof.
  apply (stable_id_passthrough sample_gene_dict true " ensg99999999999 ").
  apply ensembl_match_shape. vm_compute. reflexivity.
Defined.

Lemma missing_or_empty_entry_witness :
  resolve_one blank_type_dict true "NOTREAL" = mkGeneMatch "NOTREAL" [] None false [] ∧
  resolve_one blank_type_dict true "EMPTY" = mkGeneMatch "EMPTY" [] None false [].
Proof.
  split.
  - apply (missing_or_empty_entry blank_type_dict true "NOTREAL").
    + intros H. apply ensembl_match_shape in H. vm_compute in H. discriminate H.
    + left. vm_compute. reflexivity.
  - apply (missing_or_empty_entry blank_type_dict true "EMPTY").
    + intros H. apply ensembl_match_shape in H. vm_compute in H. discriminate H.
    + right. vm_compute. reflexivity.
Defined.

(** C7, as stated, fails: a known identifier whose feature type is the
    empty string is reported with no feature type at all. *)
Lemma passthrough_blank_feature_type :
  ¬ (∀ gd pc raw t,
       stable_id_shape (PyStr.strip raw) →
       is_Some (id_to_name gd !! PyStr.upper (PyStr.strip raw)) →
       id_to_feature_type gd !! PyStr.upper (PyStr.strip raw) = Some t →
       feature_types (resolve_one gd pc raw) = [t]).
Proof.
  intros H.
  specialize (H blank_type_dict true "ENSG00000000009" "").
  assert (Hshape : stable_id_shape (PyStr.strip "ENSG00000000009")).
  { apply ensembl_match_shape. vm_compute. reflexivity. }
  specialize (H Hshape ltac:(vm_compute; eauto) ltac:(vm_compute; reflexivity)).
  vm_compute in H. discriminate H.
Qed.

(** C7, amended: a token whose trimmed, uppercased form is a
    stable-identifier-shaped key of the dictionary, with feature type [t],
    is reported with feature types [[t]] when [t] is not the empty string,
    and with no feature type when [t] is the empty string. *)
Theorem passthrough_feature_type gd pc raw t :
  stable_id_shape (PyStr.strip raw) →
  is_Some (id_to_name gd !! PyStr.upper (PyStr.strip raw)) →
  id_to_feature_type gd !! PyStr.upper (PyStr.strip raw) = Some t →
  feature_types (resolve_one gd pc raw) = if decide (t = "") then [] else [t].
Proof.
  intros Hshape [n Hn] Ht.
  rewrite (resolve_one_passthrough gd pc raw (proj2 (ensembl_match_shape raw) Hshape)).
  unfold passthrough. rewrite Hn, Ht. simpl.
  destruct t; reflexivity.
Qed.

Lemma passthrough_feature_type_witness :
  feature_types (resolve_one sample_gene_dict false "ensg00000141510") =
    ["protein_coding"] ∧
  feature_types (resolve_one blank_type_dict false "ENSG00000000009") = [].
Proof.
  split.
  - apply (passthrough_feature_type sample_gene_dict false "ensg00000141510"
             "protein_coding").
    + apply ensembl_match_shape. vm_compute. reflexivity.
    + vm_compute. eauto.
    + vm_compute. reflexivity.
  - apply (passthrough_feature_type blank_type_dict false "ENSG00000000009" "").
    + apply ensembl_match_shape. vm_compute. reflexivity.
    + vm_compute. eauto.
    + vm_compute. reflexivity.
Defined.

(** ** The filter expression *)

Lemma join_quoted (u : list string) :
  PyStr.join ", " ((λ eid, "'" +:+ eid +:+ "'") <$> u) = quoted_ids u.
Proof.
  induction u as [|x [|y u] IH]; [reflexivity..|].
  rewrite fmap_cons. cbn [PyStr.join quoted_ids]. rewrite fmap_cons in IH |- *.
  rewrite IH. rewrite !sapp_assoc. sapp. reflexivity.
Qed.

Lemma sorted_set_sorted ids : Sorted String.le (sorted_set ids).
Proof. apply (Sorted_merge_sort String.le). Qed.

Lemma sorted_set_NoDup ids : NoDup (sorted_set ids).
Proof.
  unfold sorted_set. rewrite merge_sort_Permutation. apply NoDup_elements.
Qed.

Lemma elem_of_sorted_set ids x : x ∈ sorted_set ids ↔ x ∈ ids.
Proof.
  unfold sorted_set. rewrite merge_sort_Permutation, elem_of_elements.
  apply elem_of_list_to_set.
Qed.

(** Ascending order, no repetition and the elements determine the list. *)
Lemma sorted_set_unique ids u :
  Sorted String.le u → NoDup u → (∀ x, x ∈ u ↔ x ∈ ids) → u = sorted_set ids.
Proof.
  intros Hs Hn He. apply (Sorted_unique String.le); [exact Hs|apply sorted_set_sorted|].
  apply NoDup_Permutation; [exact Hn|apply sorted_set_NoDup|].
  intros x. rewrite elem_of_sorted_set. apply He.
Qed.

Lemma build_var_value_filter_unfold ids :
  build_var_value_filter ids =
  match sorted_set ids with
  | [] => ""
  | _ :: _ => "feature_id in [" +:+ quoted_ids (sorted_set ids) +:+ "]"
  end.
Proof.
  unfold build_var_value_filter. fold (sorted_set ids).
  destruct (sorted_set ids) as [|x u]; [reflexivity|].
  rewrite join_quoted. reflexivity.
Qed.

(** C2: the filter is the empty string for an empty collection, and
    otherwise "feature_id in [...]" around the distinct identifiers in
    ascending order, each in single quotes, separated by a comma and a
    space; the two-identifier example of the specification holds. *)
Theorem build_var_value_filter_shape ids unique :
  Sorted String.le unique → NoDup unique → (∀ x, x ∈ unique ↔ x ∈ ids) →
  build_var_value_filter ids =
    match unique with
    | [] => ""
    | _ :: _ => "feature_id in [" +:+ quoted_ids unique +:+ "]"
    end ∧
  (ids = [] → build_var_value_filter ids = "") ∧
  (build_var_value_filter ids = "" → ids = []) ∧
  build_var_value_filter ["ENSG00000012048"; "ENSG00000141510"] =
    "feature_id in ['ENSG00000012048', 'ENSG00000141510']".
Proof.
  intros Hs Hn He. rewrite build_var_value_filter_unfold.
  rewrite <- (sorted_set_unique ids unique Hs Hn He).
  split; [reflexivity|]. split; [|split].
  - intros ->. destruct unique as [|x u]; [reflexivity|].
    exfalso. pose proof (proj1 (He x) ltac:(left)) as Hx. inversion Hx.
  - destruct unique as [|x u]; [|discriminate].
    intros _. destruct ids as [|i ids]; [reflexivity|].
    pose proof (proj2 (He i) ltac:(left)) as Hi. inversion Hi.
  - vm_compute. reflexivity.
Qed.

Lemma build_var_value_filter_shape_witness :
  build_var_value_filter
    ["ENSG00000141510"; "ENSG00000012048"; "ENSG00000141510"] =
  "feature_id in ['ENSG00000012048', 'ENSG00000141510']".
Proof.
  apply (build_var_value_filter_shape
           ["ENSG00000141510"; "ENSG00000012048"; "ENSG00000141510"]
           ["ENSG00000012048"; "ENSG00000141510"]).
  - apply (bool_decide_unpack _). vm_compute. exact I.
  - apply (bool_decide_unpack _). vm_compute. exact I.
  - intros x. rewrite !elem_of_cons, !elem_of_nil. tauto.
Defined.

(** Such a list always exists: the theorem above is never vacuous. *)
Lemma sorted_distinct_exists (ids : list string) :
  ∃ unique, Sorted String.le unique ∧ NoDup unique ∧ (∀ x, x ∈ unique ↔ x ∈ ids).
Proof.
  exists (sorted_set ids).
  split; [apply sorted_set_sorted|]. split; [apply sorted_set_NoDup|].
  intros x. apply elem_of_sorted_set.
Qed.

Lemma list_to_set_same (S T : list string) :
  (∀ x, x ∈ S ↔ x ∈ T) → (list_to_set S : gset string) = list_to_set T.
Proof.
  intros H. apply set_eq. intros x. rewrite !elem_of_list_to_set. apply H.
Qed.

(** C9: the filter depends only on the set of distinct identifiers given:
    two collections with the same elements give the same string. *)
Theorem build_var_value_filter_same_set (S T : list string) :
  (∀ x, x ∈ S ↔ x ∈ T) → build_var_value_filter S = build_var_value_filter T.
Proof.
  intros H. unfold build_var_value_filter.
  rewrite (list_to_set_same S T H). reflexivity.
Qed.

Lemma build_var_value_filter_same_set_witness :
  build_var_value_filter ["b"; "a"; "b"] = build_var_value_filter ["a"; "b"].
Proof.
  apply (build_var_value_filter_same_set ["b"; "a"; "b"] ["a"; "b"]).
  intros x. rewrite !elem_of_cons, !elem_of_nil. tauto.
Defined.

(** In particular the order and the repetitions of the input do not matter. *)
Lemma build_var_value_filter_permutation (S T : list string) :
  S ≡ₚ T → build_var_value_filter S = build_var_value_filter T.
Proof.
  intros H. unfold build_var_value_filter.
  rewrite (list_to_set_same S T); [reflexivity|].
  intros x. rewrite H. reflexivity.
Qed.

Lemma build_var_value_filter_duplicated (S : list string) :
  build_var_value_filter (S ++ S) = build_var_value_filter S.
Proof.
  unfold build_var_value_filter.
  rewrite (list_to_set_same (S ++ S) S); [reflexivity|].
  intros x. rewrite elem_of_app. tauto.
Qed.

(** ** Dictionary acquisition *)

(** The fetch never raises: whatever happens, a dictionary comes back. *)
Lemma fetch_from_census_returns w v o :
  ∃ l gd, Cache.fetch_from_census w v o = (l, Cache.Ok gd).
Proof.
  unfold Cache.fetch_from_census.
  destruct (Cache.census_read w v (Cache.census_organism o)) as [[rows|]|e]; eauto.
  destruct (Cache.cache_dump w (Cache.cache_path v o) (foldl Cache.add_row GeneDict_empty rows));
    eauto.
Qed.

(** With no cache file the body is the fetch. *)
Lemma body_without_cache w v o :
  Cache._get_gene_dict_body (without_cache w) v o = Cache.fetch_from_census w v o.
Proof. reflexivity. Qed.

(** An exception of [pickle.load] outside the two handled classes leaves
    the function. *)
Lemma unhandled_load_exception_propagates w v o e :
  Cache.path_exists w (Cache.cache_path v o) = true →
  Cache.open_rb w (Cache.cache_path v o) = None →
  Cache.pickle_load w (Cache.cache_path v o) = Cache.Raise e →
  Cache.cache_handler_catches e = false →
  Cache._get_gene_dict_body w v o =
  ([Cache.InfoLoading (Cache.cache_path v o)], Cache.Raise e).
Proof.
  intros Hp Ho Hl He. unfold Cache._get_gene_dict_body.
  rewrite Hp, Ho, Hl, He. reflexivity.
Qed.

(** The cache file of the default arguments, the sanitised form of an
    organism written with characters outside ASCII, and the cache file of
    an absolute [census_version]. *)
Lemma cache_path_examples :
  Cache.cache_path "latest" "homo_sapiens" =
    ".cache/latest_homosapiens_gene_dict.pkl" ∧
  Cache.safe_organism (PyStr.encode [67; 97; 102; 233; 178; 95; 32; 120]%N) =
    PyStr.encode [67; 97; 102; 233; 178; 120]%N ∧
  Cache.cache_path "/tmp/x" "mus musculus" = "/tmp/x_musmusculus_gene_dict.pkl".
Proof. vm_compute. auto. Qed.

(** With [ValueError], which a damaged pickle can raise, the claim of C8
    fails: the exception is not recovered. *)
Lemma cache_load_failure_propagates :
  ¬ (∀ memo w v o e,
       memo !! (v, o) = None →
       Cache.path_exists w (Cache.cache_path v o) = true →
       Cache.open_rb w (Cache.cache_path v o) = None →
       Cache.pickle_load w (Cache.cache_path v o) = Cache.Raise e →
       (Cache._get_gene_dict memo w v o).2 = (Cache.fetch_from_census w v o).2).
Proof.
  intros H.
  specialize (H ∅ (corrupt_cache_world Cache.ValueError) "latest" "homo_sapiens"
                Cache.ValueError eq_refl eq_refl eq_refl eq_refl).
  vm_compute in H. discriminate H.
Qed.

(** C8: the code at the failing input.  The cache file exists and
    unpickling it raises [ValueError]: the call raises [ValueError] to the
    caller after the one log line of the load, the memo is left as it was,
    and nothing is fetched, although the fetch would have returned a
    dictionary. *)
Theorem cache_value_error_reaches_caller :
  Cache._get_gene_dict ∅ (corrupt_cache_world Cache.ValueError)
    "latest" "homo_sapiens" =
  (∅, [Cache.InfoLoading (Cache.cache_path "latest" "homo_sapiens")],
   Cache.Raise Cache.ValueError) ∧
  ∃ l gd,
    Cache.fetch_from_census (corrupt_cache_world Cache.ValueError)
      "latest" "homo_sapiens" = (l, Cache.Ok gd).
Proof.
  split; [vm_compute; reflexivity|]. apply fetch_from_census_returns.
Qed.

(** The recovery the code does attempt: when unpickling raises
    [UnpicklingError] or [EOFError], the failure is logged and the
    function goes on to the remote fetch as if the cache were missing. *)
Lemma cache_corrupt_falls_through memo w v o e :
  memo !! (v, o) = None →
  Cache.path_exists w (Cache.cache_path v o) = true →
  Cache.open_rb w (Cache.cache_path v o) = None →
  Cache.pickle_load w (Cache.cache_path v o) = Cache.Raise e →
  e = Cache.UnpicklingError ∨ e = Cache.EOFError →
  ∃ l gd,
    Cache._get_gene_dict_body (without_cache w) v o = (l, Cache.Ok gd) ∧
    Cache._get_gene_dict memo w v o =
      (<[(v, o) := gd]> memo,
       Cache.InfoLoading (Cache.cache_path v o)
         :: Cache.WarnCorrupted (Cache.cache_path v o) e :: l,
       Cache.Ok gd).
Proof.
  intros Hm Hp Ho Hl He.
  destruct (fetch_from_census_returns w v o) as (l & gd & Hf).
  exists l, gd. split; [rewrite body_without_cache; exact Hf|].
  unfold Cache._get_gene_dict, Cache._get_gene_dict_body.
  rewrite Hm, Hp, Ho, Hl.
  assert (Hc : Cache.cache_handler_catches e = true)
    by (destruct He as [-> | ->]; reflexivity).
  rewrite Hc, Hf. reflexivity.
Qed.

(** ** The test-suite, replayed on the model *)

Example test_unambiguous_name :
  resolve_genes sample_gene_dict ["TP53"] true =
  [mkGeneMatch "TP53" ["ENSG00000141510"] (Some "TP53") false ["protein_coding"]].
Proof. vm_compute. reflexivity. Qed.

Example test_ambiguous_prefers_protein_coding :
  resolve_genes sample_gene_dict ["AMBIG"; "  tp53 "; "ENSG99999999999"; "NOTREAL"] true =
  [mkGeneMatch "AMBIG" ["ENSG00000000001"] (Some "AMBIG") false ["protein_coding"];
   mkGeneMatch "tp53" ["ENSG00000141510"] (Some "TP53") false ["protein_coding"];
   mkGeneMatch "ENSG99999999999" ["ENSG99999999999"] None false [];
   GeneMatch_default "NOTREAL"].
Proof. vm_compute. reflexivity. Qed.

Example test_multiple_ids_sorted :
  build_var_value_filter ["ENSG00000141510"; "ENSG00000012048"; "ENSG00000141510"] =
  "feature_id in ['ENSG00000012048', 'ENSG00000141510']".
Proof. vm_compute. reflexivity. Qed.

Example test_ambiguous_no_preference :
  resolve_genes sample_gene_dict ["AMBIG"] false =
  [mkGeneMatch "AMBIG" ["ENSG00000000001"; "ENSG00000000002"] (Some "AMBIG") true
     ["protein_coding"; "lncRNA"]].
Proof. vm_compute. reflexivity. Qed.

Example test_ambiguous_dual_protein_coding :
  resolve_genes sample_gene_dict ["DUALPC"] true =
  [mkGeneMatch "DUALPC" ["ENSG00000000003"; "ENSG00000000004"] (Some "DUALPC") true
     ["protein_coding"; "protein_coding"]].
Proof. vm_compute. reflexivity. Qed.

Example test_empty_list : build_var_value_filter [] = "".
Proof. vm_compute. reflexivity. Qed.

(** Before trimming, a token that ends in a newline still matches the
    pattern: [$] lets one final newline through. *)
Example untrimmed_newline_matches :
  ensembl_match ("ENSG1" +:+ String "010" "") = true ∧
  ensembl_match (PyStr.strip ("ENSG1" +:+ String "010" "")) = true ∧
  PyStr.strip ("ENSG1" +:+ String "010" "") = "ENSG1".
Proof. vm_compute. auto. Qed.

(** * Further properties of the module *)

(** ** The dictionary built from the var table: the loop *)

Lemma add_row_name_to_ids gd r k :
  name_to_ids (Cache.add_row gd r) !! k =
  if decide (PyStr.upper (row_name r) = k)
  then Some (default [] (name_to_ids gd !! k) ++ [row_id r])
  else name_to_ids gd !! k.
Proof.
  destruct r as [[i n] t]. unfold row_name, row_id. cbn.
  destruct (decide (PyStr.upper n = k)) as [<-|Hne].
  - apply lookup_insert_eq.
  - apply lookup_insert_ne. exact Hne.
Qed.

Lemma add_row_id_to_name gd r i :
  id_to_name (Cache.add_row gd r) !! i =
  if decide (row_id r = i) then Some (row_name r) else id_to_name gd !! i.
Proof.
  destruct r as [[j n] t]. unfold row_name, row_id. cbn.
  destruct (decide (j = i)) as [<-|Hne].
  - apply lookup_insert_eq.
  - apply lookup_insert_ne. exact Hne.
Qed.

Lemma add_row_id_to_feature_type gd r i :
  id_to_feature_type (Cache.add_row gd r) !! i =
  if decide (row_id r = i) then Some (row_ftype r) else id_to_feature_type gd !! i.
Proof.
  destruct r as [[j n] t]. unfold row_ftype, row_id. cbn.
  destruct (decide (j = i)) as [<-|Hne].
  - apply lookup_insert_eq.
  - apply lookup_insert_ne. exact Hne.
Qed.

Lemma add_row_closed gd r : dict_closed gd → dict_closed (Cache.add_row gd r).
Proof.
  intros Hc k ids i Hk Hi.
  rewrite add_row_name_to_ids in Hk.
  rewrite add_row_id_to_name, add_row_id_to_feature_type.
  destruct (decide (row_id r = i)) as [_|Hne]; [split; eauto|].
  destruct (decide (PyStr.upper (row_name r) = k)) as [_|_].
  - injection Hk as <-. apply elem_of_app in Hi as [Hi|Hi].
    + destruct (name_to_ids gd !! k) as [old|] eqn:Hold; [|inversion Hi].
      exact (Hc k old i Hold Hi).
    + apply list_elem_of_singleton in Hi. congruence.
  - exact (Hc k ids i Hk Hi).
Qed.

Lemma foldl_add_row_closed rows gd :
  dict_closed gd → dict_closed (foldl Cache.add_row gd rows).
Proof.
  revert gd. induction rows as [|r rows IH]; intros gd Hc; [exact Hc|].
  apply IH, add_row_closed, Hc.
Qed.

Lemma empty_closed : dict_closed GeneDict_empty.
Proof. intros k ids i Hk. cbn in Hk. rewrite lookup_empty in Hk. discriminate. Qed.

(** ** The dictionary built from the var table *)

(** X1: in the dictionary built from the var table every candidate
    identifier of every symbol has a name and a feature type. *)
Theorem build_gene_dict_closed rows : dict_closed (build_gene_dict rows).
Proof. apply foldl_add_row_closed, empty_closed. Qed.

Lemma foldl_add_row_candidates rows gd k :
  default [] (name_to_ids (foldl Cache.add_row gd rows) !! k) =
  default [] (name_to_ids gd !! k) ++ ids_named rows k.
Proof.
  revert gd. induction rows as [|r rows IH]; intros gd.
  - cbn. symmetry. apply app_nil_r.
  - cbn [foldl]. rewrite IH, add_row_name_to_ids. unfold ids_named.
    rewrite filter_cons.
    destruct (decide (PyStr.upper (row_name r) = k)); [|reflexivity].
    rewrite fmap_cons. simpl. rewrite <- app_assoc. reflexivity.
Qed.

Lemma foldl_add_row_keys rows gd :
  (∀ k ids, name_to_ids gd !! k = Some ids → PyStr.upper k = k ∧ ids ≠ []) →
  ∀ k ids, name_to_ids (foldl Cache.add_row gd rows) !! k = Some ids →
           PyStr.upper k = k ∧ ids ≠ [].
Proof.
  revert gd. induction rows as [|r rows IH]; intros gd Hgd; [exact Hgd|].
  cbn [foldl]. apply IH. intros k ids. rewrite add_row_name_to_ids.
  destruct (decide (PyStr.upper (row_name r) = k)) as [<-|_]; [|apply Hgd].
  intros [= <-]. split; [apply upper_idemp|].
  intros E. apply app_eq_nil in E as [_ E]. discriminate E.
Qed.

(** X2: the candidates of a key are the identifiers of the rows whose
    uppercased name is that key, in table order and with repetitions; a
    key no row carries has no entry. *)
Theorem build_gene_dict_name_to_ids rows k :
  name_to_ids (build_gene_dict rows) !! k =
  match ids_named rows k with
  | [] => None
  | ids => Some ids
  end.
Proof.
  pose proof (foldl_add_row_candidates rows GeneDict_empty k) as Hc.
  cbn [name_to_ids GeneDict_empty] in Hc. rewrite lookup_empty in Hc.
  cbn [default app] in Hc. fold (build_gene_dict rows) in Hc.
  destruct (name_to_ids (build_gene_dict rows) !! k) as [ids|] eqn:Hk.
  - cbn in Hc. rewrite <- Hc.
    assert (Hne : ids ≠ []).
    { eapply (foldl_add_row_keys rows GeneDict_empty); [|exact Hk].
      intros k' ids' H. cbn in H. rewrite lookup_empty in H. discriminate. }
    destruct ids; [contradiction|reflexivity].
  - cbn in Hc. rewrite <- Hc. reflexivity.
Qed.

(** X3: every key of [name_to_ids] in the built dictionary is its own
    uppercase form, and no candidate list is empty. *)
Theorem build_gene_dict_keys rows k ids :
  name_to_ids (build_gene_dict rows) !! k = Some ids →
  PyStr.upper k = k ∧ ids ≠ [].
Proof.
  apply (foldl_add_row_keys rows GeneDict_empty).
  intros k' ids' H. cbn in H. rewrite lookup_empty in H. discriminate.
Qed.

Lemma foldl_add_row_id_to_name rows gd i :
  id_to_name (foldl Cache.add_row gd rows) !! i =
  match last_row_with_id rows i with
  | Some r => Some (row_name r)
  | None => id_to_name gd !! i
  end.
Proof.
  unfold last_row_with_id.
  revert gd. induction rows as [|r rows IH]; intros gd; [reflexivity|].
  cbn [foldl]. rewrite IH, add_row_id_to_name, filter_cons.
  destruct (decide (row_id r = i)); [|reflexivity].
  destruct (filter (λ r0, row_id r0 = i) rows) as [|r1 l]; [reflexivity|].
  rewrite last_cons_cons. destruct (last (r1 :: l)) eqn:E; [reflexivity|].
  apply last_None in E. discriminate E.
Qed.

Lemma foldl_add_row_id_to_feature_type rows gd i :
  id_to_feature_type (foldl Cache.add_row gd rows) !! i =
  match last_row_with_id rows i with
  | Some r => Some (row_ftype r)
  | None => id_to_feature_type gd !! i
  end.
Proof.
  unfold last_row_with_id.
  revert gd. induction rows as [|r rows IH]; intros gd; [reflexivity|].
  cbn [foldl]. rewrite IH, add_row_id_to_feature_type, filter_cons.
  destruct (decide (row_id r = i)); [|reflexivity].
  destruct (filter (λ r0, row_id r0 = i) rows) as [|r1 l]; [reflexivity|].
  rewrite last_cons_cons. destruct (last (r1 :: l)) eqn:E; [reflexivity|].
  apply last_None in E. discriminate E.
Qed.

(** X4: when the table repeats an identifier the last row wins: name
    and feature type are those of the last row with that identifier, and
    an identifier in no row has neither. *)
Theorem build_gene_dict_last_row_wins rows i :
  id_to_name (build_gene_dict rows) !! i = row_name <$> last_row_with_id rows i ∧
  id_to_feature_type (build_gene_dict rows) !! i =
    row_ftype <$> last_row_with_id rows i.
Proof.
  unfold build_gene_dict.
  rewrite foldl_add_row_id_to_name, foldl_add_row_id_to_feature_type.
  destruct (last_row_with_id rows i); split; reflexivity.
Qed.

(** ** Case and the pattern, on ASCII tokens *)

(** On an ASCII character [upper] is [upper_char]. *)
Lemma upper_cp_ascii b :
  (PyStr.code b <? 128)%nat = true →
  PyStr.encode (PyStr.upper_cp (PyStr.byte b)) = String (PyStr.upper_char b) "".
Proof. by_cases_on_char b; intros H; first [discriminate H|reflexivity]. Qed.

Lemma upper_ascii_cons b r :
  (PyStr.code b <? 128)%nat = true →
  PyStr.upper (String b r) = String (PyStr.upper_char b) (PyStr.upper r).
Proof.
  intros H. rewrite (upper_ascii_step b r (ascii_byte b H)), (upper_cp_ascii b H).
  reflexivity.
Qed.

Lemma upper_char_ascii b :
  (PyStr.code b <? 128)%nat = true →
  (PyStr.code (PyStr.upper_char b) <? 128)%nat = true.
Proof. by_cases_on_char b; intros H; first [discriminate H|reflexivity]. Qed.

Lemma sre_lower_upper_char b :
  Re.sre_lower (PyStr.byte (PyStr.upper_char b)) = Re.sre_lower (PyStr.byte b).
Proof. by_cases_on_char b; vm_compute; reflexivity. Qed.

Lemma isdecimal_upper_char b :
  PyStr.isdecimal (PyStr.byte (PyStr.upper_char b)) = PyStr.isdecimal (PyStr.byte b).
Proof. by_cases_on_char b; vm_compute; reflexivity. Qed.

Lemma newline_upper_char b :
  bool_decide (PyStr.byte (PyStr.upper_char b) = 10%N) =
  bool_decide (PyStr.byte b = 10%N).
Proof. by_cases_on_char b; vm_compute; reflexivity. Qed.

Lemma atom_match_upper a b :
  Re.atom_match true a (PyStr.byte (PyStr.upper_char b)) =
  Re.atom_match true a (PyStr.byte b).
Proof.
  destruct a as [x|lo hi|]; cbn [Re.atom_match]; cbv zeta.
  - rewrite sre_lower_upper_char. reflexivity.
  - rewrite sre_lower_upper_char. reflexivity.
  - apply isdecimal_upper_char.
Qed.

Lemma star_upper a (k : list N → bool) (l : list ascii) :
  (∀ l' : list ascii,
     k ((λ b, PyStr.byte (PyStr.upper_char b)) <$> l') = k (PyStr.byte <$> l')) →
  Re.star (Re.atom_match true a) k ((λ b, PyStr.byte (PyStr.upper_char b)) <$> l) =
  Re.star (Re.atom_match true a) k (PyStr.byte <$> l).
Proof.
  intros Hk. induction l as [|b l IH]; [apply (Hk [])|].
  pose proof (Hk (b :: l)) as Hbl. rewrite !fmap_cons in *.
  cbn [Re.star]. rewrite atom_match_upper, IH, Hbl. reflexivity.
Qed.

Lemma eol_upper (l : list ascii) :
  Re.eol ((λ b, PyStr.byte (PyStr.upper_char b)) <$> l) = Re.eol (PyStr.byte <$> l).
Proof.
  destruct l as [|b [|b' l]]; [reflexivity| |reflexivity].
  apply newline_upper_char.
Qed.

Lemma run_upper p (l : list ascii) :
  Re.run true p ((λ b, PyStr.byte (PyStr.upper_char b)) <$> l) =
  Re.run true p (PyStr.byte <$> l).
Proof.
  revert l. induction p as [|[a|a|a|] p IH]; intros l; cbn [Re.run].
  - reflexivity.
  - destruct l as [|b l]; [reflexivity|]. rewrite !fmap_cons.
    rewrite atom_match_upper, IH. reflexivity.
  - apply star_upper, IH.
  - destruct l as [|b l]; [reflexivity|]. rewrite !fmap_cons.
    rewrite atom_match_upper. f_equal. apply star_upper, IH.
  - rewrite eol_upper, IH. reflexivity.
Qed.

Lemma decode_upper_ascii s :
  PyStr.is_ascii s = true →
  PyStr.decode (PyStr.upper s) =
  (λ b, PyStr.byte (PyStr.upper_char b)) <$> String.list_ascii_of_string s.
Proof.
  induction s as [|b r IH]; [reflexivity|].
  intros [Hb Hr]%is_ascii_cons.
  rewrite (upper_ascii_cons b r Hb).
  rewrite (decode_ascii_cons _ _ (upper_char_ascii b Hb)), (IH Hr). reflexivity.
Qed.

Lemma ensembl_match_upper q :
  PyStr.is_ascii q = true → ensembl_match (PyStr.upper q) = ensembl_match q.
Proof.
  intros H. unfold ensembl_match, Re.match_.
  rewrite (decode_upper_ascii q H), (decode_ascii q H). apply run_upper.
Qed.

Lemma ensembl_match_same_upper q1 q2 :
  PyStr.is_ascii q1 = true → PyStr.is_ascii q2 = true →
  PyStr.upper q1 = PyStr.upper q2 → ensembl_match q1 = ensembl_match q2.
Proof.
  intros H1 H2 E.
  rewrite <- (ensembl_match_upper q1 H1), <- (ensembl_match_upper q2 H2), E.
  reflexivity.
Qed.

(** The chosen protein-coding identifier is one of the candidates. *)
Lemma pc_ids_elem gd ids p l :
  pc_ids_of ids (ftypes_of gd ids) = p :: l →
  p ∈ ids ∧ ftype_of gd p = "protein_coding".
Proof.
  rewrite pc_ids_filter. intros E.
  assert (Hp : p ∈ filter (λ i, ftype_of gd i = "protein_coding") ids)
    by (rewrite E; left).
  apply list_elem_of_filter in Hp. tauto.
Qed.

(** X7: two ASCII tokens that agree after trimming and uppercasing
    resolve to the same identifiers, ambiguity flag and feature types; on
    a dictionary where every candidate has a name, to the same canonical
    name as well. *)
Theorem resolve_one_case_insensitive gd pc a b :
  PyStr.is_ascii a = true → PyStr.is_ascii b = true →
  PyStr.upper (PyStr.strip a) = PyStr.upper (PyStr.strip b) →
  ensembl_ids (resolve_one gd pc a) = ensembl_ids (resolve_one gd pc b) ∧
  is_ambiguous (resolve_one gd pc a) = is_ambiguous (resolve_one gd pc b) ∧
  feature_types (resolve_one gd pc a) = feature_types (resolve_one gd pc b) ∧
  (dict_closed gd →
   canonical_name (resolve_one gd pc a) = canonical_name (resolve_one gd pc b)).
Proof.
  intros Ha Hb E. unfold resolve_one, resolve_query.
  rewrite (ensembl_match_same_upper _ _ (is_ascii_strip a Ha) (is_ascii_strip b Hb) E).
  destruct (ensembl_match (PyStr.strip b)).
  - unfold passthrough. rewrite E.
    destruct (id_to_name gd !! PyStr.upper (PyStr.strip b)); auto.
  - unfold name_lookup. rewrite E.
    destruct (name_to_ids gd !! PyStr.upper (PyStr.strip b))
      as [[|i0 [|i1 rest]]|] eqn:Hk; [cbn; auto| | |cbn; auto].
    + do 3 (split; [reflexivity|]). intros Hc. cbn.
      destruct (Hc _ _ i0 Hk ltac:(left)) as [[n ->] _]. reflexivity.
    + destruct pc.
      * destruct (pc_ids_of (i0 :: i1 :: rest) (ftypes_of gd (i0 :: i1 :: rest)))
          as [|p [|? ?]] eqn:Hp; do 3 (split; [reflexivity|]); intros Hc; cbn.
        -- destruct (Hc _ _ i0 Hk ltac:(left)) as [[n ->] _]. reflexivity.
        -- destruct (pc_ids_elem gd _ _ _ Hp) as [Hin _].
           destruct (Hc _ _ p Hk Hin) as [[n ->] _]. reflexivity.
        -- destruct (Hc _ _ i0 Hk ltac:(left)) as [[n ->] _]. reflexivity.
      * do 3 (split; [reflexivity|]). intros Hc. cbn.
        destruct (Hc _ _ i0 Hk ltac:(left)) as [[n ->] _]. reflexivity.
Qed.

(** Beyond ASCII the uppercase forms can agree where the pattern does
    not: the uppercase form of U+00DF is SS, so that ENSSG1 and the token
    with U+00DF for SS have the same uppercase form, and only the first
    is passed through. *)
Lemma sharp_s_same_upper_other_match :
  PyStr.upper (PyStr.encode [69; 78; 223; 71; 49]%N) = PyStr.upper "ENSSG1" ∧
  ensembl_ids (resolve_one GeneDict_empty true (PyStr.encode [69; 78; 223; 71; 49]%N))
    = [] ∧
  ensembl_ids (resolve_one GeneDict_empty true "ENSSG1") = ["ENSSG1"].
Proof. vm_compute. auto. Qed.

(** X8: a token that is not of stable-identifier shape and has exactly
    one candidate resolves to it, not ambiguous, with its name (the token
    itself when [id_to_name] lacks it) and its feature type (the empty
    string when [id_to_feature_type] lacks it). *)
Theorem single_candidate_resolution gd pc raw i :
  ¬ stable_id_shape (PyStr.strip raw) →
  name_to_ids gd !! PyStr.upper (PyStr.strip raw) = Some [i] →
  resolve_one gd pc raw =
  mkGeneMatch (PyStr.strip raw) [i]
    (Some (default (PyStr.strip raw) (id_to_name gd !! i))) false [ftype_of gd i].
Proof.
  intros Hshape Hk.
  rewrite (resolve_one_name_lookup gd pc raw (not_shape_no_match raw Hshape)).
  unfold name_lookup. rewrite Hk. reflexivity.
Qed.

(** X9: the preference for protein_coding either changes nothing or
    turns an ambiguous match into an unambiguous one with a single
    identifier, which is one of the candidates and has feature type
    protein_coding. *)
Theorem preference_only_narrows gd raw :
  resolve_one gd true raw = resolve_one gd false raw ∨
  (is_ambiguous (resolve_one gd false raw) = true ∧
   is_ambiguous (resolve_one gd true raw) = false ∧
   ∃ p, ensembl_ids (resolve_one gd true raw) = [p] ∧
        p ∈ ensembl_ids (resolve_one gd false raw) ∧
        ftype_of gd p = "protein_coding").
Proof.
  unfold resolve_one, resolve_query.
  destruct (ensembl_match (PyStr.strip raw)); [left; reflexivity|].
  unfold name_lookup.
  destruct (name_to_ids gd !! PyStr.upper (PyStr.strip raw))
    as [[|i0 [|i1 rest]]|]; [left; reflexivity..| |left; reflexivity].
  destruct (pc_ids_of (i0 :: i1 :: rest) (ftypes_of gd (i0 :: i1 :: rest)))
    as [|p [|? ?]] eqn:Hp; [left; reflexivity| |left; reflexivity].
  right. do 2 (split; [reflexivity|]). exists p. split; [reflexivity|].
  exact (pc_ids_elem gd _ _ _ Hp).
Qed.

(** X10: the feature types of a match are those the dictionary gives
    for its identifiers, position by position (the empty string for an
    identifier without one); the one exception is a token of
    stable-identifier shape, whose feature types may be empty. *)
Theorem feature_types_parallel gd pc raw :
  let m := resolve_one gd pc raw in
  feature_types m = ftype_of gd <$> ensembl_ids m ∨
  (stable_id_shape (PyStr.strip raw) ∧ feature_types m = []).
Proof.
  unfold resolve_one, resolve_query. cbv zeta.
  destruct (ensembl_match (PyStr.strip raw)) eqn:Hm.
  - apply ensembl_match_shape in Hm. unfold passthrough.
    destruct (id_to_name gd !! PyStr.upper (PyStr.strip raw)); [|right; auto].
    cbn. unfold ftype_of.
    destruct (id_to_feature_type gd !! PyStr.upper (PyStr.strip raw)) as [[|c t]|];
      cbn; [right; auto|left; reflexivity|right; auto].
  - left. unfold name_lookup.
    destruct (name_to_ids gd !! PyStr.upper (PyStr.strip raw))
      as [[|i0 [|i1 rest]]|]; [reflexivity..| |reflexivity].
    destruct pc; [|reflexivity].
    destruct (pc_ids_of (i0 :: i1 :: rest) (ftypes_of gd (i0 :: i1 :: rest)))
      as [|p [|? ?]] eqn:Hp; [reflexivity| |reflexivity].
    destruct (pc_ids_elem gd _ _ _ Hp) as [_ Hft]. cbn. rewrite Hft. reflexivity.
Qed.

(** X11: a match has no canonical name exactly when it has no identifier
    or the token is of stable-identifier shape and unknown to
    [id_to_name]. *)
Theorem canonical_name_absent gd pc raw :
  let m := resolve_one gd pc raw in
  canonical_name m = None ↔
  ensembl_ids m = [] ∨
  (stable_id_shape (PyStr.strip raw) ∧
   id_to_name gd !! PyStr.upper (PyStr.strip raw) = None).
Proof.
  unfold resolve_one, resolve_query. cbv zeta.
  destruct (ensembl_match (PyStr.strip raw)) eqn:Hm.
  - pose proof (proj1 (ensembl_match_shape raw) Hm) as Hs. unfold passthrough.
    destruct (id_to_name gd !! PyStr.upper (PyStr.strip raw)); cbn.
    + split; [discriminate|]. intros [H|[_ H]]; discriminate H.
    + split; auto.
  - assert (Hn : ¬ stable_id_shape (PyStr.strip raw)).
    { intros H. apply ensembl_match_shape in H. congruence. }
    unfold name_lookup.
    destruct (name_to_ids gd !! PyStr.upper (PyStr.strip raw))
      as [[|i0 [|i1 rest]]|]; [cbn; split; auto| | |cbn; split; auto].
    + cbn. split; [discriminate|]. intros [H|[H _]]; [discriminate H|contradiction].
    + destruct pc;
        [destruct (pc_ids_of (i0 :: i1 :: rest) (ftypes_of gd (i0 :: i1 :: rest)))
           as [|p [|? ?]]|];
        cbn; (split; [discriminate|]);
        intros [H|[H _]]; (discriminate H || contradiction).
Qed.

(** X12: on the empty dictionary a token of stable-identifier shape is
    passed through uppercased with no name and no feature type, and every
    other token resolves to nothing. *)
Theorem resolve_on_empty_dictionary pc raw :
  let q := PyStr.strip raw in
  resolve_one GeneDict_empty pc raw =
  if ensembl_match q
  then mkGeneMatch q [PyStr.upper q] None false []
  else mkGeneMatch q [] None false [].
Proof.
  cbv zeta. unfold resolve_one, resolve_query.
  destruct (ensembl_match (PyStr.strip raw)).
  - unfold passthrough. cbn. rewrite lookup_empty. reflexivity.
  - unfold name_lookup. cbn. rewrite lookup_empty. reflexivity.
Qed.

(** X13: resolving a concatenation of two lists of tokens gives the
    concatenation of their resolutions. *)
Theorem resolve_genes_app gd xs ys pc :
  resolve_genes gd (xs ++ ys) pc = resolve_genes gd xs pc ++ resolve_genes gd ys pc.
Proof. rewrite !resolve_genes_fmap. apply fmap_app. Qed.

(** X14: for a token of stable-identifier shape neither [name_to_ids]
    nor the preference flag is consulted: two dictionaries with the same
    names and feature types per identifier give the same match. *)
Theorem passthrough_ignores_symbols gd gd' pc pc' raw :
  stable_id_shape (PyStr.strip raw) →
  id_to_name gd = id_to_name gd' →
  id_to_feature_type gd = id_to_feature_type gd' →
  resolve_one gd pc raw = resolve_one gd' pc' raw.
Proof.
  intros Hs Hn Hf. apply ensembl_match_shape in Hs.
  rewrite !resolve_one_passthrough by exact Hs.
  unfold passthrough. rewrite Hn, Hf. reflexivity.
Qed.

(** ** From the var table to a resolution *)

Lemma build_candidates rows k :
  default [] (name_to_ids (build_gene_dict rows) !! k) = ids_named rows k.
Proof.
  unfold build_gene_dict. rewrite foldl_add_row_candidates.
  cbn. rewrite lookup_empty. reflexivity.
Qed.

Lemma name_lookup_preference_off gd q :
  ensembl_ids (name_lookup gd false q) =
    default [] (name_to_ids gd !! PyStr.upper q) ∧
  is_ambiguous (name_lookup gd false q) =
    bool_decide (1 < length (default [] (name_to_ids gd !! PyStr.upper q))).
Proof.
  unfold name_lookup.
  destruct (name_to_ids gd !! PyStr.upper q) as [[|i0 [|i1 rest]]|]; cbn;
    split; reflexivity.
Qed.

(** X5: on the dictionary built from a var table, with the preference
    off, a token that is not of stable-identifier shape resolves to the
    identifiers of exactly the rows whose name equals it up to case, in
    table order; the match is ambiguous exactly when there are two or
    more. *)
Theorem symbol_round_trip rows raw :
  ¬ stable_id_shape (PyStr.strip raw) →
  let m := resolve_one (build_gene_dict rows) false raw in
  let ids := ids_named rows (PyStr.upper (PyStr.strip raw)) in
  ensembl_ids m = ids ∧
  is_ambiguous m = bool_decide (1 < length ids) ∧
  ∀ r, r ∈ rows → PyStr.upper (row_name r) = PyStr.upper (PyStr.strip raw) →
       row_id r ∈ ensembl_ids m.
Proof.
  intros Hshape m ids. subst m.
  rewrite (resolve_one_name_lookup _ false raw (not_shape_no_match raw Hshape)).
  destruct (name_lookup_preference_off (build_gene_dict rows) (PyStr.strip raw))
    as [-> ->].
  rewrite build_candidates. fold ids. split; [reflexivity|]. split; [reflexivity|].
  intros r Hr Hn. unfold ids, ids_named.
  apply list_elem_of_fmap. exists r. split; [reflexivity|].
  apply list_elem_of_filter. auto.
Qed.

(** X6: on the dictionary built from a var table a token of
    stable-identifier shape resolves to its uppercase form, and its
    canonical name is the name of the last row with that identifier, or
    absent when no row has it. *)
Theorem identifier_round_trip rows pc raw :
  stable_id_shape (PyStr.strip raw) →
  let m := resolve_one (build_gene_dict rows) pc raw in
  let i := PyStr.upper (PyStr.strip raw) in
  ensembl_ids m = [i] ∧
  canonical_name m = row_name <$> last_row_with_id rows i.
Proof.
  intros Hshape m i. subst m.
  rewrite (resolve_one_passthrough _ pc raw (proj2 (ensembl_match_shape raw) Hshape)).
  unfold passthrough, build_gene_dict. fold i.
  rewrite foldl_add_row_id_to_name. cbn [id_to_name GeneDict_empty].
  rewrite lookup_empty.
  destruct (last_row_with_id rows i); split; reflexivity.
Qed.

(** ** Identifier-shaped tokens are alphanumeric *)

Lemma upper_char_alnum b :
  pattern_letter (PyStr.byte b) || PyStr.isdecimal (PyStr.byte b) = true →
  PyStr.isupper (PyStr.upper_char b) || PyStr.isdigit (PyStr.upper_char b) = true.
Proof. by_cases_on_char b; vm_compute; intros H; first [reflexivity|discriminate H]. Qed.

Lemma upper_alnum s :
  PyStr.is_ascii s = true →
  Forall (λ c, pattern_letter c || PyStr.isdecimal c = true) (PyStr.decode s) →
  PyStr.all (λ c, PyStr.isupper c || PyStr.isdigit c) (PyStr.upper s) = true.
Proof.
  induction s as [|b r IH]; [reflexivity|].
  intros [Hb Hr]%is_ascii_cons.
  rewrite (decode_ascii_cons b r Hb), (upper_ascii_cons b r Hb).
  intros [Hc Hl]%Forall_cons. cbn [PyStr.all].
  rewrite (upper_char_alnum b Hc), (IH Hr Hl). reflexivity.
Qed.

Lemma same_letter_pattern c x :
  PyStr.isupper x = true → same_letter c x →
  pattern_letter c || PyStr.isdecimal c = true.
Proof.
  intros Hx Hc. apply orb_true_iff. left.
  apply pattern_letter_case_forms. eauto.
Qed.

Lemma forallb_Forall_impl (p q : N → bool) l :
  (∀ c, p c = true → q c = true) →
  forallb p l = true → Forall (λ c, q c = true) l.
Proof.
  intros Hpq. induction l as [|c l IH]; [constructor|].
  cbn [forallb]. intros [Hc Hl]%andb_true_iff. constructor; auto.
Qed.

Lemma shape_alnum s :
  stable_id_shape s →
  Forall (λ c, pattern_letter c || PyStr.isdecimal c = true) (PyStr.decode s).
Proof.
  intros (e & n & s3 & mid & g & d & digits & -> & He & Hn & Hs & Hmid & Hg
          & Hd & Hdig).
  repeat apply Forall_cons_2;
    [eapply same_letter_pattern; [|eassumption]; reflexivity..|].
  apply Forall_app. split.
  - revert Hmid. apply forallb_Forall_impl. intros c ->. reflexivity.
  - repeat apply Forall_cons_2.
    + eapply same_letter_pattern; [|eassumption]; reflexivity.
    + rewrite Hd. apply orb_true_r.
    + revert Hdig. apply forallb_Forall_impl. intros c ->. apply orb_true_r.
Qed.

(** ** The characters of a passed-through identifier *)

(** No stray byte is a letter or a digit. *)
Lemma escape_not_shape b :
  pattern_letter (PyStr.escape (PyStr.byte b)) ||
  PyStr.isdecimal (PyStr.escape (PyStr.byte b)) = false.
Proof. by_cases_on_char b; reflexivity. Qed.

(** The uppercase form of a letter of the pattern is a capital, and a
    digit is its own uppercase form. *)
Lemma upper_cp_shape c :
  pattern_letter c || PyStr.isdecimal c = true →
  forallb (λ u, capital_letter u || PyStr.isdecimal u) (PyStr.upper_cp c) = true.
Proof.
  destruct (PyStr.isdecimal c) eqn:D.
  { intros _. rewrite (upper_cp_decimal c D). cbn [forallb].
    rewrite D, orb_true_r. reflexivity. }
  rewrite orb_false_r. intros (x & Hx & Hc)%pattern_letter_case_forms.
  unfold same_letter in Hc. clear D.
  destruct x as [[] [] [] [] [] [] [] []];
    first [discriminate Hx|
           vm_compute in Hc;
           repeat (apply elem_of_cons in Hc as [->|Hc]; [vm_compute; reflexivity|]);
           inversion Hc].
Qed.

Lemma forallb_Forall (p : N → bool) l :
  forallb p l = true → Forall (λ c, p c = true) l.
Proof.
  induction l as [|c l IH]; [constructor|].
  cbn [forallb]. intros [Hc Hl]%andb_true_iff. constructor; auto.
Qed.

(** The uppercase form of a token made of letters of the pattern and of
    digits is made of capitals and digits. *)
Lemma upper_shape_chars s :
  Forall (λ c, pattern_letter c || PyStr.isdecimal c = true) (PyStr.decode s) →
  Forall (λ c, capital_letter c || PyStr.isdecimal c = true)
    (PyStr.decode (PyStr.upper s)).
Proof.
  induction s as [s IH] using string_length_ind.
  destruct s as [|b1 r1]; [constructor|].
  destruct (step_cases b1 r1) as [(c & r & [Hs Hm] & E & Hlen)|[Ha E]].
  - rewrite E, (decode_utf8 c r Hs Hm), (upper_utf8 c r Hs Hm).
    intros [Hc Hl]%Forall_cons.
    rewrite decode_encode by (apply upper_cp_valid; assumption).
    apply Forall_app. split; [|exact (IH r Hlen Hl)].
    apply forallb_Forall, upper_cp_shape, Hc.
  - rewrite E. intros [Hc _]%Forall_cons.
    rewrite escape_not_shape in Hc. discriminate Hc.
Qed.

Lemma Forall_forallb (p : N → bool) l :
  Forall (λ c, p c = true) l → forallb p l = true.
Proof.
  induction 1 as [|c l Hc _ IH]; [reflexivity|].
  cbn [forallb]. rewrite Hc, IH. reflexivity.
Qed.

(** X15: the identifier of a passed-through token consists of capital
    letters and decimal digits only: the characters A to Z, U+0130,
    U+212A and the digits of [\d]; when the token is ASCII, the bytes A
    to Z and 0 to 9. *)
Theorem passthrough_id_alphanumeric gd pc raw :
  stable_id_shape (PyStr.strip raw) →
  ∃ i, ensembl_ids (resolve_one gd pc raw) = [i] ∧
       forallb (λ c, capital_letter c || PyStr.isdecimal c) (PyStr.decode i) = true ∧
       (PyStr.is_ascii raw = true →
        PyStr.all (λ c, PyStr.isupper c || PyStr.isdigit c) i = true).
Proof.
  intros Hshape. exists (PyStr.upper (PyStr.strip raw)). split; [|split].
  - rewrite (resolve_one_passthrough gd pc raw
               (proj2 (ensembl_match_shape raw) Hshape)).
    unfold passthrough.
    destruct (id_to_name gd !! PyStr.upper (PyStr.strip raw)); reflexivity.
  - apply Forall_forallb, upper_shape_chars, shape_alnum, Hshape.
  - intros Hascii.
    apply upper_alnum; [apply is_ascii_strip, Hascii|apply shape_alnum, Hshape].
Qed.

(** ** Dictionary acquisition, continued *)

(** X17: once a call has returned a dictionary, every later call with
    the same arguments returns that dictionary from the memo, in any
    world and with nothing logged; entries of other keys are untouched. *)
Theorem get_gene_dict_memoised memo w v o memo' l gd :
  Cache._get_gene_dict memo w v o = (memo', l, Cache.Ok gd) →
  (∀ w', Cache._get_gene_dict memo' w' v o = (memo', [], Cache.Ok gd)) ∧
  (∀ k, k ≠ (v, o) → memo' !! k = memo !! k).
Proof.
  unfold Cache._get_gene_dict.
  destruct (memo !! (v, o)) as [g|] eqn:Hm.
  - intros [= <- <- <-]. split; [|reflexivity].
    intros w'. rewrite Hm. reflexivity.
  - destruct (Cache._get_gene_dict_body w v o) as [l0 [g|e]]; [|discriminate].
    intros [= <- <- <-]. split.
    + intros w'. rewrite lookup_insert_eq. reflexivity.
    + intros k Hk. apply lookup_insert_ne. congruence.
Qed.

(** X18: a call raises [e] exactly when the memo has no entry and either
    [os.makedirs] raises [e], or the directory is there, the cache file
    exists, and opening or unpickling it raises [e], an exception outside
    the two handled classes. *)
Theorem get_gene_dict_raises_iff makedirs memo w v o e :
  let path := Cache.cache_path v o in
  (Cache._get_gene_dict_call makedirs memo w v o).2 = Cache.Raise e ↔
  memo !! (v, o) = None ∧
  (makedirs = Some e ∨
   (makedirs = None ∧ Cache.path_exists w path = true ∧
    Cache.cache_handler_catches e = false ∧
    (Cache.open_rb w path = Some e ∨
     (Cache.open_rb w path = None ∧ Cache.pickle_load w path = Cache.Raise e)))).
Proof.
  cbv zeta. unfold Cache._get_gene_dict_call, Cache._get_gene_dict.
  destruct (memo !! (v, o)) as [g|]; cbn.
  { split; [discriminate|]. intros [H _]. discriminate H. }
  destruct makedirs as [e0|]; cbn.
  { split.
    - intros [= ->]. auto.
    - intros (_ & [[= ->]|[H _]]); [reflexivity|discriminate H]. }
  unfold Cache._get_gene_dict_body.
  destruct (fetch_from_census_returns w v o) as (lf & gf & Hf). rewrite Hf.
  destruct (Cache.path_exists w (Cache.cache_path v o)); cbn.
  2:{ split; [discriminate|]. intros (_ & [H|(_ & H & _)]); discriminate H. }
  destruct (Cache.open_rb w (Cache.cache_path v o)) as [e0|].
  - destruct (Cache.cache_handler_catches e0) eqn:Hc; cbn.
    + split; [discriminate|].
      intros (_ & [H|(_ & _ & He & [[= ->]|[H _]])]);
        [discriminate H|congruence|discriminate H].
    + split.
      * intros [= ->]. auto 8.
      * intros (_ & [H|(_ & _ & _ & [[= ->]|[H _]])]);
          [discriminate H|reflexivity|discriminate H].
  - destruct (Cache.pickle_load w (Cache.cache_path v o)) as [g|e0]; cbn.
    + split; [discriminate|].
      intros (_ & [H|(_ & _ & _ & [H|[_ H]])]); discriminate H.
    + destruct (Cache.cache_handler_catches e0) eqn:Hc; cbn.
      * split; [discriminate|].
        intros (_ & [H|(_ & _ & He & [H|[_ [= ->]]])]);
          [discriminate H|discriminate H|congruence].
      * split.
        -- intros [= ->]. auto 8.
        -- intros (_ & [H|(_ & _ & _ & [H|[_ [= ->]]])]);
             [discriminate H|discriminate H|reflexivity].
Qed.

(** X20: with no cache file, a census read that raises gives the empty
    dictionary, logged as an error, and that empty dictionary is
    memoised: later calls return it in any world without fetching. *)
Theorem failed_fetch_is_memoised memo w v o e :
  memo !! (v, o) = None →
  Cache.path_exists w (Cache.cache_path v o) = false →
  Cache.census_read w v (Cache.census_organism o) = Cache.Raise e →
  let memo' := <[(v, o) := GeneDict_empty]> memo in
  Cache._get_gene_dict memo w v o =
    (memo', [Cache.InfoFetching v o; Cache.ErrorFetching e],
     Cache.Ok GeneDict_empty) ∧
  ∀ w', Cache._get_gene_dict memo' w' v o = (memo', [], Cache.Ok GeneDict_empty).
Proof.
  intros Hm Hp Hc memo'. split.
  - unfold Cache._get_gene_dict, Cache._get_gene_dict_body, Cache.fetch_from_census.
    rewrite Hm, Hp, Hc. reflexivity.
  - intros w'. unfold Cache._get_gene_dict, memo'.
    rewrite lookup_insert_eq. reflexivity.
Qed.

(** X21: with no cache file, when the census read succeeds but the cache
    file cannot be written, the dictionary built from the rows is still
    returned and memoised, and the error is logged. *)
Theorem unwritable_cache_still_serves memo w v o rows e :
  memo !! (v, o) = None →
  Cache.path_exists w (Cache.cache_path v o) = false →
  Cache.census_read w v (Cache.census_organism o) = Cache.Ok (Some rows) →
  Cache.cache_dump w (Cache.cache_path v o) (build_gene_dict rows) = Cache.Raise e →
  Cache._get_gene_dict memo w v o =
    (<[(v, o) := build_gene_dict rows]> memo,
     [Cache.InfoFetching v o; Cache.ErrorFetching e],
     Cache.Ok (build_gene_dict rows)).
Proof.
  intros Hm Hp Hc Hd.
  unfold Cache._get_gene_dict, Cache._get_gene_dict_body, Cache.fetch_from_census.
  rewrite Hm, Hp, Hc. fold (build_gene_dict rows). rewrite Hd. reflexivity.
Qed.

(** ** The filter expression, continued *)

Lemma sorted_set_singleton x : sorted_set [x] = [x].
Proof.
  symmetry. apply sorted_set_unique.
  - repeat constructor.
  - apply NoDup_singleton.
  - reflexivity.
Qed.

Lemma sorted_set_pair x y :
  String.le x y → x ≠ y → sorted_set [x; y] = [x; y].
Proof.
  intros Hle Hne. symmetry. apply sorted_set_unique.
  - repeat constructor. exact Hle.
  - apply NoDup_cons. split; [|apply NoDup_singleton].
    intros H. apply list_elem_of_singleton in H. contradiction.
  - reflexivity.
Qed.

(** X23: identifiers are quoted without escaping: one identifier that
    contains a quote, comma, space, quote sequence gives the same filter
    as the two identifiers around that sequence. *)
Theorem build_var_value_filter_no_escaping x y :
  String.le x y → x ≠ y →
  build_var_value_filter [x +:+ "', '" +:+ y] = build_var_value_filter [x; y].
Proof.
  intros Hle Hne. rewrite !build_var_value_filter_unfold.
  rewrite sorted_set_singleton, (sorted_set_pair x y Hle Hne).
  cbn [quoted_ids]. f_equal. rewrite !sapp_assoc. sapp. reflexivity.
Qed.

Lemma elem_of_all_ids (ms : list GeneMatch) x :
  x ∈ all_ids ms ↔ ∃ m, m ∈ ms ∧ x ∈ ensembl_ids m.
Proof.
  unfold all_ids. rewrite list_elem_of_bind. split; intros (m & H1 & H2); eauto.
Qed.

(** X24: the filter built from resolved gene names depends only on the
    set of names given, not on their order or repetition. *)
Theorem var_filter_of_same_names gd pc (names names' : list string) :
  (∀ x, x ∈ names ↔ x ∈ names') →
  var_filter_of gd names pc = var_filter_of gd names' pc.
Proof.
  intros H. unfold var_filter_of, build_var_value_filter.
  rewrite (list_to_set_same (all_ids (resolve_genes gd names pc))
             (all_ids (resolve_genes gd names' pc))); [reflexivity|].
  intros x. rewrite !elem_of_all_ids, !resolve_genes_fmap.
  split; intros (m & Hm & Hx); apply list_elem_of_fmap in Hm as (raw & -> & Hraw);
    exists (resolve_one gd pc raw); (split; [|exact Hx]);
    apply list_elem_of_fmap; exists raw; (split; [reflexivity|]); apply H, Hraw.
Qed.

Lemma sorted_set_nil (ids : list string) : sorted_set ids = [] ↔ ids = [].
Proof.
  split.
  - intros E. destruct ids as [|i ids0]; [reflexivity|].
    assert (Hi : i ∈ sorted_set (i :: ids0)) by (apply elem_of_sorted_set; left).
    rewrite E in Hi. inversion Hi.
  - intros ->. reflexivity.
Qed.

Lemma all_ids_nil gd pc (names : list string) :
  all_ids (resolve_one gd pc <$> names) = [] ↔
  Forall (λ raw, ensembl_ids (resolve_one gd pc raw) = []) names.
Proof.
  unfold all_ids. induction names as [|raw names IH]; cbn.
  - split; auto.
  - rewrite Forall_cons. split.
    + intros E. apply app_eq_nil in E as [E1 E2]. split; [exact E1|]. apply IH, E2.
    + intros [E1 E2]. rewrite E1. apply IH, E2.
Qed.

(** X25: the filter built from resolved gene names is the empty string
    exactly when no name resolved to any identifier. *)
Theorem var_filter_of_empty_iff gd pc (names : list string) :
  var_filter_of gd names pc = "" ↔
  Forall (λ raw, ensembl_ids (resolve_one gd pc raw) = []) names.
Proof.
  unfold var_filter_of. rewrite build_var_value_filter_unfold.
  rewrite <- all_ids_nil, <- resolve_genes_fmap, <- sorted_set_nil.
  destruct (sorted_set (all_ids (resolve_genes gd names pc)));
    split; (reflexivity || discriminate).
Qed.

(** ** The properties above on concrete inputs *)

Lemma build_gene_dict_keys_witness :
  PyStr.upper "AMBIG" = "AMBIG" ∧
  ["ENSG00000000001"; "ENSG00000000002"] ≠ ([] : list string).
Proof.
  apply (build_gene_dict_keys sample_rows "AMBIG"
           ["ENSG00000000001"; "ENSG00000000002"]).
  vm_compute. reflexivity.
Defined.

Lemma symbol_round_trip_witness :
  ensembl_ids (resolve_one (build_gene_dict sample_rows) false " ambig ") =
  ["ENSG00000000001"; "ENSG00000000002"].
Proof.
  apply (proj1 (symbol_round_trip sample_rows " ambig "
                  ltac:(intros H; apply ensembl_match_shape in H;
                        vm_compute in H; discriminate H))).
Defined.

Lemma identifier_round_trip_witness :
  canonical_name
    (resolve_one (build_gene_dict sample_rows) true "ensg00000141510") =
  Some "tp53-new".
Proof.
  apply (proj2 (identifier_round_trip sample_rows true "ensg00000141510"
                  ltac:(apply ensembl_match_shape; vm_compute; reflexivity))).
Defined.

Lemma resolve_one_case_insensitive_witness :
  ensembl_ids (resolve_one sample_gene_dict true " tp53") =
  ensembl_ids (resolve_one sample_gene_dict true "TP53 ").
Proof.
  apply (proj1 (resolve_one_case_insensitive sample_gene_dict true " tp53" "TP53 "
                  ltac:(reflexivity) ltac:(reflexivity)
                  ltac:(vm_compute; reflexivity))).
Defined.

Lemma single_candidate_resolution_witness :
  resolve_one sample_gene_dict true "brca1" =
  mkGeneMatch "brca1" ["ENSG00000012048"] (Some "BRCA1") false ["protein_coding"].
Proof.
  apply (single_candidate_resolution sample_gene_dict true "brca1" "ENSG00000012048").
  - intros H. apply ensembl_match_shape in H. vm_compute in H. discriminate H.
  - vm_compute. reflexivity.
Defined.

Lemma passthrough_ignores_symbols_witness :
  resolve_one sample_gene_dict true "ENSG00000141510" =
  resolve_one
    (mkGeneDict ∅ (id_to_name sample_gene_dict)
       (id_to_feature_type sample_gene_dict))
    false "ENSG00000141510".
Proof.
  apply (passthrough_ignores_symbols sample_gene_dict
           (mkGeneDict ∅ (id_to_name sample_gene_dict)
              (id_to_feature_type sample_gene_dict))
           true false "ENSG00000141510").
  - apply ensembl_match_shape. vm_compute. reflexivity.
  - reflexivity.
  - reflexivity.
Defined.

Lemma passthrough_id_alphanumeric_witness :
  ∃ i, ensembl_ids
         (resolve_one GeneDict_empty true
            (" ens" +:+ PyStr.encode [383; 305; 8490]%N +:+ "g1" +:+
             PyStr.encode [1634]%N +:+ " ")) = [i] ∧
       forallb (λ c, capital_letter c || PyStr.isdecimal c) (PyStr.decode i) = true ∧
       (PyStr.is_ascii
          (" ens" +:+ PyStr.encode [383; 305; 8490]%N +:+ "g1" +:+
           PyStr.encode [1634]%N +:+ " ") = true →
        PyStr.all (λ c, PyStr.isupper c || PyStr.isdigit c) i = true).
Proof.
  apply (passthrough_id_alphanumeric GeneDict_empty true
           (" ens" +:+ PyStr.encode [383; 305; 8490]%N +:+ "g1" +:+
            PyStr.encode [1634]%N +:+ " ")).
  apply ensembl_match_shape. vm_compute. reflexivity.
Defined.

Lemma get_gene_dict_memoised_witness :
  Cache._get_gene_dict (<[("latest", "homo_sapiens") := GeneDict_empty]> ∅)
    read_only_world "latest" "homo_sapiens" =
  (<[("latest", "homo_sapiens") := GeneDict_empty]> ∅, [], Cache.Ok GeneDict_empty).
Proof.
  assert (H : Cache._get_gene_dict ∅ census_down_world "latest" "homo_sapiens" =
              (<[("latest", "homo_sapiens") := GeneDict_empty]> ∅,
               [Cache.InfoFetching "latest" "homo_sapiens";
                Cache.ErrorFetching Cache.OSError],
               Cache.Ok GeneDict_empty))
    by (vm_compute; reflexivity).
  apply (proj1 (get_gene_dict_memoised _ _ _ _ _ _ _ H) read_only_world).
Defined.

Lemma failed_fetch_is_memoised_witness :
  Cache._get_gene_dict ∅ census_down_world "latest" "homo_sapiens" =
  (<[("latest", "homo_sapiens") := GeneDict_empty]> ∅,
   [Cache.InfoFetching "latest" "homo_sapiens"; Cache.ErrorFetching Cache.OSError],
   Cache.Ok GeneDict_empty).
Proof.
  apply (failed_fetch_is_memoised ∅ census_down_world "latest" "homo_sapiens"
           Cache.OSError); reflexivity.
Defined.

Lemma unwritable_cache_still_serves_witness :
  Cache._get_gene_dict ∅ read_only_world "latest" "homo_sapiens" =
  (<[("latest", "homo_sapiens") := build_gene_dict sample_rows]> ∅,
   [Cache.InfoFetching "latest" "homo_sapiens"; Cache.ErrorFetching Cache.OSError],
   Cache.Ok (build_gene_dict sample_rows)).
Proof.
  apply (unwritable_cache_still_serves ∅ read_only_world "latest" "homo_sapiens"
           sample_rows Cache.OSError); reflexivity.
Defined.

Lemma build_var_value_filter_no_escaping_witness :
  build_var_value_filter ["ENSG1" +:+ "', '" +:+ "ENSG2"] =
  build_var_value_filter ["ENSG1"; "ENSG2"].
Proof.
  apply (build_var_value_filter_no_escaping "ENSG1" "ENSG2").
  - vm_compute. exact I.
  - discriminate.
Defined.

Lemma var_filter_of_same_names_witness :
  var_filter_of sample_gene_dict ["TP53"; "BRCA1"] true =
  var_filter_of sample_gene_dict ["BRCA1"; "TP53"; "TP53"] true.
Proof.
  apply (var_filter_of_same_names sample_gene_dict true
           ["TP53"; "BRCA1"] ["BRCA1"; "TP53"; "TP53"]).
  intros x. rewrite !elem_of_cons, !elem_of_nil. tauto.
Defined.

